(** * The six-vertex MCMC sampler of [main.c]

    A shallow embedding of [main.c]: the lattice of [mstruct] cells, the
    flippability test, the relabelling of the four cells of a move, the
    incremental height and volume bookkeeping, the weight ratio and its
    normaliser [rho], the choice of the cell, the pass of the main loop
    over the two matrices, the height builder, the input parser, the
    start-up and the initialisation of [main], and the output routines:
    the snapshot, the picture of a vertex and the PDF preview, the volume,
    the total weight and the density of c-vertices.

    Conventions.
    - A C [int] or [long long] is a [Z].  Stored heights are counts of
      cells of one row and volumes are sums of such counts over the
      lattice, below [2^31] for the [MAXROWS] x [MAXCOLS] arrays of the
      program (shown below), so no wrap-around is written out.
    - A global array [mstruct matrix[MAXROWS][MAXCOLS]] is a total function
      from a row and a column to a cell; an assignment to one cell is a
      point-wise update.  The flip kernel is called by the driver on
      flippable cells only, and there every index it uses is inside the
      lattice, as is shown below.
    - A C [double] of the weights is an abstract carrier with the
      operations the program uses on it; it is instantiated with exact
      rationals and with the IEEE 754 binary64 numbers of the kernel.  The
      coordinates of the drawings and the quotient of the cell choice are
      exact rationals.
    - The preprocessor flags are constants: in the source [STICKY] is [0]
      and the flags of the output routines are [1].
    - Of the mirrored routines, [getisflippable2] is embedded from its own
      text, which differs from that of [getisflippable]; the others are,
      statement for statement, the routines of the first matrix on
      [matrix2] and [matrixvol2], and are embedded as such.
    - The output routines are embedded by what they write; the files they
      open for writing are taken to open. *)

From Stdlib Require Import ZArith List Bool Lia QArith Qfield Floats.
From Stdlib Require Import Strings.Byte Strings.String.
Import ListNotations.
Local Open Scope Z_scope.

(** ** Constants and globals *)

Definition MAXROWS : Z := 1000.
Definition MAXCOLS : Z := 1000.
Definition STICKY : bool := false.
Definition LOW : Z := 0.
Definition HIGH : Z := 1.

(** [struct mstruct { int type; int height; }] *)
Record mstruct : Type := Mstruct { type : Z; height : Z }.

(** [mstruct matrix[MAXROWS][MAXCOLS]] *)
Definition lattice : Type := Z -> Z -> mstruct.

(** [matrix[r][c].type = v] *)
Definition set_type (m : lattice) (r c v : Z) : lattice :=
  fun i j =>
    if (i =? r) && (j =? c) then Mstruct v (height (m i j)) else m i j.

(** [matrix[r][c].height = v] *)
Definition set_height (m : lattice) (r c v : Z) : lattice :=
  fun i j =>
    if (i =? r) && (j =? c) then Mstruct (type (m i j)) v else m i j.

(** [if(matrix[r][c].type == from) { matrix[r][c].type = to; }] *)
Definition relabel (m : lattice) (r c from to : Z) : lattice :=
  if type (m r c) =? from then set_type m r c to else m.

(** [if(v == from) v = to;] on a scratch variable *)
Definition reassign (v from to : Z) : Z :=
  if v =? from then to else v.

(** The globals the flip kernel and the driver read and write. *)
Record state : Type := State {
  matrix : lattice;
  matrix2 : lattice;
  matrixvol : Z;
  flipcompleted : Z;
  flipfailed : Z
}.

(** [for(i = i0; ...; i++) body], run [n] times *)
Fixpoint for_loop {S : Type} (n : nat) (i : Z) (body : Z -> S -> S) (s : S) : S :=
  match n with
  | O => s
  | S n' => for_loop n' (i + 1) body (body i s)
  end.

(** ** The flip kernel *)

Section Kernel.

(** [nrows] and [ncols] are set once at start-up. *)
Variables nrows ncols : Z.

(** [int getisflippable(int *rpos, int *cpos, int *type)] *)
Definition getisflippable (m m2 : lattice) (rpos cpos ftype : Z) : Z :=
  if (rpos <? 0) || (rpos >=? nrows) then 0
  else if (cpos <? 0) || (cpos >=? ncols) then 0
  else if negb (ftype =? 0) then
    if (rpos >? 0) && (cpos <? ncols - 1) then
      if (if STICKY
          then height (m rpos cpos) >? height (m2 rpos cpos)
          else true) then
        if (type (m rpos cpos) =? 0) || (type (m rpos cpos) =? 5) then
          if (type (m (rpos - 1) (cpos + 1)) =? 1)
             || (type (m (rpos - 1) (cpos + 1)) =? 5)
          then 1 else 0
        else 0
      else 0
    else 0
  else
    if (rpos <? nrows - 1) && (cpos >? 0) then
      if (type (m rpos cpos) =? 0) || (type (m rpos cpos) =? 4) then
        if (type (m (rpos + 1) (cpos - 1)) =? 1)
           || (type (m (rpos + 1) (cpos - 1)) =? 4)
        then 1 else 0
      else 0
    else 0.

(** [void updatepositions(int *rpos, int *cpos, int *type)] *)
Definition updatepositions (m : lattice) (rpos cpos ftype : Z) : lattice :=
  if negb (ftype =? 0) then
    let m := relabel m rpos cpos 0 4 in
    let m := relabel m rpos cpos 5 1 in
    let m := relabel m (rpos - 1) (cpos + 1) 1 4 in
    let m := relabel m (rpos - 1) (cpos + 1) 5 0 in
    let m := relabel m rpos (cpos + 1) 3 5 in
    let m := relabel m rpos (cpos + 1) 4 2 in
    let m := relabel m (rpos - 1) cpos 2 5 in
    let m := relabel m (rpos - 1) cpos 4 3 in
    m
  else
    let m := relabel m rpos cpos 4 1 in
    let m := relabel m rpos cpos 0 5 in
    let m := relabel m (rpos + 1) (cpos - 1) 4 0 in
    let m := relabel m (rpos + 1) (cpos - 1) 1 5 in
    let m := relabel m rpos (cpos - 1) 5 2 in
    let m := relabel m rpos (cpos - 1) 3 4 in
    let m := relabel m (rpos + 1) cpos 5 3 in
    let m := relabel m (rpos + 1) cpos 2 4 in
    m.

(** [int executeflip(int *rpos, int *cpos, int *type)]: the lattice and
    the volume counter after the call. *)
Definition executeflip (m : lattice) (vol : Z) (rpos cpos ftype : Z)
  : lattice * Z :=
  let m := updatepositions m rpos cpos ftype in
  if negb (ftype =? 0) then
    (set_height m rpos cpos (height (m rpos cpos) - 1), vol - 1)
  else
    (set_height m (rpos + 1) (cpos - 1)
       (height (m (rpos + 1) (cpos - 1)) + 1), vol + 1).

End Kernel.

(** ** Weights, the weight ratio and rho *)

(** The operations on [double] that the program uses: the constant [0],
    [*], [+], [/], [<] and [>=]. *)
Class Double (F : Type) : Type := {
  dzero : F;
  dmul : F -> F -> F;
  dadd : F -> F -> F;
  ddiv : F -> F -> F;
  dlt : F -> F -> bool;
  dge : F -> F -> bool
}.

(** Exact arithmetic: the idealisation in which the bounds are stated. *)
#[export] Instance Double_Q : Double Q := {|
  dzero := 0%Q;
  dmul := Qmult;
  dadd := Qplus;
  ddiv := Qdiv;
  dlt := fun a b => negb (Qle_bool b a);
  dge := fun a b => Qle_bool b a
|}.

(** IEEE 754 binary64, the [double] of the platforms the program runs on. *)
#[export] Instance Double_float : Double float := {|
  dzero := 0%float;
  dmul := PrimFloat.mul;
  dadd := PrimFloat.add;
  ddiv := PrimFloat.div;
  dlt := PrimFloat.ltb;
  dge := fun a b => PrimFloat.leb b a
|}.

Section Weights.

Context {F : Type} `{Double F}.

(** [double wts[6]], filled from the six weights a1, a2, b1, b2, c1, c2;
    the program indexes it with cell types, which are in [0..5] on the
    lattices the flip kernel is meant for. *)
Definition mk_wts (a1 a2 b1 b2 c1 c2 : F) : Z -> F :=
  fun i =>
    match i with
    | 0 => a1 | 1 => a2 | 2 => b1 | 3 => b2 | 4 => c1 | 5 => c2
    | _ => dzero
    end.

Variable wts : Z -> F.

(** [wts[a]*wts[b]*wts[c]*wts[d]], multiplied left to right. *)
Definition w4 (a b c d : Z) : F :=
  dmul (dmul (dmul (wts a) (wts b)) (wts c)) (wts d).

(** [double getweightratio(int *rpos, int *cpos, int *type)]; the scratch
    globals [xshift], [yshift], [dshift] and [base] are locals here. *)
Definition getweightratio (rho : F) (m : lattice) (rpos cpos ftype : Z) : F :=
  let xshift := type (m rpos (cpos - 1 + 2 * ftype)) in
  let yshift := type (m (rpos + 1 - 2 * ftype) cpos) in
  let dshift := type (m (rpos + 1 - 2 * ftype) (cpos - 1 + 2 * ftype)) in
  let base := type (m rpos cpos) in
  if negb (ftype =? 0) then
    let base := reassign base 0 4 in
    let base := reassign base 5 1 in
    let dshift := reassign dshift 1 4 in
    let dshift := reassign dshift 5 0 in
    let xshift := reassign xshift 3 5 in
    let xshift := reassign xshift 4 2 in
    let yshift := reassign yshift 2 5 in
    let yshift := reassign yshift 4 3 in
    ddiv (w4 base xshift yshift dshift) rho
  else
    let base := reassign base 4 1 in
    let base := reassign base 0 5 in
    let dshift := reassign dshift 4 0 in
    let dshift := reassign dshift 1 5 in
    let xshift := reassign xshift 5 2 in
    let xshift := reassign xshift 3 4 in
    let yshift := reassign yshift 5 3 in
    let yshift := reassign yshift 2 4 in
    ddiv (w4 base xshift yshift dshift) rho.

(** [if(rho < cand) rho = cand;] *)
Definition raise (rho cand : F) : F :=
  if dlt rho cand then cand else rho.

(** The eighty candidates of [definerho], in the order of the source. *)
Definition rho_candidates : list F :=
  [
    (* down normal flip possibilities *)
    w4 1 4 5 4;
    w4 1 4 5 3;
    w4 1 4 0 4;
    w4 1 4 0 3;
    w4 1 2 5 4;
    w4 1 2 5 3;
    w4 1 2 0 4;
    w4 1 2 0 3;
    (* up normal flip possibilities *)
    w4 1 3 4 5;
    w4 1 3 4 2;
    w4 1 3 0 5;
    w4 1 3 0 2;
    w4 1 5 4 5;
    w4 1 5 4 2;
    w4 1 5 0 5;
    w4 1 5 0 2;
    (* biflip possibilities *)
    dadd (w4 5 4 5 4) (w4 4 3 4 5);
    dadd (w4 5 4 5 4) (w4 4 3 4 2);
    dadd (w4 5 4 5 4) (w4 4 3 0 5);
    dadd (w4 5 4 5 4) (w4 4 3 0 2);
    dadd (w4 5 4 5 4) (w4 4 5 4 5);
    dadd (w4 5 4 5 4) (w4 4 5 4 2);
    dadd (w4 5 4 5 4) (w4 4 5 1 5);
    dadd (w4 5 4 5 4) (w4 4 5 1 2);
    (* 2 *)
    dadd (w4 5 4 5 3) (w4 4 3 4 5);
    dadd (w4 5 4 5 3) (w4 4 3 4 2);
    dadd (w4 5 4 5 3) (w4 4 3 0 5);
    dadd (w4 5 4 5 3) (w4 4 3 0 2);
    dadd (w4 5 4 5 3) (w4 4 5 4 5);
    dadd (w4 5 4 5 3) (w4 4 5 4 2);
    dadd (w4 5 4 5 3) (w4 4 5 1 5);
    dadd (w4 5 4 5 3) (w4 4 5 1 2);
    (* 3 *)
    dadd (w4 5 4 0 4) (w4 4 3 4 5);
    dadd (w4 5 4 0 4) (w4 4 3 4 2);
    dadd (w4 5 4 0 4) (w4 4 3 0 5);
    dadd (w4 5 4 0 4) (w4 4 3 0 2);
    dadd (w4 5 4 0 4) (w4 4 5 4 5);
    dadd (w4 5 4 0 4) (w4 4 5 4 2);
    dadd (w4 5 4 0 4) (w4 4 5 1 5);
    dadd (w4 5 4 0 4) (w4 4 5 1 2);
    (* 4 *)
    dadd (w4 5 4 0 3) (w4 4 3 4 5);
    dadd (w4 5 4 0 3) (w4 4 3 4 2);
    dadd (w4 5 4 0 3) (w4 4 3 0 5);
    dadd (w4 5 4 0 3) (w4 4 3 0 2);
    dadd (w4 5 4 0 3) (w4 4 5 4 5);
    dadd (w4 5 4 0 3) (w4 4 5 4 2);
    dadd (w4 5 4 0 3) (w4 4 5 1 5);
    dadd (w4 5 4 0 3) (w4 4 5 1 2);
    (* 5 *)
    dadd (w4 5 2 5 4) (w4 4 3 4 5);
    dadd (w4 5 2 5 4) (w4 4 3 4 2);
    dadd (w4 5 2 5 4) (w4 4 3 0 5);
    dadd (w4 5 2 5 4) (w4 4 3 0 2);
    dadd (w4 5 2 5 4) (w4 4 5 4 5);
    dadd (w4 5 2 5 4) (w4 4 5 4 2);
    dadd (w4 5 2 5 4) (w4 4 5 1 5);
    dadd (w4 5 2 5 4) (w4 4 5 1 2);
    (* 6 *)
    dadd (w4 5 2 5 3) (w4 4 3 4 5);
    dadd (w4 5 2 5 3) (w4 4 3 4 2);
    dadd (w4 5 2 5 3) (w4 4 3 0 5);
    dadd (w4 5 2 5 3) (w4 4 3 0 2);
    dadd (w4 5 2 5 3) (w4 4 5 4 5);
    dadd (w4 5 2 5 3) (w4 4 5 4 2);
    dadd (w4 5 2 5 3) (w4 4 5 1 5);
    dadd (w4 5 2 5 3) (w4 4 5 1 2);
    (* 7 *)
    dadd (w4 5 2 0 4) (w4 4 3 4 5);
    dadd (w4 5 2 0 4) (w4 4 3 4 2);
    dadd (w4 5 2 0 4) (w4 4 3 0 5);
    dadd (w4 5 2 0 4) (w4 4 3 0 2);
    dadd (w4 5 2 0 4) (w4 4 5 4 5);
    dadd (w4 5 2 0 4) (w4 4 5 4 2);
    dadd (w4 5 2 0 4) (w4 4 5 1 5);
    dadd (w4 5 2 0 4) (w4 4 5 1 2);
    (* 8 *)
    dadd (w4 5 2 0 3) (w4 4 3 4 5);
    dadd (w4 5 2 0 3) (w4 4 3 4 2);
    dadd (w4 5 2 0 3) (w4 4 3 0 5);
    dadd (w4 5 2 0 3) (w4 4 3 0 2);
    dadd (w4 5 2 0 3) (w4 4 5 4 5);
    dadd (w4 5 2 0 3) (w4 4 5 4 2);
    dadd (w4 5 2 0 3) (w4 4 5 1 5);
    dadd (w4 5 2 0 3) (w4 4 5 1 2)
  ].

(** [double definerho(void)]: the global [rho] after the eighty tests,
    from its value before them ([0] at start-up). *)
Definition definerho (rho : F) : F :=
  fold_left raise rho_candidates rho.

End Weights.

(** ** The driver's handling of the first matrix *)

Section Driver.

Context {F : Type} `{Double F}.
Variables nrows ncols : Z.
Variable wts : Z -> F.
Variable rho : F.

(** [executeflip(...); flipcompleted++;] *)
Definition flip_done (st : state) (rpos cpos ftype : Z) : state :=
  let mv := executeflip (matrix st) (matrixvol st) rpos cpos ftype in
  State (fst mv) (matrix2 st) (snd mv) (flipcompleted st + 1) (flipfailed st).

(** [flipfailed++;] *)
Definition flip_failed (st : state) : state :=
  State (matrix st) (matrix2 st) (matrixvol st)
        (flipcompleted st) (flipfailed st + 1).

(** One pass of the main loop over the first matrix, from
    [vcanfliphigh1 = getisflippable(...)] to "end dealing with the first
    matrix".  [random] is the value of [(double) rand()/RAND_MAX] drawn
    inside the branch taken; no draw is made when neither flip is
    possible. *)
Definition handle_matrix1 (st : state) (flipchoicerow flipchoicecol : Z)
           (random : F) : state :=
  let vcanfliphigh1 :=
    getisflippable nrows ncols (matrix st) (matrix2 st)
                   flipchoicerow flipchoicecol HIGH in
  let vcanfliplow1 :=
    getisflippable nrows ncols (matrix st) (matrix2 st)
                   flipchoicerow flipchoicecol LOW in
  if (vcanfliphigh1 =? 1) && (vcanfliplow1 =? 0) then
    let flipchance :=
      getweightratio wts rho (matrix st) flipchoicerow flipchoicecol HIGH in
    if dge flipchance random
    then flip_done st flipchoicerow flipchoicecol HIGH
    else flip_failed st
  else if (vcanfliphigh1 =? 0) && (vcanfliplow1 =? 1) then
    let flipchance :=
      getweightratio wts rho (matrix st) flipchoicerow flipchoicecol LOW in
    if dge flipchance random
    then flip_done st flipchoicerow flipchoicecol LOW
    else flip_failed st
  else if (vcanfliphigh1 =? 1) && (vcanfliplow1 =? 1) then
    let flipchance :=
      getweightratio wts rho (matrix st) flipchoicerow flipchoicecol HIGH in
    let flipchance2 :=
      getweightratio wts rho (matrix st) flipchoicerow flipchoicecol LOW in
    if dge flipchance random
    then flip_done st flipchoicerow flipchoicecol HIGH
    else if dge (dadd flipchance flipchance2) random
    then flip_done st flipchoicerow flipchoicecol LOW
    else flip_failed st
  else st.

End Driver.

(** ** Height builder and volume sink *)

(** The test [type == 0 || type == 2 || type == 5] of both routines. *)
Definition carries_height (t : Z) : bool :=
  (t =? 0) || (t =? 2) || (t =? 5).

(** The variables of the two nested loops of [setheights]. *)
Record hvars : Type := Hvars { hmatrix : lattice; current : Z; total : Z }.

Section Heights.

Variables nrows ncols : Z.

(** The body of the inner loop of [setheights]. *)
Definition setheights_cell (i j : Z) (s : hvars) : hvars :=
  let cur :=
    if carries_height (type (hmatrix s i j)) then current s + 1
    else current s in
  Hvars (set_height (hmatrix s) i j cur) cur (total s + cur).

(** The body of its outer loop: [current = 0;] and the inner loop. *)
Definition setheights_row (i : Z) (s : hvars) : hvars :=
  for_loop (Z.to_nat ncols) 0 (setheights_cell i)
           (Hvars (hmatrix s) 0 (total s)).

(** [int setheights(void)]: the matrix with its heights set, and the
    returned total. *)
Definition setheights (m : lattice) : lattice * Z :=
  let s := for_loop (Z.to_nat nrows) 0 setheights_row (Hvars m 0 0) in
  (hmatrix s, total s).

(** The body of the inner loop of [print_volume]: the same count, with no
    store into the matrix. *)
Definition print_volume_cell (i j : Z) (s : hvars) : hvars :=
  let cur :=
    if carries_height (type (hmatrix s i j)) then current s + 1
    else current s in
  Hvars (hmatrix s) cur (total s + cur).

Definition print_volume_row (i : Z) (s : hvars) : hvars :=
  for_loop (Z.to_nat ncols) 0 (print_volume_cell i)
           (Hvars (hmatrix s) 0 (total s)).

(** [void print_volume(void)]: the integer written to [matrix.volume]. *)
Definition print_volume (m : lattice) : Z :=
  total (for_loop (Z.to_nat nrows) 0 print_volume_row (Hvars m 0 0)).

End Heights.

(** ** The input parser *)

(** [EOF] of the C library. *)
Definition EOF : Z := -1.

(** [(int)'0'] *)
Definition char_0 : Z := Z.of_N (Byte.to_N "0"%byte).

(** [fgetc(data)]: the next byte as an [unsigned char] converted to [int],
    or [EOF]; and the rest of the stream. *)
Definition fgetc (data : list byte) : Z * list byte :=
  match data with
  | [] => (EOF, [])
  | b :: rest => (Z.of_N (Byte.to_N b), rest)
  end.

Section Parse.

Variables nrows ncols : Z.

(** [matrix[i][j].type = (int)fgetc(data)-(int)'0';] *)
Definition parse_cell (i j : Z) (s : lattice * list byte)
  : lattice * list byte :=
  let cr := fgetc (snd s) in
  (set_type (fst s) i j (fst cr - char_0), snd cr).

Definition parse_row (i : Z) (s : lattice * list byte)
  : lattice * list byte :=
  for_loop (Z.to_nat ncols) 0 (parse_cell i) s.

(** [void parse(FILE *data)]: the matrix after the call.  It has no
    other result: nothing is returned and nothing is reported. *)
Definition parse (m : lattice) (data : list byte) : lattice :=
  fst (for_loop (Z.to_nat nrows) 0 parse_row (m, data)).

End Parse.

(** The arrays are globals, so they start zeroed. *)
Definition zero_lattice : lattice := fun _ _ => Mstruct 0 0.

(** [matrixvol = setheights()] after [parse(data)]: the first matrix and its
    volume counter as the main loop finds them. *)
Definition initialise (nrows ncols : Z) (data : list byte) : lattice * Z :=
  setheights nrows ncols (parse nrows ncols zero_lattice data).

(** ** Start-up of [main] *)

(** What [main] sees of its surroundings up to the opening of the two
    files: the strings [argv[0]] to [argv[argc-1]], the two lines [fgets]
    reads from [stdin] in the interactive mode ([None] when it returns
    [NULL]), and the file system as [fopen(name, "r")] sees it ([None] when
    it returns [NULL]). *)
Record environment : Type := Environment {
  argv : list string;
  stdin_line1 : option string;
  stdin_line2 : option string;
  fopen : string -> option (list byte)
}.

(** [argc], the number of strings in [argv]. *)
Definition argc (env : environment) : Z := Z.of_nat (List.length (argv env)).

(** [argv[i]] as a string: there is one for [i < argc]; [argv[argc]] is the
    null pointer and what follows it is outside the array, so [atoi],
    [atof] and [nltrim] applied to such an entry have no defined
    behaviour. *)
Definition arg (env : environment) (i : nat) : option string :=
  nth_error (argv env) i.

(** The character ['\n'], and the string made of it. *)
Definition newline_char : Ascii.ascii := Ascii.ascii_of_nat 10.
Definition newline : string := String newline_char EmptyString.

(** [int nltrim(char s[])]: the string it leaves in [s]. *)
Fixpoint nltrim (s : string) : string :=
  match s with
  | EmptyString => EmptyString
  | String c EmptyString =>
      if Ascii.eqb c newline_char then EmptyString else s
  | String c rest => String c (nltrim rest)
  end.

(** One read after the other, as long as each finds its string. *)
Definition and_then {A B : Type} (o : option A) (k : A -> option B)
  : option B :=
  match o with
  | Some a => k a
  | None => None
  end.

Notation "x <- o ;; k" := (and_then o (fun x => k))
  (at level 61, o at next level, right associativity).

(** The branch [if(argc > 1)] of [main] up to its first [fopen]: every
    entry of [argv] it reads, in the order of the source, and the two file
    names as [nltrim] leaves them.  [None]: one of the entries read is not
    a string of [argv]. *)
Definition command_line (env : environment) : option (string * string) :=
  filename <- arg env 1 ;;        (* char *filename = argv[1]; *)
  filename2 <- arg env 2 ;;       (* char *filename2 = argv[2]; *)
  _ <- arg env 3 ;;               (* nrows = atoi(argv[3]); *)
  _ <- arg env 4 ;;               (* ncols = atoi(argv[4]); *)
  _ <- arg env 5 ;;               (* wts[0] = atof(argv[5]); *)
  _ <- arg env 6 ;;               (* wts[1] = atof(argv[6]); *)
  _ <- arg env 7 ;;               (* wts[2] = atof(argv[7]); *)
  _ <- arg env 8 ;;               (* wts[3] = atof(argv[8]); *)
  _ <- arg env 9 ;;               (* wts[4] = atof(argv[9]); *)
  _ <- arg env 10 ;;              (* wts[5] = atof(argv[10]); *)
  _ <- arg env 11 ;;              (* the six intervals = atoi(argv[11]); *)
  _ <- arg env 12 ;;              (* cdensitystep = atoi(argv[12]); *)
  _ <- arg env 13 ;;              (* flipstodo = atof(argv[13]); *)
  Some (nltrim filename, nltrim filename2).

(** A call of [printf], with the text it writes to the standard output. *)
Inductive output : Type :=
| Printf (text : string).

(** [main] either returns with a status before the lattices are read, or
    reaches the initialisation and the loop [while(1==1)] with both files
    open, or reads an entry of [argv] that is no string, after which the
    language defines no behaviour. *)
Inductive started : Type :=
| Return (status : Z)
| Sampling (data data2 : list byte)
| Undefined.

(** [main] from its first statement to the second [fopen]: the calls of
    [printf] it has made and where it stands. *)
Definition main_startup (env : environment) : list output * started :=
  if argc env >? 1 then
    match command_line env with
    | None => ([], Undefined)
    | Some (filename, filename2) =>
        match fopen env filename with
        | None => ([Printf ("*** error opening file" ++ newline)], Return 0)
        | Some data =>
            match fopen env filename2 with
            | None =>
                ([Printf ("*** error opening file2" ++ newline)], Return 0)
            | Some data2 => ([], Sampling data data2)
            end
        end
    end
  else
    let out := [Printf "enter name of file: "] in
    match stdin_line1 env with
    | None =>
        (out ++ [Printf ("*** error reading filename" ++ newline)], Return 0)
    | Some line1 =>
        match fopen env (nltrim line1) with
        | None =>
            (out ++ [Printf ("*** error opening file" ++ newline)], Return 0)
        | Some data =>
            let out := out ++ [Printf "enter name of file 2: "] in
            match stdin_line2 env with
            | None =>
                (out ++ [Printf ("*** error reading filename2" ++ newline)],
                 Return 0)
            | Some line2 =>
                match fopen env (nltrim line2) with
                | None =>
                    (out ++ [Printf ("*** error opening file2" ++ newline)],
                     Return 0)
                | Some data2 => (out, Sampling data data2)
                end
            end
        end
    end.

(** The exit status of the process, when [main] returns.  After a
    successful start [main] initialises the lattices and enters
    [while(1==1)], whose body holds no [break], [return] or [exit]: it does
    not return, and the [return 0] that follows the loop is never reached.
    Where the behaviour is undefined there is no status to speak of. *)
Definition main_status (env : environment) : option Z :=
  match snd (main_startup env) with
  | Return status => Some status
  | Sampling _ _ => None
  | Undefined => None
  end.

(** The name [main] passes to the first [fopen], when it gets that far. *)
Definition upper_name (env : environment) : option string :=
  if argc env >? 1 then option_map fst (command_line env)
  else option_map nltrim (stdin_line1 env).

(** The name [main] passes to the second [fopen], when it gets that far:
    the first file is open by then. *)
Definition lower_name (env : environment) : option string :=
  match upper_name env with
  | None => None
  | Some name =>
      match fopen env name with
      | None => None
      | Some _ =>
          if argc env >? 1 then option_map snd (command_line env)
          else option_map nltrim (stdin_line2 env)
      end
  end.

(** "[main] calls [fopen] on this name and gets [NULL]". *)
Definition cannot_open (env : environment) (name : option string) : Prop :=
  match name with
  | Some n => fopen env n = None
  | None => False
  end.

(** ** The vocabulary of the specification *)

(** Cell types lie in [{0..5}] over the [nrows] x [ncols] lattice. *)
Definition valid_type (t : Z) : Prop := 0 <= t <= 5.

Definition in_lattice (nrows ncols i j : Z) : Prop :=
  0 <= i < nrows /\ 0 <= j < ncols.

Definition types_valid (nrows ncols : Z) (m : lattice) : Prop :=
  forall i j, in_lattice nrows ncols i j -> valid_type (type (m i j)).

(** The relabelling table of section 4.1, one row per direction and cell:
    a list of [pre -> post] pairs; a type that is no [pre] is kept. *)
Definition table : Type := list (Z * Z).

Fixpoint apply_table (t : table) (v : Z) : Z :=
  match t with
  | [] => v
  | (pre, post) :: t' => if v =? pre then post else apply_table t' v
  end.

Definition UP_base : table := [(0, 4); (5, 1)].
Definition UP_upper_right : table := [(1, 4); (5, 0)].
Definition UP_right : table := [(3, 5); (4, 2)].
Definition UP_up : table := [(2, 5); (4, 3)].
Definition DOWN_base : table := [(4, 1); (0, 5)].
Definition DOWN_lower_left : table := [(4, 0); (1, 5)].
Definition DOWN_left : table := [(5, 2); (3, 4)].
Definition DOWN_down : table := [(5, 3); (2, 4)].

(** A pre-type "appears in the table". *)
Definition in_table (t : table) (v : Z) : Prop := In v (map fst t).

(** The flippability conditions of section 4.2, as the specification words
    them. *)
Definition spec_flippable_UP (nrows ncols : Z) (m : lattice) (r c : Z) : Prop :=
  r > 0 /\ c < ncols - 1
  /\ (type (m r c) = 0 \/ type (m r c) = 5)
  /\ (type (m (r - 1) (c + 1)) = 1 \/ type (m (r - 1) (c + 1)) = 5).

Definition spec_flippable_DOWN (nrows ncols : Z) (m : lattice) (r c : Z) : Prop :=
  r < nrows - 1 /\ c > 0
  /\ (type (m r c) = 0 \/ type (m r c) = 4)
  /\ (type (m (r + 1) (c - 1)) = 1 \/ type (m (r + 1) (c - 1)) = 4).

(** [[type in {0, 2, 5}]] as a number. *)
Definition indicator (t : Z) : Z := if carries_height t then 1 else 0.

(** The sum of [f 0 .. f (n-1)]. *)
Fixpoint zsum (n : nat) (f : Z -> Z) : Z :=
  match n with
  | O => 0
  | S n' => zsum n' f + f (Z.of_nat n')
  end.

(** The count of cells of row [i], columns [0..j] inclusive, whose type is
    in [{0, 2, 5}]. *)
Definition row_count (m : lattice) (i j : Z) : Z :=
  zsum (Z.to_nat (j + 1)) (fun k => indicator (type (m i k))).

(** Every stored height is that count. *)
Definition heights_consistent (nrows ncols : Z) (m : lattice) : Prop :=
  forall i j, in_lattice nrows ncols i j -> height (m i j) = row_count m i j.

(** The sum of all stored heights. *)
Definition sum_heights (nrows ncols : Z) (m : lattice) : Z :=
  zsum (Z.to_nat nrows) (fun i =>
    zsum (Z.to_nat ncols) (fun j => height (m i j))).

(** The sum over all cells of [[type in {0, 2, 5}]]. *)
Definition indicator_sum (nrows ncols : Z) (m : lattice) : Z :=
  zsum (Z.to_nat nrows) (fun i =>
    zsum (Z.to_nat ncols) (fun j => indicator (type (m i j)))).

(** The same sum with the cell of column [j] counted once for every column
    from [j] to the last. *)
Definition weighted_indicator_sum (nrows ncols : Z) (m : lattice) : Z :=
  zsum (Z.to_nat nrows) (fun i =>
    zsum (Z.to_nat ncols) (fun j => indicator (type (m i j)) * (ncols - j))).

(** What the [k]-th call of [fgetc] on a stream returns, counting from 0:
    its [k]-th byte, or [EOF] past its end. *)
Definition fgetc_nth (data : list byte) (k : nat) : Z :=
  nth k (map (fun b => Z.of_N (Byte.to_N b)) data) EOF.

(** ** The PDF picture of a vertex *)

(** The calls of the PDF library that [draw_vertex] makes on its document,
    with their arguments. *)
Inductive pdf_op : Type :=
| Setlinewidth (w : Q)
| Newpath
| Setrgbcolor (r g b : Q)
| Moveto (x y : Q)
| Lineto (x y : Q)
| Stroke.

(** [void draw_vertex(CPDFdoc *pdf, int vertex, double x, double y)]: the
    calls it makes, in order; [(x, y)] is the upper-left corner of the
    vertex and [vertexWidthHeight] the global of that name.  The [switch]
    has no [default]. *)
Definition draw_vertex (vertexWidthHeight : Q) (vertex : Z) (x y : Q)
  : list pdf_op :=
  (match vertex with
  | 0%Z =>
      [ Setlinewidth 2;
        Newpath;
        Setrgbcolor 0 0 0;
        Moveto (x + (vertexWidthHeight / 2)) y;
        Lineto (x + (vertexWidthHeight / 2)) (y - (vertexWidthHeight / 2));
        Stroke;
        Newpath;
        Setrgbcolor 0 0 0;
        Moveto (x + (vertexWidthHeight / 2)) (y - (vertexWidthHeight / 2));
        Lineto (x + (vertexWidthHeight / 2)) (y - vertexWidthHeight);
        Stroke;
        Newpath;
        Setrgbcolor 0 0 0;
        Moveto x (y - (vertexWidthHeight / 2));
        Lineto (x + (vertexWidthHeight / 2)) (y - (vertexWidthHeight / 2));
        Stroke;
        Newpath;
        Setrgbcolor 0 0 0;
        Moveto (x + (vertexWidthHeight / 2)) (y - (vertexWidthHeight / 2));
        Lineto (x + vertexWidthHeight) (y - (vertexWidthHeight / 2));
        Stroke ]
  | 1%Z =>
      [ Setlinewidth 1;
        Newpath;
        Setrgbcolor (8 # 10) (8 # 10) (8 # 10);
        Moveto (x + (vertexWidthHeight / 2)) y;
        Lineto (x + (vertexWidthHeight / 2)) (y - (vertexWidthHeight / 2));
        Stroke;
        Newpath;
        Setrgbcolor (8 # 10) (8 # 10) (8 # 10);
        Moveto (x + (vertexWidthHeight / 2)) (y - (vertexWidthHeight / 2));
        Lineto (x + (vertexWidthHeight / 2)) (y - vertexWidthHeight);
        Stroke;
        Newpath;
        Setrgbcolor (8 # 10) (8 # 10) (8 # 10);
        Moveto x (y - (vertexWidthHeight / 2));
        Lineto (x + (vertexWidthHeight / 2)) (y - (vertexWidthHeight / 2));
        Stroke;
        Newpath;
        Setrgbcolor (8 # 10) (8 # 10) (8 # 10);
        Moveto (x + (vertexWidthHeight / 2)) (y - (vertexWidthHeight / 2));
        Lineto (x + vertexWidthHeight) (y - (vertexWidthHeight / 2));
        Stroke ]
  | 2%Z =>
      [ Setlinewidth 2;
        Newpath;
        Setrgbcolor 0 0 0;
        Moveto (x + (vertexWidthHeight / 2)) y;
        Lineto (x + (vertexWidthHeight / 2)) (y - (vertexWidthHeight / 2));
        Stroke;
        Newpath;
        Setrgbcolor 0 0 0;
        Moveto (x + (vertexWidthHeight / 2)) (y - (vertexWidthHeight / 2));
        Lineto (x + (vertexWidthHeight / 2)) (y - vertexWidthHeight);
        Stroke;
        Setlinewidth 1;
        Newpath;
        Setrgbcolor (8 # 10) (8 # 10) (8 # 10);
        Moveto x (y - (vertexWidthHeight / 2));
        Lineto (x + (vertexWidthHeight / 2)) (y - (vertexWidthHeight / 2));
        Stroke;
        Newpath;
        Setrgbcolor (8 # 10) (8 # 10) (8 # 10);
        Moveto (x + (vertexWidthHeight / 2)) (y - (vertexWidthHeight / 2));
        Lineto (x + vertexWidthHeight) (y - (vertexWidthHeight / 2));
        Stroke ]
  | 3%Z =>
      [ Setlinewidth 1;
        Newpath;
        Setrgbcolor (8 # 10) (8 # 10) (8 # 10);
        Moveto (x + (vertexWidthHeight / 2)) y;
        Lineto (x + (vertexWidthHeight / 2)) (y - (vertexWidthHeight / 2));
        Stroke;
        Newpath;
        Setrgbcolor (8 # 10) (8 # 10) (8 # 10);
        Moveto (x + (vertexWidthHeight / 2)) (y - (vertexWidthHeight / 2));
        Lineto (x + (vertexWidthHeight / 2)) (y - vertexWidthHeight);
        Stroke;
        Setlinewidth 2;
        Newpath;
        Setrgbcolor 0 0 0;
        Moveto x (y - (vertexWidthHeight / 2));
        Lineto (x + (vertexWidthHeight / 2)) (y - (vertexWidthHeight / 2));
        Stroke;
        Newpath;
        Setrgbcolor 0 0 0;
        Moveto (x + (vertexWidthHeight / 2)) (y - (vertexWidthHeight / 2));
        Lineto (x + vertexWidthHeight) (y - (vertexWidthHeight / 2));
        Stroke ]
  | 4%Z =>
      [ Setlinewidth 1;
        Newpath;
        Setrgbcolor (8 # 10) (8 # 10) (8 # 10);
        Moveto (x + (vertexWidthHeight / 2)) y;
        Lineto (x + (vertexWidthHeight / 2)) (y - (vertexWidthHeight / 2));
        Stroke;
        Setlinewidth 2;
        Newpath;
        Setrgbcolor 0 0 0;
        Moveto (x + (vertexWidthHeight / 2)) (y - (vertexWidthHeight / 2));
        Lineto (x + (vertexWidthHeight / 2)) (y - vertexWidthHeight);
        Stroke;
        Newpath;
        Setrgbcolor 0 0 0;
        Moveto x (y - (vertexWidthHeight / 2));
        Lineto (x + (vertexWidthHeight / 2)) (y - (vertexWidthHeight / 2));
        Stroke;
        Setlinewidth 1;
        Newpath;
        Setrgbcolor (8 # 10) (8 # 10) (8 # 10);
        Moveto (x + (vertexWidthHeight / 2)) (y - (vertexWidthHeight / 2));
        Lineto (x + vertexWidthHeight) (y - (vertexWidthHeight / 2));
        Stroke ]
  | 5%Z =>
      [ Setlinewidth 2;
        Newpath;
        Setrgbcolor 0 0 0;
        Moveto (x + (vertexWidthHeight / 2)) y;
        Lineto (x + (vertexWidthHeight / 2)) (y - (vertexWidthHeight / 2));
        Stroke;
        Setlinewidth 1;
        Newpath;
        Setrgbcolor (8 # 10) (8 # 10) (8 # 10);
        Moveto (x + (vertexWidthHeight / 2)) (y - (vertexWidthHeight / 2));
        Lineto (x + (vertexWidthHeight / 2)) (y - vertexWidthHeight);
        Stroke;
        Newpath;
        Setrgbcolor (8 # 10) (8 # 10) (8 # 10);
        Moveto x (y - (vertexWidthHeight / 2));
        Lineto (x + (vertexWidthHeight / 2)) (y - (vertexWidthHeight / 2));
        Stroke;
        Setlinewidth 2;
        Newpath;
        Setrgbcolor 0 0 0;
        Moveto (x + (vertexWidthHeight / 2)) (y - (vertexWidthHeight / 2));
        Lineto (x + vertexWidthHeight) (y - (vertexWidthHeight / 2));
        Stroke ]
  | _ => []
  end)%Q.

(** A line as it ends up on the page: its width, its colour and its two
    end points. *)
Record stroke : Type := Stroke_of {
  s_width : Q;
  s_color : Q * Q * Q;
  s_from : Q * Q;
  s_to : Q * Q
}.

(** The graphics state the calls act on: the line width and the colour in
    force, the current point, and the segments of the path under
    construction. *)
Record gstate : Type := Gstate {
  g_width : Q;
  g_color : Q * Q * Q;
  g_point : option (Q * Q);
  g_path : list ((Q * Q) * (Q * Q))
}.

(** One call: the state after it and the lines it puts on the page. *)
Definition pdf_step (g : gstate) (op : pdf_op) : gstate * list stroke :=
  match op with
  | Setlinewidth w => (Gstate w (g_color g) (g_point g) (g_path g), [])
  | Newpath => (Gstate (g_width g) (g_color g) None [], [])
  | Setrgbcolor r gr b =>
      (Gstate (g_width g) (r, gr, b) (g_point g) (g_path g), [])
  | Moveto x y => (Gstate (g_width g) (g_color g) (Some (x, y)) (g_path g), [])
  | Lineto x y =>
      match g_point g with
      | Some p =>
          (Gstate (g_width g) (g_color g) (Some (x, y))
                  (g_path g ++ [(p, (x, y))]), [])
      | None => (Gstate (g_width g) (g_color g) (Some (x, y)) (g_path g), [])
      end
  | Stroke =>
      (Gstate (g_width g) (g_color g) None [],
       map (fun seg => Stroke_of (g_width g) (g_color g) (fst seg) (snd seg))
           (g_path g))
  end.

(** The lines a sequence of calls puts on the page, from a given state. *)
Fixpoint strokes_of (g : gstate) (ops : list pdf_op) : list stroke :=
  match ops with
  | [] => []
  | op :: rest =>
      let r := pdf_step g op in snd r ++ strokes_of (fst r) rest
  end.

(** The picture in words: which of the four half-lines of a vertex -- from
    the middle of its top, bottom, left and right side to its centre -- are
    drawn bold (width 2, black); the others are thin (width 1, grey .8). *)
Definition bold_top (t : Z) : bool := (t =? 0) || (t =? 2) || (t =? 5).
Definition bold_bottom (t : Z) : bool := (t =? 0) || (t =? 2) || (t =? 4).
Definition bold_left (t : Z) : bool := (t =? 0) || (t =? 3) || (t =? 4).
Definition bold_right (t : Z) : bool := (t =? 0) || (t =? 3) || (t =? 5).

Definition half_line (bold : bool) (p q : Q * Q) : stroke :=
  if bold then Stroke_of 2 (0, 0, 0)%Q p q
  else Stroke_of 1 (8 # 10, 8 # 10, 8 # 10)%Q p q.

(** The half-lines of neighbouring cells that meet on the common side of
    the two cells are of the same kind, all over the lattice: the bold
    lines of the picture neither end nor start inside it. *)
Definition lines_join (nrows ncols : Z) (m : lattice) : Prop :=
  (forall i j,
      in_lattice nrows ncols i j -> in_lattice nrows ncols i (j + 1) ->
      bold_right (type (m i j)) = bold_left (type (m i (j + 1))))
  /\ (forall i j,
         in_lattice nrows ncols i j -> in_lattice nrows ncols (i + 1) j ->
         bold_bottom (type (m i j)) = bold_top (type (m (i + 1) j))).

(** The half-lines that reach the border of the lattice are the same in
    two lattices. *)
Definition same_border (nrows ncols : Z) (m m' : lattice) : Prop :=
  forall i j,
    in_lattice nrows ncols i j ->
    (i = 0 -> bold_top (type (m' i j)) = bold_top (type (m i j)))
    /\ (i = nrows - 1 ->
        bold_bottom (type (m' i j)) = bold_bottom (type (m i j)))
    /\ (j = 0 -> bold_left (type (m' i j)) = bold_left (type (m i j)))
    /\ (j = ncols - 1 ->
        bold_right (type (m' i j)) = bold_right (type (m i j))).

(** ** The second matrix and the main loop *)

Section Second.

Context {F : Type} `{Double F}.
Variables nrows ncols : Z.
Variable wts : Z -> F.
Variable rho : F.

(** [int getisflippable2(int *rpos, int *cpos, int *type)]: the tests of
    [getisflippable] on [matrix2]; the height test of the sticky build sits
    in the DOWN branch here. *)
Definition getisflippable2 (m m2 : lattice) (rpos cpos ftype : Z) : Z :=
  if (rpos <? 0) || (rpos >=? nrows) then 0
  else if (cpos <? 0) || (cpos >=? ncols) then 0
  else if negb (ftype =? 0) then
    if (rpos >? 0) && (cpos <? ncols - 1) then
      if (type (m2 rpos cpos) =? 0) || (type (m2 rpos cpos) =? 5) then
        if (type (m2 (rpos - 1) (cpos + 1)) =? 1)
           || (type (m2 (rpos - 1) (cpos + 1)) =? 5)
        then 1 else 0
      else 0
    else 0
  else
    if (rpos <? nrows - 1) && (cpos >? 0) then
      if (if STICKY
          then height (m2 rpos cpos) <? height (m rpos cpos)
          else true) then
        if (type (m2 rpos cpos) =? 0) || (type (m2 rpos cpos) =? 4) then
          if (type (m2 (rpos + 1) (cpos - 1)) =? 1)
             || (type (m2 (rpos + 1) (cpos - 1)) =? 4)
          then 1 else 0
        else 0
      else 0
    else 0.

(** [updatepositions2], [executeflip2] and [getweightratio2] are, statement
    for statement, [updatepositions], [executeflip] and [getweightratio]
    with [matrix2] and [matrixvol2] in the place of [matrix] and
    [matrixvol]; here the lattice and the counter are arguments. *)
Definition updatepositions2 (m2 : lattice) (rpos cpos ftype : Z) : lattice :=
  updatepositions m2 rpos cpos ftype.

Definition executeflip2 (m2 : lattice) (vol2 : Z) (rpos cpos ftype : Z)
  : lattice * Z :=
  executeflip m2 vol2 rpos cpos ftype.

Definition getweightratio2 (m2 : lattice) (rpos cpos ftype : Z) : F :=
  getweightratio wts rho m2 rpos cpos ftype.

(** All the globals of the main loop: those of [state], and
    [matrixvol2]. *)
Record mainloop : Type := Mainloop {
  globals : state;
  matrixvol2 : Z
}.

(** [executeflip2(...); flipcompleted++;] *)
Definition flip_done2 (g : mainloop) (rpos cpos ftype : Z) : mainloop :=
  let st := globals g in
  let mv := executeflip2 (matrix2 st) (matrixvol2 g) rpos cpos ftype in
  Mainloop (State (matrix st) (fst mv) (matrixvol st)
                  (flipcompleted st + 1) (flipfailed st))
           (snd mv).

(** [flipfailed++;] *)
Definition flip_failed2 (g : mainloop) : mainloop :=
  Mainloop (flip_failed (globals g)) (matrixvol2 g).

(** The pass of the main loop over the second matrix, from
    [vcanfliphigh2 = getisflippable2(...)] to "end dealing with the second
    matrix"; [random] as in [handle_matrix1]. *)
Definition handle_matrix2 (g : mainloop) (flipchoicerow flipchoicecol : Z)
           (random : F) : mainloop :=
  let st := globals g in
  let vcanfliphigh2 :=
    getisflippable2 (matrix st) (matrix2 st) flipchoicerow flipchoicecol HIGH in
  let vcanfliplow2 :=
    getisflippable2 (matrix st) (matrix2 st) flipchoicerow flipchoicecol LOW in
  if (vcanfliphigh2 =? 1) && (vcanfliplow2 =? 0) then
    let flipchance :=
      getweightratio2 (matrix2 st) flipchoicerow flipchoicecol HIGH in
    if dge flipchance random
    then flip_done2 g flipchoicerow flipchoicecol HIGH
    else flip_failed2 g
  else if (vcanfliphigh2 =? 0) && (vcanfliplow2 =? 1) then
    let flipchance :=
      getweightratio2 (matrix2 st) flipchoicerow flipchoicecol LOW in
    if dge flipchance random
    then flip_done2 g flipchoicerow flipchoicecol LOW
    else flip_failed2 g
  else if (vcanfliphigh2 =? 1) && (vcanfliplow2 =? 1) then
    let flipchance :=
      getweightratio2 (matrix2 st) flipchoicerow flipchoicecol HIGH in
    let flipchance2 :=
      getweightratio2 (matrix2 st) flipchoicerow flipchoicecol LOW in
    if dge flipchance random
    then flip_done2 g flipchoicerow flipchoicecol HIGH
    else if dge (dadd flipchance flipchance2) random
    then flip_done2 g flipchoicerow flipchoicecol LOW
    else flip_failed2 g
  else g.

(** The values one pass of [while(1==1)] works with: the cell, as
    [getflippablepositionrow] and [getflippablepositioncol] leave it in
    [flipchoicerow] and [flipchoicecol], and the value [random] has in the
    branch taken of the first and of the second matrix.  [main] takes them
    from the one stream of [rand()] and draws [random] inside a branch
    only, so how many values of the stream a pass uses depends on both
    lattices; a statement for all lists of such records covers every
    stream, a statement that compares two runs on one list does not speak
    of two runs of [main] on one stream. *)
Record draws : Type := Draws {
  flipchoicerow : Z;
  flipchoicecol : Z;
  random1 : F;
  random2 : F
}.

(** One pass of [while(1==1)] over the two matrices; the output routines
    between the draw of the cell and the first matrix read the globals
    modelled here and write none of them. *)
Definition loop_pass (g : mainloop) (d : draws) : mainloop :=
  let st := handle_matrix1 nrows ncols wts rho (globals g)
                           (flipchoicerow d) (flipchoicecol d) (random1 d) in
  handle_matrix2 (Mainloop st (matrixvol2 g))
                 (flipchoicerow d) (flipchoicecol d) (random2 d).

(** Any number of passes. *)
Definition run (ds : list draws) (g : mainloop) : mainloop :=
  fold_left loop_pass ds g.

End Second.

(** ** The choice of the cell *)

(** The conversion of a [double] to [int]: towards zero. *)
Definition Qtruncate (q : Q) : Z := Z.quot (Qnum q) (Z.pos (Qden q)).

(** [flipchoicerow = ((int) nrows * ((double) (rand()/(RAND_MAX + 1.0))));]
    of [getflippablepositionrow], and the same with [ncols] of
    [getflippablepositioncol]: the value stored, from the value of
    [rand()], in exact arithmetic.  [RAND_MAX] is the constant of the C
    library. *)
Definition getflippableposition (RAND_MAX n rand : Z) : Z :=
  Qtruncate (inject_Z n * (inject_Z rand / (inject_Z RAND_MAX + 1)))%Q.

(** ** The snapshot *)

(** The [switch] of [print_text] on one cell: a digit for the types 0 to
    5, nothing for any other. *)
Definition print_text_digit (t : Z) : list byte :=
  match t with
  | 0 => ["0"%byte]
  | 1 => ["1"%byte]
  | 2 => ["2"%byte]
  | 3 => ["3"%byte]
  | 4 => ["4"%byte]
  | 5 => ["5"%byte]
  | _ => []
  end.

Section Snapshot.

Variables nrows ncols : Z.

Definition print_text_row (m : lattice) (i : Z) (out : list byte) : list byte :=
  for_loop (Z.to_nat ncols) 0
           (fun j out => out ++ print_text_digit (type (m i j))) out.

(** The bytes [print_text] writes to its file. *)
Definition print_text_bytes (m : lattice) : list byte :=
  for_loop (Z.to_nat nrows) 0 (print_text_row m) [].

(** [void print_text(void)]: the number in the name of the file
    ([output%d.matrix] with [tprint]), the bytes written, and [tprint]
    after the call ([tprint++; if(tprint>20) tprint=0;]). *)
Definition print_text (m : lattice) (tprint : Z) : Z * list byte * Z :=
  (tprint, print_text_bytes m,
   if tprint + 1 >? 20 then 0 else tprint + 1).

(** [void print_text2(void)]: the same on [matrix2], in the directory of
    the second matrix; it leaves [tprint] as it is. *)
Definition print_text2 (m2 : lattice) (tprint : Z) : Z * list byte :=
  (tprint, print_text_bytes m2).

(** [print_text(); print_text2();] as the main loop and the end of [main]
    call them: the two files written, each with its number, and [tprint]
    afterwards. *)
Definition print_text_pair (m m2 : lattice) (tprint : Z)
  : (Z * list byte) * (Z * list byte) * Z :=
  let r1 := print_text m tprint in
  let r2 := print_text2 m2 (snd r1) in
  ((fst (fst r1), snd (fst r1)), r2, snd r1).

End Snapshot.

(** ** The initialisation of [main] *)

(** [parse2], [setheights2] and [print_volume2] are, statement for
    statement, [parse], [setheights] and [print_volume] with [matrix2] in
    the place of [matrix]. *)
Definition parse2 (nrows ncols : Z) (m2 : lattice) (data2 : list byte)
  : lattice :=
  parse nrows ncols m2 data2.

Definition setheights2 (nrows ncols : Z) (m2 : lattice) : lattice * Z :=
  setheights nrows ncols m2.

Definition print_volume2 (nrows ncols : Z) (m2 : lattice) : Z :=
  print_volume nrows ncols m2.

(** "Initialization" of [main], on the zeroed globals:
    [parse(data); parse2(data2); definerho(); matrixvol = setheights();
    matrixvol2 = setheights2();].  The result is the globals of the main
    loop before its first pass; [rho] is kept apart. *)
Definition main_initialise (nrows ncols : Z) (data data2 : list byte)
  : mainloop :=
  let m := parse nrows ncols zero_lattice data in
  let m2 := parse2 nrows ncols zero_lattice data2 in
  let h := setheights nrows ncols m in
  let h2 := setheights2 nrows ncols m2 in
  Mainloop (State (fst h) (fst h2) (snd h) 0 0) (snd h2).

(** ** The PDF preview *)

(** The variables of the two nested loops of [print_pdf], and the calls
    made on the document so far. *)
Record pdfvars : Type := Pdfvars {
  pdf_x : Q;
  pdf_y : Q;
  pdf_calls : list pdf_op
}.

Section Preview.

Variables nrows ncols : Z.

(** [vertexWidthHeight = ((double) 6 / 72);] *)
Definition vertex_size : Q := (6 / 72)%Q.

(** [draw_vertex(pdf, matrix[i][j].type, x, y); x += vertexWidthHeight;] *)
Definition print_pdf_cell (m : lattice) (i j : Z) (s : pdfvars) : pdfvars :=
  Pdfvars (pdf_x s + vertex_size)%Q (pdf_y s)
          (pdf_calls s
           ++ draw_vertex vertex_size (type (m i j)) (pdf_x s) (pdf_y s)).

(** One row, then [x = ((double) 18 / 72); y = y - vertexWidthHeight;]. *)
Definition print_pdf_row (m : lattice) (i : Z) (s : pdfvars) : pdfvars :=
  let s := for_loop (Z.to_nat ncols) 0 (print_pdf_cell m i) s in
  Pdfvars (18 / 72)%Q (pdf_y s - vertex_size)%Q (pdf_calls s).

(** [void print_pdf(void)]: the drawing calls it makes on the page, in
    order and in exact arithmetic, from [cpdf_setlinewidth(pdf, 1.5)] to
    the end of the loops. *)
Definition print_pdf (m : lattice) : list pdf_op :=
  pdf_calls
    (for_loop (Z.to_nat nrows) 0 (print_pdf_row m)
       (Pdfvars (18 / 72)%Q (inject_Z (nrows * 6 + 18) / 72)%Q
                [Setlinewidth 1.5%Q])).

(** [print_pdf2] is [print_pdf] with [matrix2] in the place of [matrix]. *)
Definition print_pdf2 (m2 : lattice) : list pdf_op := print_pdf m2.

End Preview.

(** The graphics state after a sequence of calls. *)
Definition gstate_after (g : gstate) (ops : list pdf_op) : gstate :=
  fold_left (fun g op => fst (pdf_step g op)) ops g.

(** [x] after [n] times [x += w], and [y] after [n] times [y = y - w]. *)
Fixpoint moved_right (n : nat) (x w : Q) : Q :=
  match n with
  | O => x
  | S n' => (moved_right n' x w + w)%Q
  end.

Fixpoint moved_down (n : nat) (y w : Q) : Q :=
  match n with
  | O => y
  | S n' => (moved_down n' y w - w)%Q
  end.

(** The four half-lines of a vertex of type [t] whose upper-left corner is
    [(x, y)], in the order top, bottom, left, right. *)
Definition vertex_lines (w : Q) (t : Z) (x y : Q) : list stroke :=
  let centre := (x + w / 2, y - w / 2)%Q in
  [ half_line (bold_top t) (x + w / 2, y)%Q centre;
    half_line (bold_bottom t) centre (x + w / 2, y - w)%Q;
    half_line (bold_left t) (x, y - w / 2)%Q centre;
    half_line (bold_right t) centre (x + w, y - w / 2)%Q ].

(** The upper-left corner of cell [(i, j)] on the page of [print_pdf]. *)
Definition corner_x (j : Z) : Q :=
  moved_right (Z.to_nat j) (18 / 72)%Q vertex_size.

Definition corner_y (nrows i : Z) : Q :=
  moved_down (Z.to_nat i) (inject_Z (nrows * 6 + 18) / 72)%Q vertex_size.

(** The lines of the whole lattice, row by row and cell by cell. *)
Definition lattice_lines (nrows ncols : Z) (m : lattice) : list stroke :=
  flat_map (fun i =>
    flat_map (fun j =>
      vertex_lines vertex_size (type (m (Z.of_nat i) (Z.of_nat j)))
                   (corner_x (Z.of_nat j)) (corner_y nrows (Z.of_nat i)))
      (seq 0 (Z.to_nat ncols)))
    (seq 0 (Z.to_nat nrows)).

(** ** The total weight *)

(** The six counters of [print_totalweight]. *)
Record counters : Type := Counters {
  numa1 : Z; numa2 : Z; numb1 : Z; numb2 : Z; numc1 : Z; numc2 : Z
}.

Section TotalWeight.

Variables nrows ncols : Z.

(** The [switch] on one cell: the counter of its type goes up by one, and
    none does for a type outside 0..5. *)
Definition print_totalweight_cell (m : lattice) (i j : Z) (s : counters)
  : counters :=
  match type (m i j) with
  | 0 => Counters (numa1 s + 1) (numa2 s) (numb1 s) (numb2 s) (numc1 s) (numc2 s)
  | 1 => Counters (numa1 s) (numa2 s + 1) (numb1 s) (numb2 s) (numc1 s) (numc2 s)
  | 2 => Counters (numa1 s) (numa2 s) (numb1 s + 1) (numb2 s) (numc1 s) (numc2 s)
  | 3 => Counters (numa1 s) (numa2 s) (numb1 s) (numb2 s + 1) (numc1 s) (numc2 s)
  | 4 => Counters (numa1 s) (numa2 s) (numb1 s) (numb2 s) (numc1 s + 1) (numc2 s)
  | 5 => Counters (numa1 s) (numa2 s) (numb1 s) (numb2 s) (numc1 s) (numc2 s + 1)
  | _ => s
  end.

Definition print_totalweight_row (m : lattice) (i : Z) (s : counters)
  : counters :=
  for_loop (Z.to_nat ncols) 0 (print_totalweight_cell m i) s.

(** [void print_totalweight(void)]: the six exponents of the line it
    appends to [matrix.totalweight]. *)
Definition print_totalweight (m : lattice) : counters :=
  for_loop (Z.to_nat nrows) 0 (print_totalweight_row m)
           (Counters 0 0 0 0 0 0).

(** [print_totalweight2] is [print_totalweight] on [matrix2]. *)
Definition print_totalweight2 (m2 : lattice) : counters :=
  print_totalweight m2.

End TotalWeight.

(** [[type of cell (i, j) is t]] as a number, and the number of cells of
    the lattice whose type is [t]. *)
Definition is_type (m : lattice) (t i j : Z) : Z :=
  if type (m i j) =? t then 1 else 0.

Definition count_type (nrows ncols : Z) (m : lattice) (t : Z) : Z :=
  zsum (Z.to_nat nrows) (fun i => zsum (Z.to_nat ncols) (is_type m t i)).

(** ** The density of c-vertices *)

Section Density.

Variables nrows ncols : Z.

(** [cdensitystep], set once at start-up; [cdensitystep/2] is the integer
    division of C, which rounds towards zero. *)
Variable cdensitystep : Z.

Definition half_step : Z := Z.quot cdensitystep 2.

(** [if(matrix[i+k][j+l].type == 4 || matrix[i+k][j+l].type == 5)
    currentdensity++;] *)
Definition print_cdensity_cell (m : lattice) (i j k l : Z) (currentdensity : Z)
  : Z :=
  if (type (m (i + k) (j + l)) =? 4) || (type (m (i + k) (j + l)) =? 5)
  then currentdensity + 1 else currentdensity.

(** The two inner loops, from [currentdensity = 0]: the count of the
    window around cell [(i, j)]. *)
Definition print_cdensity_window (m : lattice) (i j : Z) : Z :=
  for_loop (Z.to_nat (half_step + 1 - (0 - half_step))) (0 - half_step)
    (fun k cd =>
       for_loop (Z.to_nat (half_step + 1 - (0 - half_step))) (0 - half_step)
                (fun l cd => print_cdensity_cell m i j k l cd) cd)
    0.

(** [void print_cdensity(void)]: for each quotient it writes to the file,
    in order, the count and the divisor
    [(cdensitystep+1)*(cdensitystep+1)]. *)
Definition print_cdensity (m : lattice) : list (Z * Z) :=
  for_loop (Z.to_nat (nrows - half_step - half_step)) half_step
    (fun i out =>
       for_loop (Z.to_nat (ncols - half_step - half_step)) half_step
         (fun j out =>
            out ++ [(print_cdensity_window m i j,
                     (cdensitystep + 1) * (cdensitystep + 1))])
         out)
    [].

(** [print_cdensity2] is [print_cdensity] on [matrix2]. *)
Definition print_cdensity2 (m2 : lattice) : list (Z * Z) := print_cdensity m2.

End Density.

(** The product of the weights of the four cells of the block above and to
    the right of cell [(r, c)], as they are in the lattice. *)
Definition block_weight (wts : Z -> Q) (m : lattice) (r c : Z) : Q :=
  w4 wts (type (m r c)) (type (m r (c + 1)))
         (type (m (r - 1) c)) (type (m (r - 1) (c + 1))).

(** The invariant of a lattice with its volume counter: types in {0..5},
    lines that join, heights that are the running counts, and the counter
    their sum. *)
Definition lattice_invariant (nrows ncols : Z) (m : lattice) (vol : Z) : Prop :=
  types_valid nrows ncols m
  /\ lines_join nrows ncols m
  /\ heights_consistent nrows ncols m
  /\ vol = sum_heights nrows ncols m.

(** The invariant of the globals of the main loop: that of each matrix
    with its own counter. *)
Definition mainloop_invariant (nrows ncols : Z) (g : mainloop) : Prop :=
  lattice_invariant nrows ncols (matrix (globals g)) (matrixvol (globals g))
  /\ lattice_invariant nrows ncols (matrix2 (globals g)) (matrixvol2 g).

(** ** Concrete inputs *)

(** A 3 x 3 lattice whose centre cell can flip both ways, every cell of
    both moves being of a type of the relabelling table. *)
Definition data_3x3 : list byte := list_byte_of_string "125303451".
Definition lattice_3x3 : lattice := fst (initialise 3 3 data_3x3).
Definition volume_3x3 : Z := snd (initialise 3 3 data_3x3).

(** The globals before the first pass of the main loop over it; the second
    matrix starts equal to the first. *)
Definition state_3x3 : state :=
  State lattice_3x3 lattice_3x3 volume_3x3 0 0.

(** All six weights 1, in exact arithmetic. *)
Definition wts_unit : Z -> Q := mk_wts 1%Q 1%Q 1%Q 1%Q 1%Q 1%Q.
Definition rho_unit : Q := definerho wts_unit 0%Q.

(** The weights a1 = 16, a2 = 1/8, b1 = b2 = c1 = 1, c2 = 16, in exact
    arithmetic and as [double]s; all are powers of two, so every product,
    sum and quotient below is exact in binary64 as well. *)
Definition wts_skew : Z -> Q := mk_wts 16%Q (1 # 8)%Q 1%Q 1%Q 1%Q 16%Q.
Definition wts_skew_double : Z -> float :=
  mk_wts 16%float 0.125%float 1%float 1%float 1%float 16%float.

(** The one-row lattice "01", with its heights set. *)
Definition lattice_1x2 : lattice :=
  fst (initialise 1 2 (list_byte_of_string "01")).

(** A one-byte stream holding the digit 9, read into a lattice of one row
    and two columns. *)
Definition data_9 : list byte := list_byte_of_string "9".

(** A command line with all thirteen arguments, naming two files neither
    of which can be opened. *)
Definition env_no_files : environment :=
  Environment ["6v"; "upper.txt"; "lower.txt"; "3"; "3";
               "1"; "1"; "1"; "1"; "1"; "1"; "1000"; "2"; "100000"]%string
              None None (fun _ => None).

(** An interactive run in which only the file of the upper lattice exists. *)
Definition env_no_lower : environment :=
  Environment ["6v"%string]
              (Some ("upper.txt" ++ newline)%string)
              (Some ("lower.txt" ++ newline)%string)
              (fun n => if String.eqb n "upper.txt" then Some data_3x3
                        else None).

(** A command line that names the two files and stops there. *)
Definition env_two_arguments : environment :=
  Environment ["6v"; "upper.txt"; "lower.txt"]%string
              None None (fun _ => Some data_3x3).

(** A 2 x 2 lattice, rows "01" and "00", with its heights set and its
    volume counted: its lower-left cell passes the UP test, but the cell to
    the right of it has a type that the table does not relabel there. *)
Definition data_2x2 : list byte := list_byte_of_string "0100".
Definition lattice_2x2 : lattice := fst (initialise 2 2 data_2x2).
Definition volume_2x2 : Z := snd (initialise 2 2 data_2x2).

(** A 3 x 3 lattice whose lines join, with its heights set and its volume
    counted, and the globals of the main loop with this lattice as both
    matrices. *)
Definition data_joined : list byte := list_byte_of_string "125303453".
Definition lattice_joined : lattice := fst (initialise 3 3 data_joined).
Definition volume_joined : Z := snd (initialise 3 3 data_joined).
Definition mainloop_joined : mainloop :=
  Mainloop (State lattice_joined lattice_joined volume_joined 0 0)
           volume_joined.

(** * Theorems *)

(** ** Cells and point-wise updates *)

Ltac zbool :=
  rewrite ?Z.gtb_ltb, ?Z.geb_leb in *;
  repeat match goal with
         | |- context [?a <? ?b] => destruct (Z.ltb_spec a b)
         | |- context [?a <=? ?b] => destruct (Z.leb_spec a b)
         | |- context [?a =? ?b] => destruct (Z.eqb_spec a b)
         end.

Lemma set_type_type (m : lattice) (r c v i j : Z) :
  type (set_type m r c v i j) =
  if (i =? r) && (j =? c) then v else type (m i j).
Proof. unfold set_type. destruct ((i =? r) && (j =? c)); reflexivity. Qed.

Lemma set_type_height (m : lattice) (r c v i j : Z) :
  height (set_type m r c v i j) = height (m i j).
Proof. unfold set_type. destruct ((i =? r) && (j =? c)); reflexivity. Qed.

Lemma set_height_type (m : lattice) (r c v i j : Z) :
  type (set_height m r c v i j) = type (m i j).
Proof. unfold set_height. destruct ((i =? r) && (j =? c)); reflexivity. Qed.

Lemma set_height_height (m : lattice) (r c v i j : Z) :
  height (set_height m r c v i j) =
  if (i =? r) && (j =? c) then v else height (m i j).
Proof. unfold set_height. destruct ((i =? r) && (j =? c)); reflexivity. Qed.

(** A guarded assignment relabels its own cell like the same guarded
    assignment on a scratch variable, and touches nothing else. *)
Lemma relabel_type (m : lattice) (r c from to i j : Z) :
  type (relabel m r c from to i j) =
  if (i =? r) && (j =? c) then reassign (type (m i j)) from to
  else type (m i j).
Proof.
  unfold relabel, reassign.
  destruct (Z.eqb_spec i r) as [->|]; destruct (Z.eqb_spec j c) as [->|]; simpl;
    destruct (type (m r c) =? from) eqn:E; rewrite ?set_type_type; zbool;
    simpl; try reflexivity; try lia.
Qed.

Lemma relabel_height (m : lattice) (r c from to i j : Z) :
  height (relabel m r c from to i j) = height (m i j).
Proof.
  unfold relabel. destruct (type (m r c) =? from);
    rewrite ?set_type_height; reflexivity.
Qed.

Lemma updatepositions_height (m : lattice) (r c ftype i j : Z) :
  height (updatepositions m r c ftype i j) = height (m i j).
Proof.
  unfold updatepositions. destruct (negb (ftype =? 0)); cbv zeta;
    rewrite !relabel_height; reflexivity.
Qed.


(** ** Flippability *)

(** The nested tests of [getisflippable] as one conjunction, per direction. *)
Lemma getisflippable_HIGH_bool (nrows ncols : Z) (m m2 : lattice) (r c : Z) :
  getisflippable nrows ncols m m2 r c HIGH =
  if (0 <=? r) && (r <? nrows) && (0 <=? c) && (c <? ncols)
     && (0 <? r) && (c <? ncols - 1)
     && ((type (m r c) =? 0) || (type (m r c) =? 5))
     && ((type (m (r - 1) (c + 1)) =? 1) || (type (m (r - 1) (c + 1)) =? 5))
  then 1 else 0.
Proof.
  unfold getisflippable, HIGH, STICKY. simpl negb. cbv iota.
  rewrite !Z.gtb_ltb, !Z.geb_leb.
  destruct (Z.ltb_spec r 0), (Z.leb_spec 0 r); try lia; simpl; try reflexivity.
  destruct (Z.leb_spec nrows r), (Z.ltb_spec r nrows); try lia; simpl; try reflexivity.
  destruct (Z.ltb_spec c 0), (Z.leb_spec 0 c); try lia; simpl; try reflexivity.
  destruct (Z.leb_spec ncols c), (Z.ltb_spec c ncols); try lia; simpl; try reflexivity.
  destruct (0 <? r); simpl; try reflexivity.
  destruct (c <? ncols - 1); simpl; try reflexivity.
  destruct ((type (m r c) =? 0) || (type (m r c) =? 5)); simpl; reflexivity.
Qed.

Lemma getisflippable_LOW_bool (nrows ncols : Z) (m m2 : lattice) (r c : Z) :
  getisflippable nrows ncols m m2 r c LOW =
  if (0 <=? r) && (r <? nrows) && (0 <=? c) && (c <? ncols)
     && (r <? nrows - 1) && (0 <? c)
     && ((type (m r c) =? 0) || (type (m r c) =? 4))
     && ((type (m (r + 1) (c - 1)) =? 1) || (type (m (r + 1) (c - 1)) =? 4))
  then 1 else 0.
Proof.
  unfold getisflippable, LOW. simpl negb. cbv iota.
  rewrite !Z.gtb_ltb, !Z.geb_leb.
  destruct (Z.ltb_spec r 0), (Z.leb_spec 0 r); try lia; simpl; try reflexivity.
  destruct (Z.leb_spec nrows r), (Z.ltb_spec r nrows); try lia; simpl; try reflexivity.
  destruct (Z.ltb_spec c 0), (Z.leb_spec 0 c); try lia; simpl; try reflexivity.
  destruct (Z.leb_spec ncols c), (Z.ltb_spec c ncols); try lia; simpl; try reflexivity.
  destruct (r <? nrows - 1); simpl; try reflexivity.
  destruct (0 <? c); simpl; try reflexivity.
  destruct ((type (m r c) =? 0) || (type (m r c) =? 4)); simpl; reflexivity.
Qed.

Lemma getisflippable_out_of_range (nrows ncols : Z) (m m2 : lattice) (r c ftype : Z) :
  ~ in_lattice nrows ncols r c -> getisflippable nrows ncols m m2 r c ftype = 0.
Proof.
  unfold getisflippable, in_lattice. intros Hout.
  rewrite !Z.geb_leb.
  destruct (Z.ltb_spec r 0); simpl; [reflexivity|].
  destruct (Z.leb_spec nrows r); simpl; [reflexivity|].
  destruct (Z.ltb_spec c 0); simpl; [reflexivity|].
  destruct (Z.leb_spec ncols c); simpl; [reflexivity|].
  exfalso; apply Hout; lia.
Qed.

Lemma getisflippable_0_or_1 (nrows ncols : Z) (m m2 : lattice) (r c ftype : Z) :
  getisflippable nrows ncols m m2 r c ftype = 0
  \/ getisflippable nrows ncols m m2 r c ftype = 1.
Proof.
  unfold getisflippable.
  repeat match goal with
         | |- context [if ?b then _ else _] => destruct b
         end; auto.
Qed.

Lemma if_one_iff (b : bool) : (if b then 1 else 0) = 1 <-> b = true.
Proof. destruct b; split; intros; try reflexivity; discriminate. Qed.

(** The test for UP, and the test for DOWN, against the conditions of
    section 4.2. *)
Lemma getisflippable_HIGH_iff (nrows ncols : Z) (m m2 : lattice) (r c : Z) :
  getisflippable nrows ncols m m2 r c HIGH = 1 <->
  in_lattice nrows ncols r c /\ spec_flippable_UP nrows ncols m r c.
Proof.
  rewrite getisflippable_HIGH_bool, if_one_iff.
  unfold in_lattice, spec_flippable_UP.
  rewrite !andb_true_iff, !orb_true_iff, !Z.eqb_eq, !Z.ltb_lt, !Z.leb_le.
  intuition lia.
Qed.

Lemma getisflippable_LOW_iff (nrows ncols : Z) (m m2 : lattice) (r c : Z) :
  getisflippable nrows ncols m m2 r c LOW = 1 <->
  in_lattice nrows ncols r c /\ spec_flippable_DOWN nrows ncols m r c.
Proof.
  rewrite getisflippable_LOW_bool, if_one_iff.
  unfold in_lattice, spec_flippable_DOWN.
  rewrite !andb_true_iff, !orb_true_iff, !Z.eqb_eq, !Z.ltb_lt, !Z.leb_le.
  intuition lia.
Qed.

(** C2.  [getisflippable] answers 1 for UP exactly when the cell is in the
    lattice, [r > 0], [c < C-1], the base type is 0 or 5 and the type of the
    upper-right cell is 1 or 5; it answers 1 for DOWN exactly when the cell
    is in the lattice, [r < R-1], [c > 0], the base type is 0 or 4 and the
    type of the lower-left cell is 1 or 4; for a row or column out of range
    it answers 0; and it always answers, with 0 or 1. *)
Theorem getisflippable_spec (nrows ncols : Z) (m m2 : lattice) (r c : Z) :
  (getisflippable nrows ncols m m2 r c HIGH = 1 <->
   in_lattice nrows ncols r c /\ spec_flippable_UP nrows ncols m r c)
  /\ (getisflippable nrows ncols m m2 r c LOW = 1 <->
      in_lattice nrows ncols r c /\ spec_flippable_DOWN nrows ncols m r c)
  /\ (forall ftype, ~ in_lattice nrows ncols r c ->
                    getisflippable nrows ncols m m2 r c ftype = 0)
  /\ (forall ftype, getisflippable nrows ncols m m2 r c ftype = 0
                    \/ getisflippable nrows ncols m m2 r c ftype = 1).
Proof.
  split; [|split; [|split]].
  - apply getisflippable_HIGH_iff.
  - apply getisflippable_LOW_iff.
  - intros ftype. apply getisflippable_out_of_range.
  - intros ftype. apply getisflippable_0_or_1.
Qed.

(** ** The relabelling of the four cells *)

(** Two guarded assignments in a row are one look-up in a two-line table,
    as long as the first cannot feed the second. *)
Lemma reassign_twice (t a b c d : Z) :
  b <> c ->
  reassign (reassign t a b) c d = apply_table [(a, b); (c, d)] t.
Proof.
  intros Hbc. unfold reassign, apply_table.
  destruct (Z.eqb_spec t a) as [->|Hta].
  - destruct (Z.eqb_spec b c); [contradiction | reflexivity].
  - reflexivity.
Qed.

(** The cell-wise effect of [updatepositions] on the types, UP. *)
Lemma updatepositions_type_UP (m : lattice) (r c ftype i j : Z) :
  ftype <> 0 ->
  type (updatepositions m r c ftype i j) =
  if (i =? r) && (j =? c) then apply_table UP_base (type (m i j))
  else if (i =? r - 1) && (j =? c + 1)
       then apply_table UP_upper_right (type (m i j))
  else if (i =? r) && (j =? c + 1) then apply_table UP_right (type (m i j))
  else if (i =? r - 1) && (j =? c) then apply_table UP_up (type (m i j))
  else type (m i j).
Proof.
  intros Hft. unfold updatepositions.
  destruct (Z.eqb_spec ftype 0) as [|_]; [contradiction|]. cbv zeta.
  change (negb false) with true. cbv iota.
  rewrite !relabel_type.
  unfold UP_base, UP_upper_right, UP_right, UP_up.
  rewrite <- !reassign_twice by lia.
  destruct (Z.eqb_spec i r), (Z.eqb_spec j c),
    (Z.eqb_spec i (r - 1)), (Z.eqb_spec j (c + 1)); simpl; try lia; reflexivity.
Qed.

(** The cell-wise effect of [updatepositions] on the types, DOWN. *)
Lemma updatepositions_type_DOWN (m : lattice) (r c i j : Z) :
  type (updatepositions m r c 0 i j) =
  if (i =? r) && (j =? c) then apply_table DOWN_base (type (m i j))
  else if (i =? r + 1) && (j =? c - 1)
       then apply_table DOWN_lower_left (type (m i j))
  else if (i =? r) && (j =? c - 1) then apply_table DOWN_left (type (m i j))
  else if (i =? r + 1) && (j =? c) then apply_table DOWN_down (type (m i j))
  else type (m i j).
Proof.
  unfold updatepositions. change (negb (0 =? 0)) with false. cbv iota zeta.
  rewrite !relabel_type.
  unfold DOWN_base, DOWN_lower_left, DOWN_left, DOWN_down.
  rewrite <- !reassign_twice by lia.
  destruct (Z.eqb_spec i r), (Z.eqb_spec j c),
    (Z.eqb_spec i (r + 1)), (Z.eqb_spec j (c - 1)); simpl; try lia; reflexivity.
Qed.

(** A cell is determined by its two fields. *)
Lemma mstruct_eq (a b : mstruct) :
  type a = type b -> height a = height b -> a = b.
Proof. destruct a, b; simpl; intros -> ->; reflexivity. Qed.

(** The four cells of a move after [updatepositions]. *)
Lemma updatepositions_cells_UP (m : lattice) (r c ftype : Z) :
  ftype <> 0 ->
  let m' := updatepositions m r c ftype in
  type (m' r c) = apply_table UP_base (type (m r c))
  /\ type (m' (r - 1) (c + 1))
     = apply_table UP_upper_right (type (m (r - 1) (c + 1)))
  /\ type (m' r (c + 1)) = apply_table UP_right (type (m r (c + 1)))
  /\ type (m' (r - 1) c) = apply_table UP_up (type (m (r - 1) c)).
Proof.
  intros H1. cbv zeta. repeat split.
  - rewrite updatepositions_type_UP by exact H1. now rewrite !Z.eqb_refl.
  - rewrite updatepositions_type_UP by exact H1. rewrite !Z.eqb_refl.
    destruct (Z.eqb_spec (r - 1) r); [lia | reflexivity].
  - rewrite updatepositions_type_UP by exact H1. rewrite !Z.eqb_refl.
    destruct (Z.eqb_spec (c + 1) c); [lia|].
    destruct (Z.eqb_spec r (r - 1)); [lia | reflexivity].
  - rewrite updatepositions_type_UP by exact H1. rewrite !Z.eqb_refl.
    destruct (Z.eqb_spec (r - 1) r); [lia|].
    destruct (Z.eqb_spec c (c + 1)); [lia | reflexivity].
Qed.

Lemma updatepositions_cells_DOWN (m : lattice) (r c : Z) :
  let m' := updatepositions m r c 0 in
  type (m' r c) = apply_table DOWN_base (type (m r c))
  /\ type (m' (r + 1) (c - 1))
     = apply_table DOWN_lower_left (type (m (r + 1) (c - 1)))
  /\ type (m' r (c - 1)) = apply_table DOWN_left (type (m r (c - 1)))
  /\ type (m' (r + 1) c) = apply_table DOWN_down (type (m (r + 1) c)).
Proof.
  cbv zeta. repeat split.
  - rewrite updatepositions_type_DOWN. now rewrite !Z.eqb_refl.
  - rewrite updatepositions_type_DOWN. rewrite !Z.eqb_refl.
    destruct (Z.eqb_spec (r + 1) r); [lia | reflexivity].
  - rewrite updatepositions_type_DOWN. rewrite !Z.eqb_refl.
    destruct (Z.eqb_spec (c - 1) c); [lia|].
    destruct (Z.eqb_spec r (r + 1)); [lia | reflexivity].
  - rewrite updatepositions_type_DOWN. rewrite !Z.eqb_refl.
    destruct (Z.eqb_spec (r + 1) r); [lia|].
    destruct (Z.eqb_spec c (c - 1)); [lia | reflexivity].
Qed.

(** Every other cell after [updatepositions]. *)
Lemma updatepositions_frame_UP (m : lattice) (r c ftype i j : Z) :
  ftype <> 0 ->
  (i, j) <> (r, c) -> (i, j) <> (r - 1, c + 1) ->
  (i, j) <> (r, c + 1) -> (i, j) <> (r - 1, c) ->
  updatepositions m r c ftype i j = m i j.
Proof.
  intros H1 N1 N2 N3 N4. apply mstruct_eq.
  - rewrite updatepositions_type_UP by exact H1.
    destruct (Z.eqb_spec i r), (Z.eqb_spec j c),
      (Z.eqb_spec i (r - 1)), (Z.eqb_spec j (c + 1)); simpl;
      subst; try reflexivity; try lia; exfalso; auto.
  - apply updatepositions_height.
Qed.

Lemma updatepositions_frame_DOWN (m : lattice) (r c i j : Z) :
  (i, j) <> (r, c) -> (i, j) <> (r + 1, c - 1) ->
  (i, j) <> (r, c - 1) -> (i, j) <> (r + 1, c) ->
  updatepositions m r c 0 i j = m i j.
Proof.
  intros N1 N2 N3 N4. apply mstruct_eq.
  - rewrite updatepositions_type_DOWN.
    destruct (Z.eqb_spec i r), (Z.eqb_spec j c),
      (Z.eqb_spec i (r + 1)), (Z.eqb_spec j (c - 1)); simpl;
      subst; try reflexivity; try lia; exfalso; auto.
  - apply updatepositions_height.
Qed.

(** C1.  [updatepositions] rewrites the four cells of the move by the
    relabelling table of section 4.1 -- UP: base 0->4, 5->1; upper-right
    1->4, 5->0; right 3->5, 4->2; up 2->5, 4->3; DOWN: base 4->1, 0->5;
    lower-left 4->0, 1->5; left 5->2, 3->4; down 5->3, 2->4 -- a cell of the
    four whose type is not a left-hand side of its row keeps its type, the
    heights of the four cells are kept, and every other cell is left as it
    was.  This holds at every cell of every lattice, so in particular at a
    flippable cell of a lattice with types in {0..5}. *)
Theorem updatepositions_table (m : lattice) (r c : Z) :
  (let m' := updatepositions m r c HIGH in
   type (m' r c) = apply_table UP_base (type (m r c))
   /\ type (m' (r - 1) (c + 1))
      = apply_table UP_upper_right (type (m (r - 1) (c + 1)))
   /\ type (m' r (c + 1)) = apply_table UP_right (type (m r (c + 1)))
   /\ type (m' (r - 1) c) = apply_table UP_up (type (m (r - 1) c))
   /\ (forall i j, height (m' i j) = height (m i j))
   /\ (forall i j,
         (i, j) <> (r, c) -> (i, j) <> (r - 1, c + 1) ->
         (i, j) <> (r, c + 1) -> (i, j) <> (r - 1, c) ->
         m' i j = m i j))
  /\
  (let m' := updatepositions m r c LOW in
   type (m' r c) = apply_table DOWN_base (type (m r c))
   /\ type (m' (r + 1) (c - 1))
      = apply_table DOWN_lower_left (type (m (r + 1) (c - 1)))
   /\ type (m' r (c - 1)) = apply_table DOWN_left (type (m r (c - 1)))
   /\ type (m' (r + 1) c) = apply_table DOWN_down (type (m (r + 1) c))
   /\ (forall i j, height (m' i j) = height (m i j))
   /\ (forall i j,
         (i, j) <> (r, c) -> (i, j) <> (r + 1, c - 1) ->
         (i, j) <> (r, c - 1) -> (i, j) <> (r + 1, c) ->
         m' i j = m i j)).
Proof.
  assert (H1 : HIGH <> 0) by (unfold HIGH; lia).
  split; cbv zeta.
  - destruct (updatepositions_cells_UP m r c HIGH H1) as (U1 & U2 & U3 & U4).
    repeat split; try assumption.
    + intros; apply updatepositions_height.
    + intros i j. apply updatepositions_frame_UP. exact H1.
  - destruct (updatepositions_cells_DOWN m r c) as (D1 & D2 & D3 & D4).
    unfold LOW. repeat split; try assumption.
    + intros; apply updatepositions_height.
    + intros i j. apply updatepositions_frame_DOWN.
Qed.

(** ** Executing a flip *)

Lemma executeflip_type (m : lattice) (vol r c ftype i j : Z) :
  type (fst (executeflip m vol r c ftype) i j)
  = type (updatepositions m r c ftype i j).
Proof.
  unfold executeflip. cbv zeta.
  destruct (negb (ftype =? 0)); simpl fst; apply set_height_type.
Qed.

Lemma executeflip_height_UP (m : lattice) (vol r c ftype i j : Z) :
  ftype <> 0 ->
  height (fst (executeflip m vol r c ftype) i j)
  = if (i =? r) && (j =? c) then height (m i j) - 1 else height (m i j).
Proof.
  intros Hft. unfold executeflip. cbv zeta.
  destruct (Z.eqb_spec ftype 0) as [|_]; [contradiction|].
  change (negb false) with true. cbv iota. simpl fst.
  rewrite set_height_height, !updatepositions_height.
  destruct (Z.eqb_spec i r) as [->|]; destruct (Z.eqb_spec j c) as [->|];
    reflexivity.
Qed.

Lemma executeflip_height_DOWN (m : lattice) (vol r c i j : Z) :
  height (fst (executeflip m vol r c 0) i j)
  = if (i =? r + 1) && (j =? c - 1) then height (m i j) + 1
    else height (m i j).
Proof.
  unfold executeflip. cbv zeta.
  change (negb (0 =? 0)) with false. cbv iota. simpl fst.
  rewrite set_height_height, !updatepositions_height.
  destruct (Z.eqb_spec i (r + 1)) as [->|];
    destruct (Z.eqb_spec j (c - 1)) as [->|]; reflexivity.
Qed.

Lemma executeflip_volume (m : lattice) (vol r c ftype : Z) :
  snd (executeflip m vol r c ftype)
  = if ftype =? 0 then vol + 1 else vol - 1.
Proof.
  unfold executeflip. cbv zeta. destruct (ftype =? 0); reflexivity.
Qed.

(** Each row of the table maps [{0..5}] into itself. *)
Lemma apply_table_valid (t : table) (v : Z) :
  Forall (fun p => valid_type (snd p)) t ->
  valid_type v -> valid_type (apply_table t v).
Proof.
  induction 1 as [|[pre post] t Hp Ht IH]; intros Hv; simpl.
  - exact Hv.
  - destruct (v =? pre); [exact Hp | exact (IH Hv)].
Qed.

Lemma tables_valid :
  Forall (Forall (fun p => valid_type (snd p)))
         [UP_base; UP_upper_right; UP_right; UP_up;
          DOWN_base; DOWN_lower_left; DOWN_left; DOWN_down].
Proof. repeat constructor; unfold valid_type; simpl; lia. Qed.

Lemma updatepositions_valid (nrows ncols : Z) (m : lattice) (r c ftype : Z) :
  types_valid nrows ncols m ->
  types_valid nrows ncols (updatepositions m r c ftype).
Proof.
  intros Hm i j Hij. specialize (Hm i j Hij).
  pose proof tables_valid as T.
  repeat match type of T with
         | Forall _ (_ :: _) => inversion T as [|? ? ? T']; subst; clear T;
                                rename T' into T
         end.
  destruct (Z.eq_dec ftype 0) as [->|Hft].
  - rewrite updatepositions_type_DOWN.
    repeat match goal with
           | |- context [if ?b then _ else _] => destruct b
           end; auto using apply_table_valid.
  - rewrite updatepositions_type_UP by exact Hft.
    repeat match goal with
           | |- context [if ?b then _ else _] => destruct b
           end; auto using apply_table_valid.
Qed.

(** C4.  If every cell type of the lattice lies in {0..5}, so does every
    cell type after [executeflip], whatever the cell and the direction of
    the flip; in particular after every accepted flip at a flippable cell. *)
Theorem executeflip_types_valid
        (nrows ncols : Z) (m : lattice) (vol r c ftype : Z) :
  types_valid nrows ncols m ->
  types_valid nrows ncols (fst (executeflip m vol r c ftype)).
Proof.
  intros Hm i j Hij. rewrite executeflip_type.
  exact (updatepositions_valid nrows ncols m r c ftype Hm i j Hij).
Qed.

(** The cells of a 3 x 3 lattice, one by one. *)
Lemma in_lattice_3x3 (i j : Z) :
  in_lattice 3 3 i j ->
  In (i, j) [(0,0); (0,1); (0,2); (1,0); (1,1); (1,2); (2,0); (2,1); (2,2)].
Proof.
  unfold in_lattice. intros [Hi Hj].
  assert (Ei : i = 0 \/ i = 1 \/ i = 2) by lia.
  assert (Ej : j = 0 \/ j = 1 \/ j = 2) by lia.
  destruct Ei as [->|[->| ->]], Ej as [->|[->| ->]]; simpl; tauto.
Qed.

Lemma lattice_3x3_types_valid : types_valid 3 3 lattice_3x3.
Proof.
  intros i j Hij. apply in_lattice_3x3 in Hij. simpl in Hij.
  repeat (destruct Hij as [Hij|Hij];
          [inversion Hij; subst; vm_compute; split; discriminate|]).
  contradiction.
Qed.

Lemma executeflip_types_valid_witness :
  getisflippable 3 3 lattice_3x3 lattice_3x3 1 1 HIGH = 1
  /\ types_valid 3 3 (fst (executeflip lattice_3x3 volume_3x3 1 1 HIGH)).
Proof.
  split.
  - vm_compute. reflexivity.
  - apply (executeflip_types_valid 3 3 lattice_3x3 volume_3x3 1 1 HIGH).
    exact lattice_3x3_types_valid.
Defined.

(** ** The weight ratio *)

(** [getweightratio] in terms of the relabelling table. *)
Lemma getweightratio_UP_table
      (F : Type) (D : Double F) (wts : Z -> F) (rho : F)
      (m : lattice) (r c : Z) :
  getweightratio wts rho m r c HIGH
  = ddiv (w4 wts (apply_table UP_base (type (m r c)))
                 (apply_table UP_right (type (m r (c + 1))))
                 (apply_table UP_up (type (m (r - 1) c)))
                 (apply_table UP_upper_right (type (m (r - 1) (c + 1)))))
         rho.
Proof.
  unfold getweightratio, HIGH.
  change (negb (1 =? 0)) with true. cbv iota zeta.
  replace (c - 1 + 2 * 1) with (c + 1) by lia.
  replace (r + 1 - 2 * 1) with (r - 1) by lia.
  rewrite !reassign_twice by lia. reflexivity.
Qed.

Lemma getweightratio_DOWN_table
      (F : Type) (D : Double F) (wts : Z -> F) (rho : F)
      (m : lattice) (r c : Z) :
  getweightratio wts rho m r c LOW
  = ddiv (w4 wts (apply_table DOWN_base (type (m r c)))
                 (apply_table DOWN_left (type (m r (c - 1))))
                 (apply_table DOWN_down (type (m (r + 1) c)))
                 (apply_table DOWN_lower_left (type (m (r + 1) (c - 1)))))
         rho.
Proof.
  unfold getweightratio, LOW.
  change (negb (0 =? 0)) with false. cbv iota zeta.
  replace (c - 1 + 2 * 0) with (c - 1) by lia.
  replace (r + 1 - 2 * 0) with (r + 1) by lia.
  rewrite !reassign_twice by lia. reflexivity.
Qed.

(** C6.  [getweightratio] returns the product of the weights of the four
    post-move cell types, divided by rho, and these four types are the ones
    [updatepositions] writes for the same cell and direction into the same
    four cells: the base, the x-shift [(r, c+1)] or [(r, c-1)], the y-shift
    [(r-1, c)] or [(r+1, c)] and the diagonal [(r-1, c+1)] or [(r+1, c-1)].
    This holds at every cell, so in particular at every flippable one. *)
Theorem getweightratio_uses_updatepositions
        (F : Type) (D : Double F) (wts : Z -> F) (rho : F)
        (m : lattice) (r c : Z) :
  (let m' := updatepositions m r c HIGH in
   getweightratio wts rho m r c HIGH
   = ddiv (dmul (dmul (dmul (wts (type (m' r c)))
                            (wts (type (m' r (c + 1)))))
                      (wts (type (m' (r - 1) c))))
                (wts (type (m' (r - 1) (c + 1)))))
          rho)
  /\
  (let m' := updatepositions m r c LOW in
   getweightratio wts rho m r c LOW
   = ddiv (dmul (dmul (dmul (wts (type (m' r c)))
                            (wts (type (m' r (c - 1)))))
                      (wts (type (m' (r + 1) c))))
                (wts (type (m' (r + 1) (c - 1)))))
          rho).
Proof.
  assert (H1 : HIGH <> 0) by (unfold HIGH; lia).
  split; cbv zeta.
  - destruct (updatepositions_cells_UP m r c HIGH H1) as (U1 & U2 & U3 & U4).
    rewrite U1, U2, U3, U4. apply getweightratio_UP_table.
  - destruct (updatepositions_cells_DOWN m r c) as (D1 & D2 & D3 & D4).
    unfold LOW in *. rewrite D1, D2, D3, D4.
    apply (getweightratio_DOWN_table F D wts rho m r c).
Qed.

(** ** The driver's acceptance rule *)

Lemma state_eq_matrixvol (a b : state) : a = b -> matrixvol a = matrixvol b.
Proof. intros ->; reflexivity. Qed.

Lemma state_eq_flipfailed (a b : state) : a = b -> flipfailed a = flipfailed b.
Proof. intros ->; reflexivity. Qed.

(** C7.  In the bi-flip case (UP and DOWN both flippable at the drawn cell)
    the one draw [random] decides between three exclusive outcomes: the UP
    flip is executed and [flipcompleted] incremented exactly when
    [ratio(UP) >= random]; otherwise the DOWN flip is executed and
    [flipcompleted] incremented exactly when
    [ratio(UP) + ratio(DOWN) >= random]; otherwise [flipfailed] is
    incremented and the lattice, its volume counter and [flipcompleted] are
    unchanged.  Both ratios are taken on the lattice before the flip. *)
Theorem biflip_selection
        (F : Type) (D : Double F) (nrows ncols : Z) (wts : Z -> F) (rho : F)
        (st : state) (r c : Z) (random : F) :
  getisflippable nrows ncols (matrix st) (matrix2 st) r c HIGH = 1 ->
  getisflippable nrows ncols (matrix st) (matrix2 st) r c LOW = 1 ->
  let up := getweightratio wts rho (matrix st) r c HIGH in
  let down := getweightratio wts rho (matrix st) r c LOW in
  let st' := handle_matrix1 nrows ncols wts rho st r c random in
  let flipped ftype :=
    State (fst (executeflip (matrix st) (matrixvol st) r c ftype))
          (matrix2 st)
          (snd (executeflip (matrix st) (matrixvol st) r c ftype))
          (flipcompleted st + 1) (flipfailed st) in
  let failed :=
    State (matrix st) (matrix2 st) (matrixvol st)
          (flipcompleted st) (flipfailed st + 1) in
  (st' = flipped HIGH <-> dge up random = true)
  /\ (st' = flipped LOW <->
      dge up random = false /\ dge (dadd up down) random = true)
  /\ (st' = failed <->
      dge up random = false /\ dge (dadd up down) random = false).
Proof.
  intros Hup Hdown up down st' flipped failed.
  assert (Hst : st' = if dge up random then flipped HIGH
                      else if dge (dadd up down) random then flipped LOW
                           else failed).
  { unfold st', handle_matrix1. rewrite Hup, Hdown. reflexivity. }
  assert (Nhl : flipped HIGH <> flipped LOW).
  { intros E. apply state_eq_matrixvol in E. unfold flipped in E. cbn [matrixvol] in E.
    rewrite !executeflip_volume in E. unfold HIGH, LOW in E. simpl in E. lia. }
  assert (Nhf : flipped HIGH <> failed).
  { intros E. apply state_eq_flipfailed in E. unfold flipped, failed in E.
    cbn [flipfailed] in E. lia. }
  assert (Nlf : flipped LOW <> failed).
  { intros E. apply state_eq_flipfailed in E. unfold flipped, failed in E.
    cbn [flipfailed] in E. lia. }
  rewrite Hst.
  destruct (dge up random); [|destruct (dge (dadd up down) random)].
  - repeat split; intros; try reflexivity; try tauto; try congruence;
      try (exfalso; intuition congruence).
  - repeat split; intros; try reflexivity; try tauto; try congruence;
      try (exfalso; intuition congruence).
  - repeat split; intros; try reflexivity; try tauto; try congruence;
      try (exfalso; intuition congruence).
Qed.

Lemma biflip_selection_witness :
  getisflippable 3 3 (matrix state_3x3) (matrix2 state_3x3) 1 1 HIGH = 1
  /\ getisflippable 3 3 (matrix state_3x3) (matrix2 state_3x3) 1 1 LOW = 1
  /\ (handle_matrix1 3 3 wts_unit rho_unit state_3x3 1 1 (3 # 4)%Q
      = State (fst (executeflip (matrix state_3x3) (matrixvol state_3x3) 1 1 LOW))
              (matrix2 state_3x3)
              (snd (executeflip (matrix state_3x3) (matrixvol state_3x3) 1 1 LOW))
              (flipcompleted state_3x3 + 1) (flipfailed state_3x3)
      <-> dge (getweightratio wts_unit rho_unit (matrix state_3x3) 1 1 HIGH)
              (3 # 4)%Q = false
          /\ dge (dadd (getweightratio wts_unit rho_unit (matrix state_3x3) 1 1 HIGH)
                       (getweightratio wts_unit rho_unit (matrix state_3x3) 1 1 LOW))
                 (3 # 4)%Q = true).
Proof.
  split; [vm_compute; reflexivity|].
  split; [vm_compute; reflexivity|].
  apply (biflip_selection Q Double_Q 3 3 wts_unit rho_unit state_3x3 1 1 (3 # 4)%Q).
  - vm_compute; reflexivity.
  - vm_compute; reflexivity.
Defined.

(** ** Loops and sums *)

(** The last pass of a loop. *)
Lemma for_loop_last {S : Type} (n : nat) (i : Z) (body : Z -> S -> S) (s : S) :
  for_loop (Datatypes.S n) i body s
  = body (i + Z.of_nat n) (for_loop n i body s).
Proof.
  revert i s. induction n as [|n IH]; intros i s.
  - simpl. now rewrite Z.add_0_r.
  - change (for_loop (Datatypes.S (Datatypes.S n)) i body s)
      with (for_loop (Datatypes.S n) (i + 1) body (body i s)).
    rewrite IH. simpl for_loop. f_equal. lia.
Qed.

(** A loop invariant indexed by the number of passes made. *)
Lemma for_loop_invariant {S : Type} (P : nat -> S -> Prop)
      (n : nat) (body : Z -> S -> S) (s : S) :
  P O s ->
  (forall k t, (k < n)%nat -> P k t -> P (Datatypes.S k) (body (Z.of_nat k) t)) ->
  P n (for_loop n 0 body s).
Proof.
  intros H0 Hstep. induction n as [|n IH].
  - exact H0.
  - rewrite for_loop_last. apply Hstep; [lia|].
    apply IH. intros k t Hk. apply Hstep. lia.
Qed.

Lemma zsum_ext (n : nat) (f g : Z -> Z) :
  (forall k, 0 <= k < Z.of_nat n -> f k = g k) -> zsum n f = zsum n g.
Proof.
  induction n as [|n IH]; intros E; simpl; [reflexivity|].
  rewrite IH by (intros; apply E; lia). rewrite E by lia. reflexivity.
Qed.

Lemma zsum_plus (n : nat) (f g : Z -> Z) :
  zsum n (fun k => f k + g k) = zsum n f + zsum n g.
Proof. induction n as [|n IH]; simpl; [reflexivity | rewrite IH; lia]. Qed.

Lemma zsum_zero (n : nat) (f : Z -> Z) :
  (forall k, 0 <= k < Z.of_nat n -> f k = 0) -> zsum n f = 0.
Proof.
  induction n as [|n IH]; intros E; simpl; [reflexivity|].
  rewrite IH by (intros; apply E; lia). rewrite E by lia. reflexivity.
Qed.

(** A sum with one more unit at position [p]. *)
Lemma zsum_bump (n : nat) (f : Z -> Z) (p d : Z) :
  zsum n (fun k => if k =? p then f k + d else f k)
  = zsum n f + (if (0 <=? p) && (p <? Z.of_nat n) then d else 0).
Proof.
  induction n as [|n IH].
  - simpl. destruct (Z.leb_spec 0 p); simpl; [|lia].
    destruct (Z.ltb_spec p 0); lia.
  - cbn [zsum]. rewrite IH.
    destruct (Z.leb_spec 0 p); cbn [andb];
      destruct (Z.ltb_spec p (Z.of_nat n));
      destruct (Z.ltb_spec p (Z.of_nat (Datatypes.S n)));
      destruct (Z.eqb_spec (Z.of_nat n) p); lia.
Qed.

Lemma row_count_of_nat (m : lattice) (i : Z) (k : nat) :
  row_count m i (Z.of_nat k)
  = zsum (Datatypes.S k) (fun j => indicator (type (m i j))).
Proof.
  unfold row_count. replace (Z.to_nat (Z.of_nat k + 1)) with (Datatypes.S k) by lia.
  reflexivity.
Qed.

(** ** The volume sink and the height builder *)

(** The sum of the running counts of all cells: what both routines add up. *)
Lemma print_volume_row_spec (ncols : Z) (m : lattice) (i c t : Z) :
  print_volume_row ncols i (Hvars m c t)
  = Hvars m
          (zsum (Z.to_nat ncols) (fun j => indicator (type (m i j))))
          (t + zsum (Z.to_nat ncols) (fun j => row_count m i j)).
Proof.
  unfold print_volume_row. cbn [hmatrix total].
  apply (for_loop_invariant
           (fun n s => s = Hvars m
                                 (zsum n (fun j => indicator (type (m i j))))
                                 (t + zsum n (fun j => row_count m i j)))).
  - simpl. now rewrite Z.add_0_r.
  - intros k s _ ->. unfold print_volume_cell. cbn [hmatrix current total].
    cbn [zsum]. rewrite row_count_of_nat. cbn [zsum].
    change (indicator (type (m i (Z.of_nat k))))
      with (if carries_height (type (m i (Z.of_nat k))) then 1 else 0).
    destruct (carries_height (type (m i (Z.of_nat k)))); f_equal; lia.
Qed.

Lemma print_volume_spec (nrows ncols : Z) (m : lattice) :
  print_volume nrows ncols m
  = zsum (Z.to_nat nrows) (fun i =>
      zsum (Z.to_nat ncols) (fun j => row_count m i j)).
Proof.
  unfold print_volume.
  assert (E : exists c,
             for_loop (Z.to_nat nrows) 0 (print_volume_row ncols) (Hvars m 0 0)
             = Hvars m c
                     (zsum (Z.to_nat nrows) (fun i =>
                        zsum (Z.to_nat ncols) (fun j => row_count m i j)))).
  { apply (for_loop_invariant
             (fun n s => exists c,
                  s = Hvars m c
                            (zsum n (fun i =>
                               zsum (Z.to_nat ncols) (fun j => row_count m i j))))).
    - exists 0. reflexivity.
    - intros k s _ [c ->]. rewrite print_volume_row_spec.
      eexists. reflexivity. }
  destruct E as [c ->]. reflexivity.
Qed.

Lemma row_count_ext (m m' : lattice) (i j : Z) :
  (forall k, type (m' i k) = type (m i k)) -> row_count m' i j = row_count m i j.
Proof.
  intros E. unfold row_count. apply zsum_ext. intros k _. now rewrite E.
Qed.

(** One row of [setheights]: the types stay, the heights of the row become
    the running counts, and the total grows by their sum. *)
Lemma setheights_row_spec (ncols : Z) (i : Z) (s : hvars) :
  let s' := setheights_row ncols i s in
  (forall i' j', type (hmatrix s' i' j') = type (hmatrix s i' j'))
  /\ (forall i' j',
         height (hmatrix s' i' j')
         = if (i' =? i) && ((0 <=? j') && (j' <? ncols))
           then row_count (hmatrix s) i j'
           else height (hmatrix s i' j'))
  /\ total s'
     = total s + zsum (Z.to_nat ncols) (fun j => row_count (hmatrix s) i j).
Proof.
  cbv zeta. unfold setheights_row.
  set (m := hmatrix s).
  pose (P := fun (n : nat) (t : hvars) =>
    (forall i' j', type (hmatrix t i' j') = type (m i' j'))
    /\ (forall i' j',
           height (hmatrix t i' j')
           = if (i' =? i) && ((0 <=? j') && (j' <? Z.of_nat n))
             then row_count m i j'
             else height (m i' j'))
    /\ current t = zsum n (fun j => indicator (type (m i j)))
    /\ total t = total s + zsum n (fun j => row_count m i j)).
  assert (HP : P (Z.to_nat ncols)
                 (for_loop (Z.to_nat ncols) 0 (setheights_cell i)
                           (Hvars m 0 (total s)))).
  { apply for_loop_invariant.
    - unfold P. cbn [hmatrix current total zsum]. repeat split; try lia.
      intros i' j'. destruct (i' =? i); cbn [andb]; [|reflexivity].
      destruct (Z.leb_spec 0 j'); cbn [andb]; [|reflexivity].
      destruct (Z.ltb_spec j' (Z.of_nat 0)); [lia | reflexivity].
    - intros k t _ (Ht & Hh & Hc & Htot). unfold P, setheights_cell.
      cbn [hmatrix current total].
      assert (Ecur : (if carries_height (type (hmatrix t i (Z.of_nat k)))
                      then current t + 1 else current t)
                     = row_count m i (Z.of_nat k)).
      { rewrite row_count_of_nat. cbn [zsum]. rewrite Ht, Hc.
        change (indicator (type (m i (Z.of_nat k))))
          with (if carries_height (type (m i (Z.of_nat k))) then 1 else 0).
        destruct (carries_height (type (m i (Z.of_nat k)))); lia. }
      rewrite Ecur. repeat split.
      + intros i' j'. rewrite set_height_type. apply Ht.
      + intros i' j'. rewrite set_height_height, Hh.
        destruct (Z.eqb_spec i' i) as [->|]; cbn [andb]; [|reflexivity].
        destruct (Z.eqb_spec j' (Z.of_nat k)) as [->|].
        * destruct (Z.leb_spec 0 (Z.of_nat k)); [|lia].
          destruct (Z.ltb_spec (Z.of_nat k) (Z.of_nat (Datatypes.S k))); [|lia].
          reflexivity.
        * destruct (Z.leb_spec 0 j'); cbn [andb]; [|reflexivity].
          destruct (Z.ltb_spec j' (Z.of_nat k)),
            (Z.ltb_spec j' (Z.of_nat (Datatypes.S k))); try lia; reflexivity.
      + rewrite row_count_of_nat. reflexivity.
      + cbn [zsum]. rewrite Htot. lia. }
  destruct HP as (Ht & Hh & _ & Htot). repeat split.
  - exact Ht.
  - intros i' j'. rewrite Hh.
    destruct (i' =? i); cbn [andb]; [|reflexivity].
    destruct (Z.leb_spec 0 j'); cbn [andb]; [|reflexivity].
    destruct (Z.ltb_spec j' (Z.of_nat (Z.to_nat ncols))),
      (Z.ltb_spec j' ncols); try lia; reflexivity.
  - exact Htot.
Qed.

(** All of [setheights]. *)
Lemma setheights_spec (nrows ncols : Z) (m : lattice) :
  (forall i j, type (fst (setheights nrows ncols m) i j) = type (m i j))
  /\ (forall i j,
         height (fst (setheights nrows ncols m) i j)
         = if ((0 <=? i) && (i <? nrows)) && ((0 <=? j) && (j <? ncols))
           then row_count m i j
           else height (m i j))
  /\ snd (setheights nrows ncols m)
     = zsum (Z.to_nat nrows) (fun i =>
         zsum (Z.to_nat ncols) (fun j => row_count m i j)).
Proof.
  unfold setheights. cbn [fst snd].
  pose (P := fun (n : nat) (t : hvars) =>
    (forall i j, type (hmatrix t i j) = type (m i j))
    /\ (forall i j,
           height (hmatrix t i j)
           = if ((0 <=? i) && (i <? Z.of_nat n)) && ((0 <=? j) && (j <? ncols))
             then row_count m i j
             else height (m i j))
    /\ total t
       = zsum n (fun i => zsum (Z.to_nat ncols) (fun j => row_count m i j))).
  assert (HP : P (Z.to_nat nrows)
                 (for_loop (Z.to_nat nrows) 0 (setheights_row ncols)
                           (Hvars m 0 0))).
  { apply for_loop_invariant.
    - unfold P. cbn [hmatrix total zsum]. repeat split.
      intros i j. destruct (Z.leb_spec 0 i); cbn [andb]; [|reflexivity].
      destruct (Z.ltb_spec i (Z.of_nat 0)); [lia | reflexivity].
    - intros k t _ (Ht & Hh & Htot).
      destruct (setheights_row_spec ncols (Z.of_nat k) t) as (Rt & Rh & Rtot).
      unfold P. repeat split.
      + intros i j. rewrite Rt. apply Ht.
      + intros i j. rewrite Rh, Hh.
        rewrite (row_count_ext m (hmatrix t)) by (intros; apply Ht).
        destruct (Z.eqb_spec i (Z.of_nat k)) as [->|]; cbn [andb].
        * destruct (Z.leb_spec 0 (Z.of_nat k)); [|lia].
          destruct (Z.ltb_spec (Z.of_nat k) (Z.of_nat (Datatypes.S k))); [|lia].
          destruct (Z.ltb_spec (Z.of_nat k) (Z.of_nat k)); [lia|].
          cbn [andb]. destruct ((0 <=? j) && (j <? ncols)); reflexivity.
        * destruct (Z.leb_spec 0 i); cbn [andb]; [|reflexivity].
          destruct (Z.ltb_spec i (Z.of_nat k)),
            (Z.ltb_spec i (Z.of_nat (Datatypes.S k))); try lia; reflexivity.
      + rewrite Rtot, Htot. cbn [zsum]. f_equal.
        apply zsum_ext. intros j _. apply row_count_ext. intros; apply Ht. }
  destruct HP as (Ht & Hh & Htot). repeat split.
  - exact Ht.
  - intros i j. rewrite Hh.
    destruct (Z.leb_spec 0 i); cbn [andb]; [|reflexivity].
    destruct (Z.ltb_spec i (Z.of_nat (Z.to_nat nrows))),
      (Z.ltb_spec i nrows); try lia; reflexivity.
  - exact Htot.
Qed.

(** Summing the running counts of a row counts each cell once for every
    column from its own to the last. *)
Lemma zsum_prefix_weighted (n : nat) (f : Z -> Z) :
  zsum n (fun j => zsum (Z.to_nat (j + 1)) f)
  = zsum n (fun k => f k * (Z.of_nat n - k)).
Proof.
  induction n as [|n IH]; [reflexivity|].
  cbn [zsum]. rewrite IH.
  replace (Z.to_nat (Z.of_nat n + 1)) with (Datatypes.S n) by lia.
  cbn [zsum].
  rewrite (zsum_ext n (fun k => f k * (Z.of_nat (Datatypes.S n) - k))
                    (fun k => f k * (Z.of_nat n - k) + f k))
    by (intros; lia).
  rewrite zsum_plus. lia.
Qed.

Lemma sum_row_counts_weighted (nrows ncols : Z) (m : lattice) :
  zsum (Z.to_nat nrows) (fun i =>
    zsum (Z.to_nat ncols) (fun j => row_count m i j))
  = weighted_indicator_sum nrows ncols m.
Proof.
  unfold weighted_indicator_sum. apply zsum_ext. intros i _.
  unfold row_count.
  rewrite (zsum_prefix_weighted (Z.to_nat ncols)
             (fun k => indicator (type (m i k)))).
  apply zsum_ext. intros k Hk. f_equal. lia.
Qed.

Lemma setheights_sum_heights (nrows ncols : Z) (m : lattice) :
  sum_heights nrows ncols (fst (setheights nrows ncols m))
  = snd (setheights nrows ncols m).
Proof.
  destruct (setheights_spec nrows ncols m) as (_ & Hh & ->).
  unfold sum_heights. apply zsum_ext. intros i Hi.
  apply zsum_ext. intros j Hj. rewrite Hh.
  destruct (Z.leb_spec 0 i); [|lia].
  destruct (Z.ltb_spec i nrows); [|lia].
  destruct (Z.leb_spec 0 j); [|lia].
  destruct (Z.ltb_spec j ncols); [|lia].
  reflexivity.
Qed.

Lemma setheights_consistent (nrows ncols : Z) (m : lattice) :
  heights_consistent nrows ncols (fst (setheights nrows ncols m)).
Proof.
  destruct (setheights_spec nrows ncols m) as (Ht & Hh & _).
  intros i j [Hi Hj]. rewrite Hh.
  destruct (Z.leb_spec 0 i); [|lia].
  destruct (Z.ltb_spec i nrows); [|lia].
  destruct (Z.leb_spec 0 j); [|lia].
  destruct (Z.ltb_spec j ncols); [|lia].
  cbn [andb]. symmetry. apply row_count_ext. intros k. apply Ht.
Qed.

(** C8, as the code has it.  The volume the sink writes -- the total
    [setheights] returns, and the sum of the heights it stores -- is the sum
    over all cells of [[type in {0, 2, 5}]] multiplied by the number of
    columns from the cell's own to the last one, [C - j]: a cell of such a
    type adds one to the height of every cell to its right in its row. *)
Theorem print_volume_weighted (nrows ncols : Z) (m : lattice) :
  print_volume nrows ncols m = weighted_indicator_sum nrows ncols m
  /\ print_volume nrows ncols m = snd (setheights nrows ncols m)
  /\ print_volume nrows ncols m
     = sum_heights nrows ncols (fst (setheights nrows ncols m)).
Proof.
  rewrite setheights_sum_heights.
  destruct (setheights_spec nrows ncols m) as (_ & _ & ->).
  rewrite print_volume_spec, sum_row_counts_weighted. repeat split.
Qed.

(** C8 as stated fails on the one-row lattice "01": both cells have a type
    in {0..5}, its volume is 2 and one cell has a type in {0, 2, 5}. *)
Lemma print_volume_not_indicator_sum :
  types_valid 1 2 lattice_1x2
  /\ print_volume 1 2 lattice_1x2 = 2
  /\ sum_heights 1 2 lattice_1x2 = 2
  /\ indicator_sum 1 2 lattice_1x2 = 1
  /\ print_volume 1 2 lattice_1x2 <> indicator_sum 1 2 lattice_1x2.
Proof.
  split; [|vm_compute; repeat split; discriminate].
  intros i j [Hi Hj].
  assert (i = 0) as -> by lia.
  assert (j = 0 \/ j = 1) as [-> | ->] by lia;
    vm_compute; split; discriminate.
Qed.

(** ** The input parser *)

Lemma fgetc_fst (data : list byte) : fst (fgetc data) = fgetc_nth data 0.
Proof. destruct data; reflexivity. Qed.

Lemma fgetc_snd (data : list byte) : snd (fgetc data) = skipn 1 data.
Proof. destruct data; reflexivity. Qed.

Lemma fgetc_nth_skipn (data : list byte) (n k : nat) :
  fgetc_nth (skipn n data) k = fgetc_nth data (n + k).
Proof.
  revert data. induction n as [|n IH]; intros data; [reflexivity|].
  destruct data as [|b data].
  - unfold fgetc_nth. simpl. destruct k; reflexivity.
  - simpl skipn. rewrite IH. reflexivity.
Qed.

Lemma skipn_skipn_1 {A : Type} (n : nat) (l : list A) :
  skipn 1 (skipn n l) = skipn (Datatypes.S n) l.
Proof.
  revert l. induction n as [|n IH]; intros l.
  - reflexivity.
  - destruct l as [|a l]; [reflexivity|]. simpl skipn at 2 3. apply IH.
Qed.

Lemma skipn_plus {A : Type} (a b : nat) (l : list A) :
  skipn b (skipn a l) = skipn (a + b) l.
Proof.
  revert l. induction a as [|a IH]; intros l; [reflexivity|].
  destruct l as [|x l].
  - simpl. destruct b; reflexivity.
  - simpl. apply IH.
Qed.

(** One row of [parse]: it reads [ncols] bytes into the types of the row,
    in order, and nothing else changes. *)
Lemma parse_row_spec (ncols : Z) (i : Z) (s : lattice * list byte) :
  let s' := parse_row ncols i s in
  snd s' = skipn (Z.to_nat ncols) (snd s)
  /\ (forall i' j',
         type (fst s' i' j')
         = if (i' =? i) && ((0 <=? j') && (j' <? ncols))
           then fgetc_nth (snd s) (Z.to_nat j') - char_0
           else type (fst s i' j'))
  /\ (forall i' j', height (fst s' i' j') = height (fst s i' j')).
Proof.
  cbv zeta. unfold parse_row. destruct s as [m d]. cbn [fst snd].
  pose (P := fun (n : nat) (t : lattice * list byte) =>
    snd t = skipn n d
    /\ (forall i' j',
           type (fst t i' j')
           = if (i' =? i) && ((0 <=? j') && (j' <? Z.of_nat n))
             then fgetc_nth d (Z.to_nat j') - char_0
             else type (m i' j'))
    /\ (forall i' j', height (fst t i' j') = height (m i' j'))).
  assert (HP : P (Z.to_nat ncols)
                 (for_loop (Z.to_nat ncols) 0 (parse_cell i) (m, d))).
  { apply for_loop_invariant.
    - unfold P. cbn [fst snd]. repeat split.
      intros i' j'. destruct (i' =? i); cbn [andb]; [|reflexivity].
      destruct (Z.leb_spec 0 j'); cbn [andb]; [|reflexivity].
      destruct (Z.ltb_spec j' (Z.of_nat 0)); [lia | reflexivity].
    - intros k t _ (Hd & Ht & Hh). unfold P, parse_cell. cbn [fst snd].
      rewrite fgetc_snd, fgetc_fst, Hd, skipn_skipn_1, fgetc_nth_skipn.
      rewrite Nat.add_0_r. repeat split.
      + intros i' j'. rewrite set_type_type, Ht.
        destruct (Z.eqb_spec i' i) as [->|]; cbn [andb]; [|reflexivity].
        destruct (Z.eqb_spec j' (Z.of_nat k)) as [->|].
        * destruct (Z.leb_spec 0 (Z.of_nat k)); [|lia].
          destruct (Z.ltb_spec (Z.of_nat k) (Z.of_nat (Datatypes.S k))); [|lia].
          cbn [andb]. now rewrite Nat2Z.id.
        * destruct (Z.leb_spec 0 j'); cbn [andb]; [|reflexivity].
          destruct (Z.ltb_spec j' (Z.of_nat k)),
            (Z.ltb_spec j' (Z.of_nat (Datatypes.S k))); try lia; reflexivity.
      + intros i' j'. rewrite set_type_height. apply Hh. }
  destruct HP as (Hd & Ht & Hh). repeat split.
  - exact Hd.
  - intros i' j'. rewrite Ht.
    destruct (i' =? i); cbn [andb]; [|reflexivity].
    destruct (Z.leb_spec 0 j'); cbn [andb]; [|reflexivity].
    destruct (Z.ltb_spec j' (Z.of_nat (Z.to_nat ncols))),
      (Z.ltb_spec j' ncols); try lia; reflexivity.
  - exact Hh.
Qed.

(** All of [parse]: cell [(i, j)] of the lattice gets the byte read at
    call [i * ncols + j], less ['0']; heights and the cells outside the
    lattice are not touched. *)
Lemma parse_spec (nrows ncols : Z) (m : lattice) (data : list byte) :
  (forall i j,
      type (parse nrows ncols m data i j)
      = if ((0 <=? i) && (i <? nrows)) && ((0 <=? j) && (j <? ncols))
        then fgetc_nth data (Z.to_nat (i * ncols + j)) - char_0
        else type (m i j))
  /\ (forall i j, height (parse nrows ncols m data i j) = height (m i j)).
Proof.
  unfold parse.
  pose (P := fun (n : nat) (t : lattice * list byte) =>
    snd t = skipn (n * Z.to_nat ncols) data
    /\ (forall i j,
           type (fst t i j)
           = if ((0 <=? i) && (i <? Z.of_nat n)) && ((0 <=? j) && (j <? ncols))
             then fgetc_nth data (Z.to_nat (i * ncols + j)) - char_0
             else type (m i j))
    /\ (forall i j, height (fst t i j) = height (m i j))).
  assert (HP : P (Z.to_nat nrows)
                 (for_loop (Z.to_nat nrows) 0 (parse_row ncols) (m, data))).
  { apply for_loop_invariant.
    - unfold P. cbn [fst snd]. repeat split.
      intros i j. destruct (Z.leb_spec 0 i); cbn [andb]; [|reflexivity].
      destruct (Z.ltb_spec i (Z.of_nat 0)); [lia | reflexivity].
    - intros k t _ (Hd & Ht & Hh).
      destruct (parse_row_spec ncols (Z.of_nat k) t) as (Rd & Rt & Rh).
      unfold P. repeat split.
      + rewrite Rd, Hd, skipn_plus. f_equal. lia.
      + intros i j. rewrite Rt, Ht, Hd, fgetc_nth_skipn.
        destruct (Z.eqb_spec i (Z.of_nat k)) as [->|]; cbn [andb].
        * destruct (Z.leb_spec 0 (Z.of_nat k)); [|lia].
          destruct (Z.ltb_spec (Z.of_nat k) (Z.of_nat (Datatypes.S k))); [|lia].
          destruct (Z.ltb_spec (Z.of_nat k) (Z.of_nat k)); [lia|].
          cbn [andb].
          destruct (Z.leb_spec 0 j); cbn [andb]; [|reflexivity].
          destruct (Z.ltb_spec j ncols); [|reflexivity].
          do 2 f_equal. nia.
        * destruct (Z.leb_spec 0 i); cbn [andb]; [|reflexivity].
          destruct (Z.ltb_spec i (Z.of_nat k)),
            (Z.ltb_spec i (Z.of_nat (Datatypes.S k))); try lia; reflexivity.
      + intros i j. rewrite Rh. apply Hh. }
  destruct HP as (_ & Ht & Hh). split.
  - intros i j. rewrite Ht.
    destruct (Z.leb_spec 0 i); cbn [andb]; [|reflexivity].
    destruct (Z.ltb_spec i (Z.of_nat (Z.to_nat nrows))),
      (Z.ltb_spec i nrows); try lia; reflexivity.
  - exact Hh.
Qed.

(** C10.  [parse] validates nothing: for every byte stream, the type of
    cell [(i, j)] of the lattice is whatever [fgetc] returned at call
    [i * ncols + j] (row-major), less ['0'].  So a byte outside ['0'..'5']
    leaves a type outside {0..5} in the cell, and past the end of the stream
    the cell gets [EOF - '0']; [parse] has no error result and puts no
    default in place of either. *)
Theorem parse_stores_bytes_unchecked
        (nrows ncols : Z) (m : lattice) (data : list byte) (i j : Z) :
  in_lattice nrows ncols i j ->
  let k := Z.to_nat (i * ncols + j) in
  let t := type (parse nrows ncols m data i j) in
  t = fgetc_nth data k - char_0
  /\ (~ (char_0 <= fgetc_nth data k <= char_0 + 5) -> ~ valid_type t)
  /\ ((List.length data <= k)%nat -> t = EOF - char_0 /\ ~ valid_type t).
Proof.
  intros [Hi Hj] k t.
  assert (Et : t = fgetc_nth data k - char_0).
  { unfold t. rewrite (proj1 (parse_spec nrows ncols m data)).
    destruct (Z.leb_spec 0 i); [|lia].
    destruct (Z.ltb_spec i nrows); [|lia].
    destruct (Z.leb_spec 0 j); [|lia].
    destruct (Z.ltb_spec j ncols); [|lia].
    reflexivity. }
  split; [exact Et|]. split.
  - intros Hout Hv. apply Hout. unfold valid_type in Hv. lia.
  - intros Hlen.
    assert (Ek : fgetc_nth data k = EOF).
    { unfold fgetc_nth. apply nth_overflow. now rewrite length_map. }
    rewrite Et, Ek. split; [reflexivity|].
    unfold valid_type, EOF, char_0. simpl. lia.
Qed.

Lemma parse_stores_bytes_unchecked_witness :
  in_lattice 1 2 0 0
  /\ type (parse 1 2 zero_lattice data_9 0 0) = 9
  /\ ~ valid_type (type (parse 1 2 zero_lattice data_9 0 0))
  /\ in_lattice 1 2 0 1
  /\ type (parse 1 2 zero_lattice data_9 0 1) = -49
  /\ ~ valid_type (type (parse 1 2 zero_lattice data_9 0 1)).
Proof.
  assert (H00 : in_lattice 1 2 0 0) by (unfold in_lattice; lia).
  assert (H01 : in_lattice 1 2 0 1) by (unfold in_lattice; lia).
  pose proof (parse_stores_bytes_unchecked 1 2 zero_lattice data_9 0 0 H00)
    as (E0 & N0 & _).
  pose proof (parse_stores_bytes_unchecked 1 2 zero_lattice data_9 0 1 H01)
    as (E1 & _ & N1).
  split; [exact H00|]. split; [rewrite E0; reflexivity|].
  split; [apply N0; vm_compute; intros [_ H]; apply H; reflexivity|].
  split; [exact H01|]. split; [rewrite E1; reflexivity|].
  apply N1. vm_compute. apply le_n.
Defined.

(** ** The exit status of [main] *)

(** Every [return] on the way to the lattices is [return 0]. *)
Lemma main_startup_returns_zero (env : environment) (status : Z) :
  snd (main_startup env) = Return status -> status = 0.
Proof.
  unfold main_startup.
  destruct (argc env >? 1).
  - destruct (command_line env) as [[f f2]|]; cbn [snd]; [|discriminate].
    destruct (fopen env f); cbn [snd].
    + destruct (fopen env f2); cbn [snd];
        intros E; inversion E; reflexivity.
    + intros E; inversion E; reflexivity.
  - destruct (stdin_line1 env) as [l1|]; cbn [snd];
      [|intros E; inversion E; reflexivity].
    destruct (fopen env (nltrim l1)); cbn [snd];
      [|intros E; inversion E; reflexivity].
    destruct (stdin_line2 env) as [l2|]; cbn [snd];
      [|intros E; inversion E; reflexivity].
    destruct (fopen env (nltrim l2)); cbn [snd];
      intros E; inversion E; reflexivity.
Qed.

(** [main] reaches the sampling loop only with both files open. *)
Lemma main_startup_sampling (env : environment) (data data2 : list byte) :
  snd (main_startup env) = Sampling data data2 ->
  exists n n2, upper_name env = Some n /\ fopen env n = Some data
               /\ lower_name env = Some n2 /\ fopen env n2 = Some data2.
Proof.
  unfold main_startup, lower_name, upper_name.
  destruct (argc env >? 1).
  - destruct (command_line env) as [[f f2]|]; cbn [snd option_map fst];
      [|discriminate].
    destruct (fopen env f) as [d|] eqn:E1; cbn [snd]; [|discriminate].
    destruct (fopen env f2) as [d2|] eqn:E2; cbn [snd]; [|discriminate].
    intros E; inversion E; subst. exists f, f2. auto.
  - destruct (stdin_line1 env) as [l1|]; cbn [snd option_map]; [|discriminate].
    destruct (fopen env (nltrim l1)) as [d|] eqn:E1; cbn [snd]; [|discriminate].
    destruct (stdin_line2 env) as [l2|]; cbn [snd option_map]; [|discriminate].
    destruct (fopen env (nltrim l2)) as [d2|] eqn:E2; cbn [snd]; [|discriminate].
    intros E; inversion E; subst. exists (nltrim l1), (nltrim l2). auto.
Qed.

(** With all thirteen arguments there, every entry [main] reads is a
    string of [argv]. *)
Lemma command_line_complete (env : environment) :
  14 <= argc env ->
  exists f f2, command_line env = Some (nltrim f, nltrim f2).
Proof.
  unfold argc, command_line, arg. intros H.
  destruct (argv env)
    as [|a0 [|a1 [|a2 [|a3 [|a4 [|a5 [|a6 [|a7 [|a8 [|a9 [|a10 [|a11
        [|a12 [|a13 rest]]]]]]]]]]]]]];
    cbn [List.length] in H; try lia.
  exists a1, a2. reflexivity.
Qed.

(** With at least one argument and fewer than thirteen, [main] reads an
    entry of [argv] that is no string before it prints anything or opens a
    file. *)
Lemma main_startup_undefined (env : environment) :
  2 <= argc env <= 13 -> main_startup env = ([], Undefined).
Proof.
  unfold main_startup, argc, command_line, arg. intros H.
  destruct (Z.gtb_spec (Z.of_nat (List.length (argv env))) 1); [|lia].
  destruct (argv env)
    as [|a0 [|a1 [|a2 [|a3 [|a4 [|a5 [|a6 [|a7 [|a8 [|a9 [|a10 [|a11
        [|a12 [|a13 rest]]]]]]]]]]]]]];
    cbn [List.length] in H; try lia; reflexivity.
Qed.

(** So it is for a command line that names two files that open and
    stops there. *)
Example main_two_arguments_undefined :
  argc env_two_arguments = 3
  /\ main_startup env_two_arguments = ([], Undefined)
  /\ main_status env_two_arguments = None.
Proof.
  split; [reflexivity|].
  assert (E : main_startup env_two_arguments = ([], Undefined))
    by (apply main_startup_undefined; vm_compute; split; discriminate).
  split; [exact E|]. unfold main_status. rewrite E. reflexivity.
Qed.

(** With the arguments there, or none, [main] is on one of its defined
    paths. *)
Lemma main_startup_defined (env : environment) :
  argc env <= 1 \/ 14 <= argc env -> snd (main_startup env) <> Undefined.
Proof.
  intros H. unfold main_startup.
  destruct (Z.gtb_spec (argc env) 1) as [G|G].
  - destruct (command_line_complete env) as (f & f2 & ->); [lia|].
    destruct (fopen env (nltrim f)); [|discriminate].
    destruct (fopen env (nltrim f2)); discriminate.
  - destruct (stdin_line1 env) as [l1|]; [|discriminate].
    destruct (fopen env (nltrim l1)); [|discriminate].
    destruct (stdin_line2 env) as [l2|]; [|discriminate].
    destruct (fopen env (nltrim l2)); discriminate.
Qed.

(** A failed first [fopen]: the message is the last call of [printf], and
    [main] returns 0. *)
Lemma main_startup_upper_fails (env : environment) :
  cannot_open env (upper_name env) ->
  snd (main_startup env) = Return 0
  /\ exists out,
      fst (main_startup env)
      = out ++ [Printf ("*** error opening file" ++ newline)].
Proof.
  unfold cannot_open, upper_name, main_startup.
  destruct (argc env >? 1).
  - destruct (command_line env) as [[f f2]|]; cbn [option_map fst];
      [|contradiction].
    intros ->. split; [reflexivity|]. exists []. reflexivity.
  - destruct (stdin_line1 env) as [l1|]; cbn [option_map]; [|contradiction].
    intros ->. split; [reflexivity|].
    exists [Printf "enter name of file: "]. reflexivity.
Qed.

(** A failed second [fopen]: likewise, with the message of the second
    file. *)
Lemma main_startup_lower_fails (env : environment) :
  cannot_open env (lower_name env) ->
  snd (main_startup env) = Return 0
  /\ exists out,
      fst (main_startup env)
      = out ++ [Printf ("*** error opening file2" ++ newline)].
Proof.
  unfold cannot_open, lower_name, upper_name, main_startup.
  destruct (argc env >? 1).
  - destruct (command_line env) as [[f f2]|]; cbn [option_map fst snd];
      [|contradiction].
    destruct (fopen env f); [|contradiction].
    intros ->. split; [reflexivity|]. exists []. reflexivity.
  - destruct (stdin_line1 env) as [l1|]; cbn [option_map]; [|contradiction].
    destruct (fopen env (nltrim l1)); [|contradiction].
    destruct (stdin_line2 env) as [l2|]; cbn [option_map]; [|contradiction].
    intros ->. split; [reflexivity|].
    exists [Printf "enter name of file: "; Printf "enter name of file 2: "].
    reflexivity.
Qed.

(** C9, as the code has it.  Let [main] be started without arguments or
    with all thirteen of them.  Then it is on a defined path; whenever it
    returns, the status it returns is 0; and when [fopen] fails for the
    file of the upper or of the lower lattice, the last thing [main] does
    before it returns is to print, with [printf], the message of that file,
    and the status it returns is 0 -- the same value as in the [return 0]
    that ends the function. *)
Theorem main_exit_status (env : environment) :
  argc env <= 1 \/ 14 <= argc env ->
  snd (main_startup env) <> Undefined
  /\ (forall status, main_status env = Some status -> status = 0)
  /\ (cannot_open env (upper_name env) ->
      main_status env = Some 0
      /\ exists out,
          fst (main_startup env)
          = out ++ [Printf ("*** error opening file" ++ newline)])
  /\ (cannot_open env (lower_name env) ->
      main_status env = Some 0
      /\ exists out,
          fst (main_startup env)
          = out ++ [Printf ("*** error opening file2" ++ newline)]).
Proof.
  intros Hargs.
  split; [exact (main_startup_defined env Hargs)|].
  unfold main_status. split; [|split].
  - intros status. destruct (snd (main_startup env)) as [s|d d2|] eqn:E.
    + intros H. inversion H; subst.
      exact (main_startup_returns_zero env status E).
    + discriminate.
    + discriminate.
  - intros Hfail.
    destruct (main_startup_upper_fails env Hfail) as [-> Hout].
    split; [reflexivity|exact Hout].
  - intros Hfail.
    destruct (main_startup_lower_fails env Hfail) as [-> Hout].
    split; [reflexivity|exact Hout].
Qed.

Lemma main_exit_status_witness :
  (argc env_no_lower <= 1 \/ 14 <= argc env_no_lower)
  /\ cannot_open env_no_lower (lower_name env_no_lower)
  /\ main_status env_no_lower = Some 0
  /\ exists out,
      fst (main_startup env_no_lower)
      = out ++ [Printf ("*** error opening file2" ++ newline)].
Proof.
  assert (Hargs : argc env_no_lower <= 1 \/ 14 <= argc env_no_lower)
    by (left; vm_compute; discriminate).
  assert (Hfail : cannot_open env_no_lower (lower_name env_no_lower))
    by (vm_compute; reflexivity).
  split; [exact Hargs|]. split; [exact Hfail|].
  exact (proj2 (proj2 (proj2 (main_exit_status env_no_lower Hargs))) Hfail).
Defined.

(** C9 as stated fails on a command line with all thirteen arguments whose
    two files cannot be opened: [main] prints its message with [printf]
    and returns 0, not a non-zero status. *)
Lemma main_open_failure_not_nonzero :
  14 <= argc env_no_files
  /\ cannot_open env_no_files (upper_name env_no_files)
  /\ main_startup env_no_files
     = ([Printf ("*** error opening file" ++ newline)], Return 0)
  /\ main_status env_no_files = Some 0
  /\ ~ (exists status, main_status env_no_files = Some status
                       /\ status <> 0).
Proof.
  split; [vm_compute; discriminate|].
  split; [vm_compute; reflexivity|].
  split; [vm_compute; reflexivity|].
  split; [vm_compute; reflexivity|].
  intros (status & E & Hnz). apply Hnz.
  vm_compute in E. inversion E. reflexivity.
Qed.

(** ** Heights and volume under a flip *)

Lemma zsum_delta (n : nat) (p d : Z) :
  zsum n (fun k => if k =? p then d else 0)
  = if (0 <=? p) && (p <? Z.of_nat n) then d else 0.
Proof.
  rewrite (zsum_ext n _ (fun k => if k =? p then 0 + d else 0))
    by (intros; destruct (_ =? _); lia).
  rewrite (zsum_bump n (fun _ => 0) p d).
  rewrite (zsum_zero n (fun _ => 0)) by reflexivity. lia.
Qed.

(** The bookkeeping of [executeflip] in general form: if the indicator of
    [{0, 2, 5}] changes by [d] at an anchor cell and by [-d] at the cell to
    its right, and the stored height changes by [d] at the anchor only, then
    consistent heights stay consistent and their sum changes by [d]. *)
Lemma anchor_update_consistent
      (nrows ncols : Z) (m m' : lattice) (a b d : Z) :
  in_lattice nrows ncols a b ->
  (forall i k,
      indicator (type (m' i k))
      = indicator (type (m i k))
        + (if (i =? a) && (k =? b) then d else 0)
        + (if (i =? a) && (k =? b + 1) then - d else 0)) ->
  (forall i j,
      height (m' i j)
      = height (m i j) + (if (i =? a) && (j =? b) then d else 0)) ->
  heights_consistent nrows ncols m ->
  heights_consistent nrows ncols m'
  /\ sum_heights nrows ncols m' = sum_heights nrows ncols m + d.
Proof.
  intros [Ha Hb] Hind Hh Hcons. split.
  - intros i j Hij. rewrite Hh, (Hcons i j Hij).
    destruct Hij as [Hi Hj]. unfold row_count.
    rewrite (zsum_ext _ (fun k => indicator (type (m' i k))) (fun k =>
               (indicator (type (m i k))
                + (if k =? b then (if i =? a then d else 0) else 0))
               + (if k =? b + 1 then (if i =? a then - d else 0) else 0))).
    2:{ intros k _. cbv beta. rewrite Hind.
        destruct (i =? a), (k =? b), (k =? b + 1); reflexivity. }
    rewrite !zsum_plus, !zsum_delta.
    replace (Z.of_nat (Z.to_nat (j + 1))) with (j + 1) by lia.
    destruct (Z.eqb_spec i a); cbn [andb];
      destruct (Z.eqb_spec j b);
      destruct (Z.leb_spec 0 b); destruct (Z.ltb_spec b (j + 1));
      destruct (Z.leb_spec 0 (b + 1)); destruct (Z.ltb_spec (b + 1) (j + 1));
      cbn [andb]; lia.
  - unfold sum_heights.
    rewrite (zsum_ext _ _ (fun i =>
               zsum (Z.to_nat ncols) (fun j => height (m i j))
               + (if i =? a then d else 0))).
    2:{ intros i _.
        rewrite (zsum_ext _ _ (fun j =>
                   height (m i j)
                   + (if j =? b then (if i =? a then d else 0) else 0))).
        2:{ intros j _. cbv beta. rewrite Hh. destruct (i =? a), (j =? b); reflexivity. }
        rewrite zsum_plus, zsum_delta.
        destruct (Z.leb_spec 0 b); [|lia].
        destruct (Z.ltb_spec b (Z.of_nat (Z.to_nat ncols))); [|lia].
        reflexivity. }
    rewrite zsum_plus, zsum_delta.
    destruct (Z.leb_spec 0 a); [|lia].
    destruct (Z.ltb_spec a (Z.of_nat (Z.to_nat nrows))); [|lia].
    reflexivity.
Qed.

(** Two rows of the table never change the indicator of [{0, 2, 5}]. *)
Lemma indicator_UP_up (t : Z) : indicator (apply_table UP_up t) = indicator t.
Proof.
  unfold UP_up, apply_table.
  destruct (Z.eqb_spec t 2) as [->|]; [reflexivity|].
  destruct (Z.eqb_spec t 4) as [->|]; reflexivity.
Qed.

Lemma indicator_DOWN_left (t : Z) :
  indicator (apply_table DOWN_left t) = indicator t.
Proof.
  unfold DOWN_left, apply_table.
  destruct (Z.eqb_spec t 5) as [->|]; [reflexivity|].
  destruct (Z.eqb_spec t 3) as [->|]; reflexivity.
Qed.

(** The change of the indicator under an UP move whose right-hand cell is
    of a type of the table. *)
Lemma updatepositions_indicator_UP (m : lattice) (r c ftype i k : Z) :
  ftype <> 0 ->
  type (m r c) = 0 \/ type (m r c) = 5 ->
  type (m (r - 1) (c + 1)) = 1 \/ type (m (r - 1) (c + 1)) = 5 ->
  in_table UP_right (type (m r (c + 1))) ->
  indicator (type (updatepositions m r c ftype i k))
  = indicator (type (m i k))
    + (if (i =? r) && (k =? c) then -1 else 0)
    + (if (i =? r) && (k =? c + 1) then - -1 else 0).
Proof.
  intros Hft Hb Hd Hx. rewrite updatepositions_type_UP by exact Hft.
  unfold in_table in Hx. simpl in Hx.
  destruct (Z.eqb_spec i r) as [->|], (Z.eqb_spec k c) as [->|],
    (Z.eqb_spec r (r - 1)), (Z.eqb_spec c (c + 1)); try lia; cbn [andb].
  - destruct Hb as [-> | ->]; reflexivity.
  - destruct (Z.eqb_spec k (c + 1)) as [->|]; cbn [andb].
    + destruct Hx as [<- | [<- | []]]; reflexivity.
    + lia.
  - destruct (Z.eqb_spec i (r - 1)) as [->|]; cbn [andb].
    + destruct (Z.eqb_spec c (c + 1)); [lia|]. cbn [andb].
      rewrite indicator_UP_up. lia.
    + lia.
  - destruct (Z.eqb_spec i (r - 1)) as [->|]; cbn [andb].
    + destruct (Z.eqb_spec k (c + 1)) as [->|]; cbn [andb].
      * destruct Hd as [-> | ->]; reflexivity.
      * lia.
    + lia.
Qed.

(** The change of the indicator under a DOWN move whose lower cell is of a
    type of the table. *)
Lemma updatepositions_indicator_DOWN (m : lattice) (r c i k : Z) :
  type (m r c) = 0 \/ type (m r c) = 4 ->
  type (m (r + 1) (c - 1)) = 1 \/ type (m (r + 1) (c - 1)) = 4 ->
  in_table DOWN_down (type (m (r + 1) c)) ->
  indicator (type (updatepositions m r c 0 i k))
  = indicator (type (m i k))
    + (if (i =? r + 1) && (k =? c - 1) then 1 else 0)
    + (if (i =? r + 1) && (k =? c - 1 + 1) then - 1 else 0).
Proof.
  intros Hb Hd Hy. rewrite updatepositions_type_DOWN.
  unfold in_table in Hy. simpl in Hy.
  replace (c - 1 + 1) with c by lia.
  destruct (Z.eqb_spec i r) as [->|], (Z.eqb_spec k c) as [->|],
    (Z.eqb_spec r (r + 1)), (Z.eqb_spec c (c - 1)); try lia; cbn [andb].
  - destruct Hb as [-> | ->]; reflexivity.
  - destruct (Z.eqb_spec k (c - 1)) as [->|]; cbn [andb].
    + rewrite indicator_DOWN_left. lia.
    + lia.
  - destruct (Z.eqb_spec i (r + 1)) as [->|]; cbn [andb].
    + destruct (Z.eqb_spec c (c - 1)); [lia|]. cbn [andb].
      destruct Hy as [<- | [<- | []]]; reflexivity.
    + lia.
  - destruct (Z.eqb_spec i (r + 1)) as [->|]; cbn [andb].
    + destruct (Z.eqb_spec k (c - 1)) as [->|]; cbn [andb].
      * destruct Hd as [-> | ->]; reflexivity.
      * lia.
    + lia.
Qed.

(** What the code's test for flippability gives about the cells. *)
Lemma getisflippable_UP_inv
      (nrows ncols : Z) (m m2 : lattice) (r c ftype : Z) :
  ftype <> 0 ->
  getisflippable nrows ncols m m2 r c ftype = 1 ->
  in_lattice nrows ncols r c /\ spec_flippable_UP nrows ncols m r c.
Proof.
  intros Hft H.
  apply (proj1 (getisflippable_HIGH_iff nrows ncols m m2 r c)).
  rewrite <- H. unfold getisflippable, HIGH.
  destruct (Z.eqb_spec ftype 0); [contradiction | reflexivity].
Qed.

Lemma getisflippable_DOWN_inv
      (nrows ncols : Z) (m m2 : lattice) (r c : Z) :
  getisflippable nrows ncols m m2 r c 0 = 1 ->
  in_lattice nrows ncols r c /\ spec_flippable_DOWN nrows ncols m r c.
Proof.
  intros H.
  exact (proj1 (getisflippable_LOW_iff nrows ncols m m2 r c) H).
Qed.

(** C3, as the code has it.  Let every stored height be the count of the
    cells of its row, columns [0..j], with a type in {0, 2, 5}, and let the
    volume counter be the sum of the stored heights.  After [executeflip]
    at a flippable cell both still hold, at every cell of the lattice,
    provided the one neighbour of the move that lies in the anchor's row to
    the right of the anchor has a type of its row of the relabelling table:
    the right-hand cell (type 3 or 4) for UP, the lower cell (type 5 or 2)
    for DOWN.  [getisflippable] does not test that cell. *)
Theorem executeflip_preserves_heights
        (nrows ncols : Z) (m m2 : lattice) (vol r c ftype : Z) :
  getisflippable nrows ncols m m2 r c ftype = 1 ->
  (ftype <> 0 -> in_table UP_right (type (m r (c + 1)))) ->
  (ftype = 0 -> in_table DOWN_down (type (m (r + 1) c))) ->
  heights_consistent nrows ncols m ->
  vol = sum_heights nrows ncols m ->
  heights_consistent nrows ncols (fst (executeflip m vol r c ftype))
  /\ snd (executeflip m vol r c ftype)
     = sum_heights nrows ncols (fst (executeflip m vol r c ftype)).
Proof.
  intros Hflip Hup Hdown Hcons Hvol.
  rewrite executeflip_volume.
  destruct (Z.eqb_spec ftype 0) as [->|Hft].
  - destruct (getisflippable_DOWN_inv _ _ _ _ _ _ Hflip)
      as ([Hr Hc] & Hr' & Hc' & Hb & Hd).
    destruct (anchor_update_consistent nrows ncols m
                (fst (executeflip m vol r c 0)) (r + 1) (c - 1) 1)
      as [Hcons' Hsum].
    + unfold in_lattice; lia.
    + intros i k. rewrite executeflip_type.
      apply updatepositions_indicator_DOWN; auto.
    + intros i j. rewrite executeflip_height_DOWN.
      destruct ((i =? r + 1) && (j =? c - 1)); lia.
    + exact Hcons.
    + split; [exact Hcons' | lia].
  - destruct (getisflippable_UP_inv _ _ _ _ _ _ _ Hft Hflip)
      as ([Hr Hc] & Hr' & Hc' & Hb & Hd).
    destruct (anchor_update_consistent nrows ncols m
                (fst (executeflip m vol r c ftype)) r c (-1))
      as [Hcons' Hsum].
    + unfold in_lattice; lia.
    + intros i k. rewrite executeflip_type.
      apply updatepositions_indicator_UP; auto.
    + intros i j. rewrite executeflip_height_UP by exact Hft.
      destruct ((i =? r) && (j =? c)); lia.
    + exact Hcons.
    + split; [exact Hcons' | lia].
Qed.

Lemma initialise_consistent (nrows ncols : Z) (data : list byte) :
  heights_consistent nrows ncols (fst (initialise nrows ncols data))
  /\ snd (initialise nrows ncols data)
     = sum_heights nrows ncols (fst (initialise nrows ncols data)).
Proof.
  unfold initialise. split.
  - apply setheights_consistent.
  - symmetry. apply setheights_sum_heights.
Qed.

Lemma executeflip_preserves_heights_witness :
  getisflippable 3 3 lattice_3x3 lattice_3x3 1 1 HIGH = 1
  /\ heights_consistent 3 3 (fst (executeflip lattice_3x3 volume_3x3 1 1 HIGH))
  /\ snd (executeflip lattice_3x3 volume_3x3 1 1 HIGH)
     = sum_heights 3 3 (fst (executeflip lattice_3x3 volume_3x3 1 1 HIGH)).
Proof.
  split; [vm_compute; reflexivity|].
  apply (executeflip_preserves_heights
           3 3 lattice_3x3 lattice_3x3 volume_3x3 1 1 HIGH).
  - vm_compute; reflexivity.
  - intros _. vm_compute. left. reflexivity.
  - intros E. vm_compute in E. discriminate E.
  - exact (proj1 (initialise_consistent 3 3 data_3x3)).
  - exact (proj2 (initialise_consistent 3 3 data_3x3)).
Defined.

(** C3 as stated fails on the 2 x 2 lattice with rows "01" and "00", whose
    types all lie in {0..5}: its heights are consistent and its volume
    counter is their sum, cell (1, 0) is flippable upwards, and after the
    flip the stored height of cell (1, 1) is 2 while only one cell of row 1,
    columns 0..1, has a type in {0, 2, 5}.  The right-hand neighbour has
    type 0, which the table does not relabel. *)
Lemma executeflip_breaks_heights :
  types_valid 2 2 lattice_2x2
  /\ heights_consistent 2 2 lattice_2x2
  /\ volume_2x2 = sum_heights 2 2 lattice_2x2
  /\ getisflippable 2 2 lattice_2x2 lattice_2x2 1 0 HIGH = 1
  /\ height (fst (executeflip lattice_2x2 volume_2x2 1 0 HIGH) 1 1) = 2
  /\ row_count (fst (executeflip lattice_2x2 volume_2x2 1 0 HIGH)) 1 1 = 1
  /\ ~ heights_consistent 2 2 (fst (executeflip lattice_2x2 volume_2x2 1 0 HIGH)).
Proof.
  split.
  { intros i j [Hi Hj].
    assert (i = 0 \/ i = 1) as [-> | ->] by lia;
      (assert (j = 0 \/ j = 1) as [-> | ->] by lia);
      vm_compute; split; discriminate. }
  split; [exact (proj1 (initialise_consistent 2 2 data_2x2))|].
  split; [exact (proj2 (initialise_consistent 2 2 data_2x2))|].
  split; [vm_compute; reflexivity|].
  split; [vm_compute; reflexivity|].
  split; [vm_compute; reflexivity|].
  intros H.
  assert (Hin : in_lattice 2 2 1 1) by (unfold in_lattice; lia).
  specialize (H 1 1 Hin). vm_compute in H. discriminate H.
Qed.

(** ** Rho and the bound on the ratios *)


(** C5 fails on the code.  With the six positive weights a1 = 16, a2 = 1/8,
    b1 = b2 = c1 = 1, c2 = 16, [definerho] leaves rho = 512.  In the 3 x 3
    lattice "125" "303" "451" every type is in {0..5}, the centre cell is
    flippable both ways and all seven cells of the two moves have types of
    the relabelling table.  There [getweightratio] returns 8 for UP and 1/2
    for DOWN: neither the UP ratio nor the sum of the two is at most 1.  The
    UP move turns base 0 into 4, right 3 into 5, up 2 into 5 and upper-right
    5 into 0; the product w[4] w[5] w[5] w[0] of that post-state is in none
    of the eighty candidates, whose UP products with base 4 and up 5 have
    w[1] where the post-state has w[0].  The same values come out in
    binary64 arithmetic, where all these operations are exact. *)
Theorem definerho_misses_UP_post_state :
  (forall i, 0 <= i <= 5 -> (0 < wts_skew i)%Q)
  /\ types_valid 3 3 lattice_3x3
  /\ getisflippable 3 3 lattice_3x3 lattice_3x3 1 1 HIGH = 1
  /\ getisflippable 3 3 lattice_3x3 lattice_3x3 1 1 LOW = 1
  /\ in_table UP_right (type (lattice_3x3 1 2))
  /\ in_table UP_up (type (lattice_3x3 0 1))
  /\ in_table DOWN_left (type (lattice_3x3 1 0))
  /\ in_table DOWN_down (type (lattice_3x3 2 1))
  /\ (definerho wts_skew 0 == 512)%Q
  /\ (getweightratio wts_skew (definerho wts_skew 0) lattice_3x3 1 1 HIGH == 8)%Q
  /\ (getweightratio wts_skew (definerho wts_skew 0) lattice_3x3 1 1 LOW
      == 1 # 2)%Q
  /\ ~ (getweightratio wts_skew (definerho wts_skew 0) lattice_3x3 1 1 HIGH
        <= 1)%Q
  /\ ~ (getweightratio wts_skew (definerho wts_skew 0) lattice_3x3 1 1 HIGH
        + getweightratio wts_skew (definerho wts_skew 0) lattice_3x3 1 1 LOW
        <= 1)%Q
  /\ definerho wts_skew_double 0%float = 512%float
  /\ getweightratio wts_skew_double (definerho wts_skew_double 0%float)
                    lattice_3x3 1 1 HIGH = 8%float
  /\ getweightratio wts_skew_double (definerho wts_skew_double 0%float)
                    lattice_3x3 1 1 LOW = 0.5%float.
Proof.
  split.
  { intros i Hi.
    assert (i = 0 \/ i = 1 \/ i = 2 \/ i = 3 \/ i = 4 \/ i = 5)
      as [->|[->|[->|[->|[->| ->]]]]] by lia; reflexivity. }
  split; [exact lattice_3x3_types_valid|].
  split; [vm_compute; reflexivity|].
  split; [vm_compute; reflexivity|].
  split; [vm_compute; tauto|].
  split; [vm_compute; tauto|].
  split; [vm_compute; tauto|].
  split; [vm_compute; tauto|].
  split; [vm_compute; reflexivity|].
  split; [vm_compute; reflexivity|].
  split; [vm_compute; reflexivity|].
  split; [vm_compute; intros H; apply H; reflexivity|].
  split; [vm_compute; intros H; apply H; reflexivity|].
  split; [vm_compute; reflexivity|].
  split; vm_compute; reflexivity.
Qed.

(** ** What the catalogue of [definerho] does bound *)

Lemma raise_ge_rho (rho c : Q) : (rho <= raise rho c)%Q.
Proof.
  unfold raise. cbn [dlt Double_Q].
  destruct (Qle_bool c rho) eqn:E; cbn [negb].
  - apply Qle_refl.
  - apply Qlt_le_weak. apply Qnot_le_lt. intros H.
    apply Qle_bool_iff in H. congruence.
Qed.

Lemma raise_ge_cand (rho c : Q) : (c <= raise rho c)%Q.
Proof.
  unfold raise. cbn [dlt Double_Q].
  destruct (Qle_bool c rho) eqn:E; cbn [negb].
  - now apply Qle_bool_iff.
  - apply Qle_refl.
Qed.

Lemma fold_raise_ge_init (l : list Q) (rho : Q) :
  (rho <= fold_left raise l rho)%Q.
Proof.
  revert rho. induction l as [|c l IH]; intros rho; cbn [fold_left].
  - apply Qle_refl.
  - eapply Qle_trans; [apply (raise_ge_rho rho c) | apply IH].
Qed.

Lemma fold_raise_ge_in (l : list Q) (rho c : Q) :
  In c l -> (c <= fold_left raise l rho)%Q.
Proof.
  revert rho. induction l as [|c' l IH]; intros rho Hin; [contradiction|].
  cbn [fold_left]. destruct Hin as [->|Hin].
  - eapply Qle_trans; [apply (raise_ge_cand rho c) | apply fold_raise_ge_init].
  - apply IH. exact Hin.
Qed.

(** [definerho] leaves rho at least as large as each of its candidates. *)
Lemma candidate_le_rho (wts : Z -> Q) (rho0 c : Q) :
  In c (rho_candidates wts) -> (c <= definerho wts rho0)%Q.
Proof. apply fold_raise_ge_in. Qed.

(** A quotient by a positive number lies in [[0, 1]] when its numerator is
    positive and at most that number. *)
Lemma ratio_in_unit_interval (p rho : Q) :
  (0 < rho)%Q -> (0 < p)%Q -> (p <= rho)%Q -> (0 <= ddiv p rho <= 1)%Q.
Proof.
  intros Hr Hp Hle. cbn [ddiv Double_Q]. split.
  - apply Qle_shift_div_l; [exact Hr|]. rewrite Qmult_0_l.
    now apply Qlt_le_weak.
  - apply Qle_shift_div_r; [exact Hr|]. now rewrite Qmult_1_l.
Qed.

Lemma ratio_sum_in_unit_interval (p q rho : Q) :
  (0 < rho)%Q -> (0 < p)%Q -> (0 < q)%Q -> (p + q <= rho)%Q ->
  (0 <= dadd (ddiv p rho) (ddiv q rho) <= 1)%Q.
Proof.
  intros Hr Hp Hq Hle.
  assert (Hpq : (0 < p + q)%Q).
  { rewrite <- (Qplus_0_l 0). apply Qplus_lt_le_compat;
      [exact Hp | now apply Qlt_le_weak]. }
  destruct (ratio_in_unit_interval (p + q) rho Hr Hpq Hle) as [H0 H1].
  cbn [ddiv dadd Double_Q] in *.
  assert (E : (p / rho + q / rho == (p + q) / rho)%Q)
    by (unfold Qdiv; ring).
  rewrite E. split; assumption.
Qed.

Section Coverage.

Variable wts : Z -> Q.
Hypothesis wts_pos : forall i, 0 <= i <= 5 -> (0 < wts i)%Q.

Lemma w4_pos (a b c d : Z) :
  0 <= a <= 5 -> 0 <= b <= 5 -> 0 <= c <= 5 -> 0 <= d <= 5 ->
  (0 < w4 wts a b c d)%Q.
Proof.
  intros Ha Hb Hc Hd. unfold w4. cbn [dmul Double_Q].
  repeat apply Qmult_lt_0_compat; auto.
Qed.

Lemma rho_pos : (0 < definerho wts 0)%Q.
Proof.
  apply Qlt_le_trans with (w4 wts 1 4 5 4).
  - apply w4_pos; lia.
  - apply candidate_le_rho. left. reflexivity.
Qed.

(** A product is bounded when it is a candidate up to the order of its
    factors, or a term of a candidate whose other term is a product of
    weights. *)
Lemma bounded_by_candidate (p c : Q) :
  In c (rho_candidates wts) -> (p == c)%Q -> (p <= definerho wts 0)%Q.
Proof.
  intros Hin E. rewrite E. apply candidate_le_rho. exact Hin.
Qed.

Lemma bounded_by_first_term (p a b : Q) :
  In (dadd a b) (rho_candidates wts) -> (0 < b)%Q -> (p == a)%Q ->
  (p <= definerho wts 0)%Q.
Proof.
  intros Hin Hb E. rewrite E.
  apply Qle_trans with (a + b)%Q.
  - rewrite <- (Qplus_0_r a) at 1. apply Qplus_le_r. now apply Qlt_le_weak.
  - apply candidate_le_rho. exact Hin.
Qed.

Lemma bounded_by_second_term (p a b : Q) :
  In (dadd a b) (rho_candidates wts) -> (0 < a)%Q -> (p == b)%Q ->
  (p <= definerho wts 0)%Q.
Proof.
  intros Hin Ha E. rewrite E.
  apply Qle_trans with (a + b)%Q.
  - rewrite <- (Qplus_0_l b) at 1. apply Qplus_le_l. now apply Qlt_le_weak.
  - apply candidate_le_rho. exact Hin.
Qed.

Ltac in_catalogue :=
  unfold rho_candidates; repeat (first [left; reflexivity | right]).

Ltac w4_eq := unfold w4; cbn [dmul dadd Double_Q]; ring.

(** Every DOWN post-state is bounded. *)
Lemma rho_bounds_DOWN (b x y d : Z) :
  b = 1 \/ b = 5 -> x = 2 \/ x = 4 -> y = 3 \/ y = 4 -> d = 0 \/ d = 5 ->
  (w4 wts b x y d <= definerho wts 0)%Q.
Proof.
  intros [-> | ->] Hx Hy Hd.
  - apply (bounded_by_candidate _ (w4 wts 1 x d y)); [|w4_eq].
    destruct Hx as [-> | ->], Hy as [-> | ->], Hd as [-> | ->]; in_catalogue.
  - apply (bounded_by_first_term _ (w4 wts 5 x d y) (w4 wts 4 3 4 5));
      [|apply w4_pos; lia|w4_eq].
    destruct Hx as [-> | ->], Hy as [-> | ->], Hd as [-> | ->]; in_catalogue.
Qed.

(** Every UP post-state is bounded, but for those with base 4, up 5 and
    upper-right 0. *)
Lemma rho_bounds_UP (b x y d : Z) :
  b = 4 \/ b = 1 -> x = 5 \/ x = 2 -> y = 5 \/ y = 3 -> d = 4 \/ d = 0 ->
  ~ (b = 4 /\ y = 5 /\ d = 0) ->
  (w4 wts b x y d <= definerho wts 0)%Q.
Proof.
  intros [-> | ->] Hx Hy Hd Hslip.
  - apply (bounded_by_second_term _ (w4 wts 5 4 5 4) (w4 wts 4 y d x));
      [|apply w4_pos; lia|w4_eq].
    destruct Hx as [-> | ->], Hy as [-> | ->], Hd as [-> | ->];
      try (exfalso; apply Hslip; repeat split; reflexivity); in_catalogue.
  - apply (bounded_by_candidate _ (w4 wts 1 y d x)); [|w4_eq].
    destruct Hx as [-> | ->], Hy as [-> | ->], Hd as [-> | ->]; in_catalogue.
Qed.

(** Every sum of the UP and the DOWN post-state of a bi-flip cell is
    bounded, with the same exception. *)
Lemma rho_bounds_biflip (x y d x' y' d' : Z) :
  x = 5 \/ x = 2 -> y = 5 \/ y = 3 -> d = 4 \/ d = 0 ->
  x' = 2 \/ x' = 4 -> y' = 3 \/ y' = 4 -> d' = 0 \/ d' = 5 ->
  ~ (y = 5 /\ d = 0) ->
  (w4 wts 4 x y d + w4 wts 5 x' y' d' <= definerho wts 0)%Q.
Proof.
  intros Hx Hy Hd Hx' Hy' Hd' Hslip.
  apply (bounded_by_candidate
           _ (dadd (w4 wts 5 x' d' y') (w4 wts 4 y d x))); [|w4_eq].
  destruct Hx as [-> | ->], Hy as [-> | ->], Hd as [-> | ->];
    try (exfalso; apply Hslip; repeat split; reflexivity);
    destruct Hx' as [-> | ->], Hy' as [-> | ->], Hd' as [-> | ->];
    in_catalogue.
Qed.

End Coverage.

(** The post-types of the cells of a move whose pre-types are of the
    table. *)
Lemma post_types_UP (tb tx ty td : Z) :
  tb = 0 \/ tb = 5 -> in_table UP_right tx -> in_table UP_up ty ->
  td = 1 \/ td = 5 ->
  let b := apply_table UP_base tb in
  let x := apply_table UP_right tx in
  let y := apply_table UP_up ty in
  let d := apply_table UP_upper_right td in
  (b = 4 \/ b = 1) /\ (x = 5 \/ x = 2) /\ (y = 5 \/ y = 3) /\ (d = 4 \/ d = 0)
  /\ (b = 4 /\ y = 5 /\ d = 0 -> ty = 2 /\ td = 5 /\ tb = 0).
Proof.
  unfold in_table. simpl.
  intros [-> | ->] [<- | [<- | []]] [<- | [<- | []]] [-> | ->]; simpl;
    intuition congruence.
Qed.

Lemma post_types_DOWN (tb tx ty td : Z) :
  tb = 0 \/ tb = 4 -> in_table DOWN_left tx -> in_table DOWN_down ty ->
  td = 1 \/ td = 4 ->
  let b := apply_table DOWN_base tb in
  let x := apply_table DOWN_left tx in
  let y := apply_table DOWN_down ty in
  let d := apply_table DOWN_lower_left td in
  (b = 1 \/ b = 5) /\ (x = 2 \/ x = 4) /\ (y = 3 \/ y = 4) /\ (d = 0 \/ d = 5)
  /\ (tb = 0 -> b = 5).
Proof.
  unfold in_table. simpl.
  intros [-> | ->] [<- | [<- | []]] [<- | [<- | []]] [-> | ->]; simpl;
    intuition congruence.
Qed.

Lemma valid_of_cases (v a b : Z) :
  0 <= a <= 5 -> 0 <= b <= 5 -> v = a \/ v = b -> 0 <= v <= 5.
Proof. intros Ha Hb [-> | ->]; assumption. Qed.

(** With six positive weights, in exact arithmetic, the rho of [definerho]
    is positive and bounds the ratio of every DOWN move, of every UP move
    and of every bi-flip pair whose cells have pre-types of the relabelling
    table -- except the UP moves out of base 0, up 2, upper-right 5. *)
Theorem definerho_bounds_table_moves
        (nrows ncols : Z) (wts : Z -> Q) (m m2 : lattice) (r c : Z) :
  (forall i, 0 <= i <= 5 -> (0 < wts i)%Q) ->
  let rho := definerho wts 0%Q in
  let up := getweightratio wts rho m r c HIGH in
  let down := getweightratio wts rho m r c LOW in
  let uncovered :=
    type (m (r - 1) c) = 2 /\ type (m (r - 1) (c + 1)) = 5
    /\ type (m r c) = 0 in
  (0 < rho)%Q
  /\ (getisflippable nrows ncols m m2 r c LOW = 1 ->
      in_table DOWN_left (type (m r (c - 1))) ->
      in_table DOWN_down (type (m (r + 1) c)) ->
      (0 <= down <= 1)%Q)
  /\ (getisflippable nrows ncols m m2 r c HIGH = 1 ->
      in_table UP_right (type (m r (c + 1))) ->
      in_table UP_up (type (m (r - 1) c)) ->
      ~ uncovered ->
      (0 <= up <= 1)%Q)
  /\ (getisflippable nrows ncols m m2 r c HIGH = 1 ->
      getisflippable nrows ncols m m2 r c LOW = 1 ->
      in_table UP_right (type (m r (c + 1))) ->
      in_table UP_up (type (m (r - 1) c)) ->
      in_table DOWN_left (type (m r (c - 1))) ->
      in_table DOWN_down (type (m (r + 1) c)) ->
      ~ uncovered ->
      (0 <= dadd up down <= 1)%Q).
Proof.
  intros Hpos rho up down uncovered. subst up down.
  assert (Hdown : getisflippable nrows ncols m m2 r c LOW = 1 ->
      in_table DOWN_left (type (m r (c - 1))) ->
      in_table DOWN_down (type (m (r + 1) c)) ->
      exists b x y d,
        getweightratio wts rho m r c LOW = ddiv (w4 wts b x y d) rho
        /\ (b = 1 \/ b = 5) /\ (x = 2 \/ x = 4) /\ (y = 3 \/ y = 4)
        /\ (d = 0 \/ d = 5) /\ (type (m r c) = 0 -> b = 5)).
  { intros Hf Hx Hy.
    apply getisflippable_LOW_iff in Hf.
    destruct Hf as (_ & _ & _ & Hb & Hd).
    destruct (post_types_DOWN _ _ _ _ Hb Hx Hy Hd) as (B & X & Y & Dd & B5).
    do 4 eexists. split; [apply getweightratio_DOWN_table|]. tauto. }
  assert (Hup : getisflippable nrows ncols m m2 r c HIGH = 1 ->
      in_table UP_right (type (m r (c + 1))) ->
      in_table UP_up (type (m (r - 1) c)) ->
      ~ uncovered ->
      exists b x y d,
        getweightratio wts rho m r c HIGH = ddiv (w4 wts b x y d) rho
        /\ (b = 4 \/ b = 1) /\ (x = 5 \/ x = 2) /\ (y = 5 \/ y = 3)
        /\ (d = 4 \/ d = 0) /\ ~ (b = 4 /\ y = 5 /\ d = 0)
        /\ (type (m r c) = 0 -> b = 4)).
  { intros Hf Hx Hy Hun.
    apply getisflippable_HIGH_iff in Hf.
    destruct Hf as (_ & _ & _ & Hb & Hd).
    destruct (post_types_UP _ _ _ _ Hb Hx Hy Hd) as (B & X & Y & Dd & S).
    do 4 eexists. split; [apply getweightratio_UP_table|].
    repeat split; try assumption.
    - intros Hs. apply Hun. exact (S Hs).
    - intros ->. reflexivity. }
  split; [exact (rho_pos wts Hpos)|]. split; [|split].
  - intros Hf Hx Hy.
    destruct (Hdown Hf Hx Hy) as (b & x & y & d & E & B & X & Y & Dd & _).
    rewrite E.
    apply ratio_in_unit_interval; [exact (rho_pos wts Hpos)| |].
    + apply (w4_pos wts Hpos);
        eauto using valid_of_cases with zarith.
    + apply (rho_bounds_DOWN wts Hpos); assumption.
  - intros Hf Hx Hy Hun.
    destruct (Hup Hf Hx Hy Hun) as (b & x & y & d & E & B & X & Y & Dd & S & _).
    rewrite E.
    apply ratio_in_unit_interval; [exact (rho_pos wts Hpos)| |].
    + apply (w4_pos wts Hpos);
        eauto using valid_of_cases with zarith.
    + apply (rho_bounds_UP wts Hpos); assumption.
  - intros Hfu Hfd Hx Hy Hx' Hy' Hun.
    destruct (Hup Hfu Hx Hy Hun)
      as (b & x & y & d & E & B & X & Y & Dd & S & B4).
    destruct (Hdown Hfd Hx' Hy')
      as (b' & x' & y' & d' & E' & B' & X' & Y' & Dd' & B5).
    rewrite E, E'. clear E E' Hup Hdown.
    assert (H0 : type (m r c) = 0).
    { apply getisflippable_HIGH_iff in Hfu. apply getisflippable_LOW_iff in Hfd.
      destruct Hfu as (_ & _ & _ & [?|?] & _), Hfd as (_ & _ & _ & [?|?] & _);
        lia. }
    pose proof (B4 H0) as Eb. pose proof (B5 H0) as Eb'. subst b b'.
    apply ratio_sum_in_unit_interval; [exact (rho_pos wts Hpos)| | |].
    + apply (w4_pos wts Hpos);
        eauto using valid_of_cases with zarith.
    + apply (w4_pos wts Hpos);
        eauto using valid_of_cases with zarith.
    + apply (rho_bounds_biflip wts); try assumption.
      intros [Ey Ed]. apply S. auto.
Qed.

Lemma definerho_bounds_table_moves_witness :
  getisflippable 3 3 lattice_3x3 lattice_3x3 1 1 LOW = 1
  /\ (0 <= getweightratio wts_skew (definerho wts_skew 0%Q) lattice_3x3 1 1 LOW
       <= 1)%Q.
Proof.
  split; [vm_compute; reflexivity|].
  refine (proj1 (proj2 (definerho_bounds_table_moves
                          3 3 wts_skew lattice_3x3 lattice_3x3 1 1 _)) _ _ _).
  - intros i Hi.
    assert (i = 0 \/ i = 1 \/ i = 2 \/ i = 3 \/ i = 4 \/ i = 5)
      as [->|[->|[->|[->|[->| ->]]]]] by lia; reflexivity.
  - vm_compute; reflexivity.
  - vm_compute; tauto.
  - vm_compute; tauto.
Defined.

(** ** Further properties of the kernel and the driver *)

(** The four cells a move reads and writes lie inside the lattice whenever
    [getisflippable] has answered 1, so [getweightratio], [updatepositions]
    and [executeflip] stay inside the arrays in the driver. *)
Theorem flippable_cells_in_lattice
        (nrows ncols : Z) (m m2 : lattice) (r c ftype : Z) :
  getisflippable nrows ncols m m2 r c ftype = 1 ->
  in_lattice nrows ncols r c
  /\ in_lattice nrows ncols r (c - 1 + 2 * (if ftype =? 0 then 0 else 1))
  /\ in_lattice nrows ncols (r + 1 - 2 * (if ftype =? 0 then 0 else 1)) c
  /\ in_lattice nrows ncols (r + 1 - 2 * (if ftype =? 0 then 0 else 1))
                            (c - 1 + 2 * (if ftype =? 0 then 0 else 1)).
Proof.
  intros Hf. destruct (Z.eqb_spec ftype 0) as [->|Hft].
  - destruct (getisflippable_DOWN_inv _ _ _ _ _ _ Hf) as ([Hr Hc] & Hr' & Hc' & _).
    unfold in_lattice. lia.
  - destruct (getisflippable_UP_inv _ _ _ _ _ _ _ Hft Hf)
      as ([Hr Hc] & Hr' & Hc' & _).
    unfold in_lattice. lia.
Qed.

Lemma flippable_cells_in_lattice_witness :
  in_lattice 3 3 1 1 /\ in_lattice 3 3 1 2
  /\ in_lattice 3 3 0 1 /\ in_lattice 3 3 0 2.
Proof.
  apply (flippable_cells_in_lattice 3 3 lattice_3x3 lattice_3x3 1 1 HIGH).
  vm_compute. reflexivity.
Defined.

(** [setheights] makes every stored height the count of its row up to its
    column, keeps every type, and returns the sum of the heights it
    stored. *)
Theorem setheights_establishes_heights (nrows ncols : Z) (m : lattice) :
  heights_consistent nrows ncols (fst (setheights nrows ncols m))
  /\ (forall i j, type (fst (setheights nrows ncols m) i j) = type (m i j))
  /\ snd (setheights nrows ncols m)
     = sum_heights nrows ncols (fst (setheights nrows ncols m)).
Proof.
  split; [apply setheights_consistent|]. split.
  - exact (proj1 (setheights_spec nrows ncols m)).
  - symmetry. apply setheights_sum_heights.
Qed.

(** The proviso of the height invariant is needed: an UP flip whose
    right-hand cell has a type the table does not relabel leaves the stored
    height of that cell one above the count of its row. *)
Theorem executeflip_UP_stale_height
        (nrows ncols : Z) (m m2 : lattice) (vol r c : Z) :
  getisflippable nrows ncols m m2 r c HIGH = 1 ->
  ~ in_table UP_right (type (m r (c + 1))) ->
  heights_consistent nrows ncols m ->
  let m' := fst (executeflip m vol r c HIGH) in
  height (m' r (c + 1)) = row_count m' r (c + 1) + 1.
Proof.
  intros Hf Hx Hcons m'.
  assert (H1 : HIGH <> 0) by (unfold HIGH; lia).
  destruct (getisflippable_UP_inv _ _ _ _ _ _ _ H1 Hf)
    as ([Hr Hc] & Hr' & Hc' & Hb & Hd).
  assert (Hin : in_lattice nrows ncols r (c + 1)) by (unfold in_lattice; lia).
  unfold m'. rewrite executeflip_height_UP by exact H1.
  destruct (Z.eqb_spec (c + 1) c); [lia|]. rewrite andb_false_r.
  rewrite (Hcons r (c + 1) Hin). unfold row_count.
  rewrite (zsum_ext _ (fun k => indicator
                          (type (fst (executeflip m vol r c HIGH) r k)))
                    (fun k => indicator (type (m r k))
                              + (if k =? c then -1 else 0))).
  - rewrite zsum_plus, zsum_delta.
    destruct (Z.leb_spec 0 c); [|lia].
    destruct (Z.ltb_spec c (Z.of_nat (Z.to_nat (c + 1 + 1)))); [|lia].
    cbn [andb]. lia.
  - intros k Hk. cbv beta. rewrite executeflip_type.
    rewrite updatepositions_type_UP by exact H1.
    rewrite Z.eqb_refl. cbn [andb].
    destruct (Z.eqb_spec r (r - 1)); [lia|]. cbn [andb].
    destruct (Z.eqb_spec k c) as [->|Hkc].
    + destruct Hb as [-> | ->]; reflexivity.
    + destruct (Z.eqb_spec k (c + 1)) as [->|]; [|lia].
      assert (E : apply_table UP_right (type (m r (c + 1)))
                  = type (m r (c + 1))).
      { unfold UP_right, apply_table. unfold in_table in Hx. simpl in Hx.
        destruct (Z.eqb_spec (type (m r (c + 1))) 3) as [E3|];
          [exfalso; apply Hx; left; symmetry; exact E3|].
        destruct (Z.eqb_spec (type (m r (c + 1))) 4) as [E4|];
          [exfalso; apply Hx; right; left; symmetry; exact E4|].
        reflexivity. }
      rewrite E. lia.
Qed.

Lemma executeflip_UP_stale_height_witness :
  height (fst (executeflip lattice_2x2 volume_2x2 1 0 HIGH) 1 1)
  = row_count (fst (executeflip lattice_2x2 volume_2x2 1 0 HIGH)) 1 1 + 1.
Proof.
  apply (executeflip_UP_stale_height 2 2 lattice_2x2 lattice_2x2 volume_2x2 1 0).
  - vm_compute. reflexivity.
  - vm_compute. intros [H|[H|[]]]; discriminate H.
  - exact (proj1 (initialise_consistent 2 2 data_2x2)).
Defined.

(** One pass of the driver over the first matrix does one of three things:
    nothing at all (neither flip is possible: not counted as a failure);
    one flip, counted in [flipcompleted] only; or no flip, counted in
    [flipfailed] only, the lattice and its volume counter being kept.  The
    second matrix is never touched. *)
Theorem handle_matrix1_counters
        (F : Type) (D : Double F) (nrows ncols : Z) (wts : Z -> F) (rho : F)
        (st : state) (r c : Z) (random : F) :
  let st' := handle_matrix1 nrows ncols wts rho st r c random in
  (st' = st
   \/ (exists ftype,
          getisflippable nrows ncols (matrix st) (matrix2 st) r c ftype = 1
          /\ (matrix st', matrixvol st')
             = executeflip (matrix st) (matrixvol st) r c ftype
          /\ flipcompleted st' = flipcompleted st + 1
          /\ flipfailed st' = flipfailed st)
   \/ (matrix st' = matrix st /\ matrixvol st' = matrixvol st
       /\ flipcompleted st' = flipcompleted st
       /\ flipfailed st' = flipfailed st + 1))
  /\ matrix2 st' = matrix2 st
  /\ (getisflippable nrows ncols (matrix st) (matrix2 st) r c HIGH = 0 ->
      getisflippable nrows ncols (matrix st) (matrix2 st) r c LOW = 0 ->
      st' = st).
Proof.
  cbv zeta. unfold handle_matrix1.
  assert (Hdone : forall ftype,
             getisflippable nrows ncols (matrix st) (matrix2 st) r c ftype = 1 ->
             exists ft,
               getisflippable nrows ncols (matrix st) (matrix2 st) r c ft = 1
               /\ (matrix (flip_done st r c ftype),
                   matrixvol (flip_done st r c ftype))
                  = executeflip (matrix st) (matrixvol st) r c ft
               /\ flipcompleted (flip_done st r c ftype) = flipcompleted st + 1
               /\ flipfailed (flip_done st r c ftype) = flipfailed st).
  { intros ftype Hf. exists ftype. unfold flip_done.
    cbn [matrix matrixvol flipcompleted flipfailed].
    rewrite <- surjective_pairing. auto. }
  destruct (Z.eqb_spec
              (getisflippable nrows ncols (matrix st) (matrix2 st) r c HIGH) 1)
    as [Hh|Hh];
    destruct (Z.eqb_spec
                (getisflippable nrows ncols (matrix st) (matrix2 st) r c LOW) 1)
    as [Hl|Hl];
    rewrite ?Hh, ?Hl; cbn [andb Z.eqb];
    repeat match goal with
           | |- context [if ?b then _ else _] => destruct b eqn:?
           end;
    try (exfalso;
         match goal with
         | H : _ && false = true |- _ =>
             rewrite andb_false_r in H; discriminate H
         end);
    (split; [|split; [reflexivity|]]);
    try (intros; reflexivity); try (intros; congruence);
    try (left; reflexivity);
    try (right; left; apply Hdone; assumption);
    try (right; right; repeat split; reflexivity).
Qed.

(** One pass of the driver keeps every cell type of the first matrix in
    {0..5}. *)
Theorem handle_matrix1_types_valid
        (F : Type) (D : Double F) (nrows ncols : Z) (wts : Z -> F) (rho : F)
        (st : state) (r c : Z) (random : F) :
  types_valid nrows ncols (matrix st) ->
  types_valid nrows ncols
              (matrix (handle_matrix1 nrows ncols wts rho st r c random)).
Proof.
  intros Hv.
  assert (Hdone : forall ftype,
             types_valid nrows ncols (matrix (flip_done st r c ftype))).
  { intros ftype i j Hij. unfold flip_done. cbn [matrix].
    rewrite executeflip_type.
    exact (updatepositions_valid nrows ncols (matrix st) r c ftype Hv i j Hij). }
  unfold handle_matrix1.
  repeat match goal with
         | |- context [if ?b then _ else _] => destruct b
         end; auto.
Qed.

Lemma handle_matrix1_types_valid_witness :
  types_valid 3 3
    (matrix (handle_matrix1 3 3 wts_unit rho_unit state_3x3 1 1 (3 # 4)%Q)).
Proof.
  apply (handle_matrix1_types_valid Q Double_Q 3 3 wts_unit rho_unit
                                    state_3x3 1 1 (3 # 4)%Q).
  exact lattice_3x3_types_valid.
Defined.

(** With all six weights 1 every product of four weights of valid types is
    1, and the largest candidate of [definerho] is a bi-flip sum. *)
Lemma wts_unit_valid (t : Z) : valid_type t -> wts_unit t = 1%Q.
Proof.
  unfold valid_type. intros Ht.
  assert (t = 0 \/ t = 1 \/ t = 2 \/ t = 3 \/ t = 4 \/ t = 5)
    as [->|[->|[->|[->|[->| ->]]]]] by lia; reflexivity.
Qed.

Lemma w4_unit (a b c d : Z) :
  valid_type a -> valid_type b -> valid_type c -> valid_type d ->
  w4 wts_unit a b c d = 1%Q.
Proof.
  intros Ha Hb Hc Hd. unfold w4.
  rewrite !wts_unit_valid by assumption. reflexivity.
Qed.

Lemma tables_valid_each (t : Z) :
  valid_type t ->
  valid_type (apply_table UP_base t) /\ valid_type (apply_table UP_right t)
  /\ valid_type (apply_table UP_up t)
  /\ valid_type (apply_table UP_upper_right t)
  /\ valid_type (apply_table DOWN_base t)
  /\ valid_type (apply_table DOWN_left t)
  /\ valid_type (apply_table DOWN_down t)
  /\ valid_type (apply_table DOWN_lower_left t).
Proof.
  intros Ht. pose proof tables_valid as T.
  repeat match type of T with
         | Forall _ (_ :: _) => inversion T as [|? ? ? T']; subst; clear T;
                                rename T' into T
         end.
  repeat split; apply apply_table_valid; assumption.
Qed.

(** With the weights (1, 1, 1, 1, 1, 1) [definerho] leaves rho = 2, the
    largest of its bi-flip sums, and [getweightratio] returns 1/2 at every
    flippable cell of a lattice with types in {0..5}, for either
    direction. *)
Theorem unit_weights_ratio_half
        (nrows ncols : Z) (m m2 : lattice) (r c ftype : Z) :
  ftype = HIGH \/ ftype = LOW ->
  types_valid nrows ncols m ->
  getisflippable nrows ncols m m2 r c ftype = 1 ->
  definerho wts_unit 0%Q = 2%Q
  /\ getweightratio wts_unit (definerho wts_unit 0%Q) m r c ftype = (1 # 2)%Q.
Proof.
  intros Hft Hv Hf.
  assert (Hrho : definerho wts_unit 0%Q = 2%Q) by (vm_compute; reflexivity).
  split; [exact Hrho|]. rewrite Hrho.
  destruct Hft as [-> | ->].
  - assert (H1 : HIGH <> 0) by (unfold HIGH; lia).
    destruct (getisflippable_UP_inv _ _ _ _ _ _ _ H1 Hf)
      as ([Hr Hc] & Hr' & Hc' & _).
    rewrite getweightratio_UP_table, w4_unit; [reflexivity| | | |];
      apply tables_valid_each, Hv; unfold in_lattice; lia.
  - destruct (getisflippable_DOWN_inv _ _ _ _ _ _ Hf)
      as ([Hr Hc] & Hr' & Hc' & _).
    rewrite (getweightratio_DOWN_table Q Double_Q), w4_unit; [reflexivity| | | |];
      apply tables_valid_each, Hv; unfold in_lattice; lia.
Qed.

Lemma unit_weights_ratio_half_witness :
  getisflippable 3 3 lattice_3x3 lattice_3x3 1 1 HIGH = 1
  /\ definerho wts_unit 0%Q = 2%Q
  /\ getweightratio wts_unit (definerho wts_unit 0%Q) lattice_3x3 1 1 HIGH
     = (1 # 2)%Q.
Proof.
  split; [vm_compute; reflexivity|].
  apply (unit_weights_ratio_half 3 3 lattice_3x3 lattice_3x3 1 1 HIGH).
  - left. reflexivity.
  - exact lattice_3x3_types_valid.
  - vm_compute. reflexivity.
Defined.

(** ** The range of the stored integers *)

Lemma zsum_bounds (n : nat) (f : Z -> Z) (lo hi : Z) :
  (forall k, 0 <= k < Z.of_nat n -> lo <= f k <= hi) ->
  Z.of_nat n * lo <= zsum n f <= Z.of_nat n * hi.
Proof.
  induction n as [|n IH]; intros Hf.
  - simpl. lia.
  - cbn [zsum].
    assert (H1 : Z.of_nat n * lo <= zsum n f <= Z.of_nat n * hi)
      by (apply IH; intros; apply Hf; lia).
    assert (H2 : lo <= f (Z.of_nat n) <= hi) by (apply Hf; lia).
    lia.
Qed.

Lemma indicator_0_1 (t : Z) : 0 <= indicator t <= 1.
Proof. unfold indicator. destruct (carries_height t); lia. Qed.

(** While the heights are consistent, every stored height of an
    [nrows] x [ncols] lattice within the [MAXROWS] x [MAXCOLS] arrays is
    between 0 and [ncols], and the sum of the heights is between 0 and
    [nrows * ncols * ncols], at most 10^9: an [int] of 32 bits holds them,
    and their successors and predecessors, without wrap-around. *)
Theorem consistent_heights_fit_int (nrows ncols : Z) (m : lattice) :
  0 <= nrows <= MAXROWS -> 0 <= ncols <= MAXCOLS ->
  heights_consistent nrows ncols m ->
  (forall i j, in_lattice nrows ncols i j -> 0 <= height (m i j) <= ncols)
  /\ 0 <= sum_heights nrows ncols m <= nrows * ncols * ncols
  /\ nrows * ncols * ncols + 1 < 2 ^ 31.
Proof.
  unfold MAXROWS, MAXCOLS. intros Hr Hc Hcons.
  assert (Hcell : forall i j, in_lattice nrows ncols i j ->
                              0 <= height (m i j) <= ncols).
  { intros i j Hij. rewrite (Hcons i j Hij). destruct Hij as [Hi Hj].
    unfold row_count.
    pose proof (zsum_bounds (Z.to_nat (j + 1))
                  (fun k => indicator (type (m i k))) 0 1
                  (fun k _ => indicator_0_1 (type (m i k)))) as B.
    lia. }
  split; [exact Hcell|]. split.
  - unfold sum_heights.
    pose proof (zsum_bounds (Z.to_nat nrows)
                  (fun i => zsum (Z.to_nat ncols) (fun j => height (m i j)))
                  0 (ncols * ncols)) as B.
    replace (Z.of_nat (Z.to_nat nrows)) with nrows in B by lia.
    assert (Hrow : forall i, 0 <= i < nrows ->
              0 <= zsum (Z.to_nat ncols) (fun j => height (m i j))
              <= ncols * ncols).
    { intros i Hi.
      pose proof (zsum_bounds (Z.to_nat ncols)
                    (fun j => height (m i j)) 0 ncols) as Bi.
      replace (Z.of_nat (Z.to_nat ncols)) with ncols in Bi by lia.
      assert (Hj : forall k, 0 <= k < ncols -> 0 <= height (m i k) <= ncols)
        by (intros k Hk; apply Hcell; unfold in_lattice; lia).
      specialize (Bi Hj). lia. }
    specialize (B Hrow). lia.
  - assert (nrows * ncols <= 1000 * 1000) by nia.
    assert (nrows * ncols * ncols <= 1000 * 1000 * 1000) by nia.
    change (2 ^ 31) with 2147483648. lia.
Qed.

Lemma consistent_heights_fit_int_witness :
  (forall i j, in_lattice 3 3 i j -> 0 <= height (lattice_3x3 i j) <= 3)
  /\ 0 <= sum_heights 3 3 lattice_3x3 <= 3 * 3 * 3
  /\ 3 * 3 * 3 + 1 < 2 ^ 31.
Proof.
  apply (consistent_heights_fit_int 3 3 lattice_3x3).
  - unfold MAXROWS. lia.
  - unfold MAXCOLS. lia.
  - exact (proj1 (initialise_consistent 3 3 data_3x3)).
Defined.

(** ** The picture of a vertex and the lines of the lattice *)

(** For each of the six vertex types [draw_vertex] puts four lines on the
    page, whatever the graphics state it starts from: the half-lines from
    the middle of the top, of the bottom, of the left and of the right side
    of the cell to its centre, in this order, each bold (width 2, black) or
    thin (width 1, grey .8).  The top one is bold for the types 0, 2, 5 --
    the types the heights count --, the bottom one for 0, 2, 4, the left
    one for 0, 3, 4 and the right one for 0, 3, 5.  For any other type it
    draws nothing.  The right half-line of a cell ends where the left one
    of the cell drawn one width further right starts, and likewise the
    bottom and the top half-line of two cells one above the other. *)
Theorem draw_vertex_picture (g : gstate) (w : Q) (t : Z) (x y : Q) :
  let centre := (x + w / 2, y - w / 2)%Q in
  (valid_type t ->
   strokes_of g (draw_vertex w t x y)
   = [ half_line (bold_top t) (x + w / 2, y)%Q centre;
       half_line (bold_bottom t) centre (x + w / 2, y - w)%Q;
       half_line (bold_left t) (x, y - w / 2)%Q centre;
       half_line (bold_right t) centre (x + w, y - w / 2)%Q ])
  /\ (~ valid_type t -> draw_vertex w t x y = [])
  /\ (forall b b', s_to (half_line b centre (x + w, y - w / 2)%Q)
                  = s_from (half_line b' (x + w, y - w / 2)%Q
                                      (x + w + w / 2, y - w / 2)%Q))
  /\ (forall b b', s_to (half_line b centre (x + w / 2, y - w)%Q)
                  = s_from (half_line b' (x + w / 2, y - w)%Q
                                      (x + w / 2, y - w - w / 2)%Q))
  /\ bold_top t = carries_height t.
Proof.
  cbv zeta. split; [|split; [|split; [|split]]].
  - unfold valid_type. intros Ht.
    assert (t = 0 \/ t = 1 \/ t = 2 \/ t = 3 \/ t = 4 \/ t = 5)
      as [->|[->|[->|[->|[->| ->]]]]] by lia; reflexivity.
  - unfold valid_type. intros Ht.
    destruct t as [|p|p]; [exfalso; apply Ht; lia| |reflexivity].
    destruct p as [[[p|p|]|[p|p|]|]|[[p|p|]|[p|p|]|]|]; try reflexivity;
      exfalso; apply Ht; lia.
  - intros [|] [|]; reflexivity.
  - intros [|] [|]; reflexivity.
  - reflexivity.
Qed.

(** Which type a cell has, from the kinds of two of its half-lines. *)
Lemma left_bold_top_thin (t : Z) :
  bold_left t = true -> bold_top t = false -> in_table UP_right t.
Proof.
  unfold bold_left, bold_top, in_table. simpl.
  destruct (Z.eqb_spec t 0), (Z.eqb_spec t 3), (Z.eqb_spec t 4),
    (Z.eqb_spec t 2), (Z.eqb_spec t 5); simpl; intros; subst;
    try discriminate; auto.
Qed.

Lemma bottom_bold_right_thin (t : Z) :
  bold_bottom t = true -> bold_right t = false -> in_table UP_up t.
Proof.
  unfold bold_bottom, bold_right, in_table. simpl.
  destruct (Z.eqb_spec t 0), (Z.eqb_spec t 2), (Z.eqb_spec t 4),
    (Z.eqb_spec t 3), (Z.eqb_spec t 5); simpl; intros; subst;
    try discriminate; auto.
Qed.

Lemma right_bold_bottom_thin (t : Z) :
  bold_right t = true -> bold_bottom t = false -> in_table DOWN_left t.
Proof.
  unfold bold_bottom, bold_right, in_table. simpl.
  destruct (Z.eqb_spec t 0), (Z.eqb_spec t 2), (Z.eqb_spec t 4),
    (Z.eqb_spec t 3), (Z.eqb_spec t 5); simpl; intros; subst;
    try discriminate; auto.
Qed.

Lemma top_bold_left_thin (t : Z) :
  bold_top t = true -> bold_left t = false -> in_table DOWN_down t.
Proof.
  unfold bold_left, bold_top, in_table. simpl.
  destruct (Z.eqb_spec t 0), (Z.eqb_spec t 3), (Z.eqb_spec t 4),
    (Z.eqb_spec t 2), (Z.eqb_spec t 5); simpl; intros; subst;
    try discriminate; auto.
Qed.

(** Where the lines join, a cell that passes the test for UP has a right
    neighbour of type 3 or 4 and an upper neighbour of type 2 or 4. *)
Lemma flippable_UP_table_types
      (nrows ncols : Z) (m m2 : lattice) (r c ftype : Z) :
  ftype <> 0 ->
  lines_join nrows ncols m ->
  getisflippable nrows ncols m m2 r c ftype = 1 ->
  in_table UP_right (type (m r (c + 1)))
  /\ in_table UP_up (type (m (r - 1) c)).
Proof.
  intros Hft [Hh Hv] Hf.
  destruct (getisflippable_UP_inv _ _ _ _ _ _ _ Hft Hf)
    as ([Hr Hc] & Hr' & Hc' & Hb & Hd).
  assert (Ib : in_lattice nrows ncols r c) by (unfold in_lattice; lia).
  assert (Ix : in_lattice nrows ncols r (c + 1)) by (unfold in_lattice; lia).
  assert (Iy : in_lattice nrows ncols (r - 1) c) by (unfold in_lattice; lia).
  assert (Id : in_lattice nrows ncols (r - 1) (c + 1))
    by (unfold in_lattice; lia).
  pose proof (Hh r c Ib Ix) as H1.
  pose proof (Hh (r - 1) c Iy Id) as H4.
  assert (Ix' : in_lattice nrows ncols (r - 1 + 1) (c + 1))
    by (unfold in_lattice; lia).
  assert (Ib' : in_lattice nrows ncols (r - 1 + 1) c)
    by (unfold in_lattice; lia).
  pose proof (Hv (r - 1) (c + 1) Id Ix') as H2.
  pose proof (Hv (r - 1) c Iy Ib') as H3.
  replace (r - 1 + 1) with r in H2, H3 by lia.
  split.
  - apply left_bold_top_thin.
    + rewrite <- H1. destruct Hb as [-> | ->]; reflexivity.
    + rewrite <- H2. destruct Hd as [-> | ->]; reflexivity.
  - apply bottom_bold_right_thin.
    + rewrite H3. destruct Hb as [-> | ->]; reflexivity.
    + rewrite H4. destruct Hd as [-> | ->]; reflexivity.
Qed.

(** And a cell that passes the test for DOWN has a left neighbour of type
    5 or 3 and a lower neighbour of type 5 or 2. *)
Lemma flippable_DOWN_table_types
      (nrows ncols : Z) (m m2 : lattice) (r c : Z) :
  lines_join nrows ncols m ->
  getisflippable nrows ncols m m2 r c 0 = 1 ->
  in_table DOWN_left (type (m r (c - 1)))
  /\ in_table DOWN_down (type (m (r + 1) c)).
Proof.
  intros [Hh Hv] Hf.
  destruct (getisflippable_DOWN_inv _ _ _ _ _ _ Hf)
    as ([Hr Hc] & Hr' & Hc' & Hb & Hd).
  assert (Ib : in_lattice nrows ncols r c) by (unfold in_lattice; lia).
  assert (Ix : in_lattice nrows ncols r (c - 1)) by (unfold in_lattice; lia).
  assert (Iy : in_lattice nrows ncols (r + 1) c) by (unfold in_lattice; lia).
  assert (Id : in_lattice nrows ncols (r + 1) (c - 1))
    by (unfold in_lattice; lia).
  assert (Ib' : in_lattice nrows ncols r (c - 1 + 1))
    by (unfold in_lattice; lia).
  assert (Iy' : in_lattice nrows ncols (r + 1) (c - 1 + 1))
    by (unfold in_lattice; lia).
  pose proof (Hh r (c - 1) Ix Ib') as H1.
  pose proof (Hh (r + 1) (c - 1) Id Iy') as H4.
  pose proof (Hv r (c - 1) Ix Id) as H2.
  pose proof (Hv r c Ib Iy) as H3.
  replace (c - 1 + 1) with c in H1, H4 by lia.
  split.
  - apply right_bold_bottom_thin.
    + rewrite H1. destruct Hb as [-> | ->]; reflexivity.
    + rewrite H2. destruct Hd as [-> | ->]; reflexivity.
  - apply top_bold_left_thin.
    + rewrite <- H3. destruct Hb as [-> | ->]; reflexivity.
    + rewrite <- H4. destruct Hd as [-> | ->]; reflexivity.
Qed.

(** An UP move keeps the half-lines that leave its block of four cells
    and turns those inside the block so that they still meet in kind. *)
Lemma UP_edges (tb tx ty td : Z) :
  tb = 0 \/ tb = 5 -> in_table UP_right tx -> in_table UP_up ty ->
  td = 1 \/ td = 5 ->
  let b := apply_table UP_base tb in
  let x := apply_table UP_right tx in
  let y := apply_table UP_up ty in
  let d := apply_table UP_upper_right td in
  (bold_left b = bold_left tb /\ bold_bottom b = bold_bottom tb)
  /\ (bold_right x = bold_right tx /\ bold_bottom x = bold_bottom tx)
  /\ (bold_left y = bold_left ty /\ bold_top y = bold_top ty)
  /\ (bold_right d = bold_right td /\ bold_top d = bold_top td)
  /\ (bold_right b = bold_left x /\ bold_bottom y = bold_top b
      /\ bold_right y = bold_left d /\ bold_bottom d = bold_top x).
Proof.
  unfold in_table. simpl.
  intros [-> | ->] [<- | [<- | []]] [<- | [<- | []]] [-> | ->];
    repeat split; reflexivity.
Qed.

Lemma DOWN_edges (tb tx ty td : Z) :
  tb = 0 \/ tb = 4 -> in_table DOWN_left tx -> in_table DOWN_down ty ->
  td = 1 \/ td = 4 ->
  let b := apply_table DOWN_base tb in
  let x := apply_table DOWN_left tx in
  let y := apply_table DOWN_down ty in
  let d := apply_table DOWN_lower_left td in
  (bold_right b = bold_right tb /\ bold_top b = bold_top tb)
  /\ (bold_left x = bold_left tx /\ bold_top x = bold_top tx)
  /\ (bold_right y = bold_right ty /\ bold_bottom y = bold_bottom ty)
  /\ (bold_left d = bold_left td /\ bold_bottom d = bold_bottom td)
  /\ (bold_right x = bold_left b /\ bold_bottom b = bold_top y
      /\ bold_right d = bold_left y /\ bold_bottom x = bold_top d).
Proof.
  unfold in_table. simpl.
  intros [-> | ->] [<- | [<- | []]] [<- | [<- | []]] [-> | ->];
    repeat split; reflexivity.
Qed.

Ltac split_positions :=
  repeat match goal with
         | |- context [?a =? ?b] =>
             destruct (Z.eqb_spec a b); try lia; cbn [andb]
         end.

(** An UP move at a flippable cell of a lattice whose lines join leaves a
    lattice whose lines join, with the same half-lines at its border. *)
Lemma updatepositions_UP_lines_join
      (nrows ncols : Z) (m m2 : lattice) (r c ftype : Z) :
  ftype <> 0 ->
  lines_join nrows ncols m ->
  getisflippable nrows ncols m m2 r c ftype = 1 ->
  lines_join nrows ncols (updatepositions m r c ftype)
  /\ same_border nrows ncols m (updatepositions m r c ftype).
Proof.
  intros Hft Hj Hf.
  destruct (flippable_UP_table_types _ _ _ _ _ _ _ Hft Hj Hf) as [Hx Hy].
  destruct (getisflippable_UP_inv _ _ _ _ _ _ _ Hft Hf)
    as ([Hr Hc] & Hr' & Hc' & Hb & Hd).
  destruct (UP_edges _ _ _ _ Hb Hx Hy Hd)
    as ((B1 & B2) & (X1 & X2) & (Y1 & Y2) & (D1 & D2) & (N1 & N2 & N3 & N4)).
  destruct Hj as [Hh Hv].
  assert (Hh' : forall i j j2, j2 = j + 1 ->
            in_lattice nrows ncols i j -> in_lattice nrows ncols i j2 ->
            bold_right (type (updatepositions m r c ftype i j))
            = bold_left (type (updatepositions m r c ftype i j2))).
  { intros i j j2 E Hij Hij2.
    pose proof (Hh i j Hij) as H. rewrite <- E in H. specialize (H Hij2).
    rewrite !updatepositions_type_UP by exact Hft.
    split_positions; subst; congruence. }
  assert (Hv' : forall i i2 j, i2 = i + 1 ->
            in_lattice nrows ncols i j -> in_lattice nrows ncols i2 j ->
            bold_bottom (type (updatepositions m r c ftype i j))
            = bold_top (type (updatepositions m r c ftype i2 j))).
  { intros i i2 j E Hij Hij2.
    pose proof (Hv i j Hij) as H. rewrite <- E in H. specialize (H Hij2).
    rewrite !updatepositions_type_UP by exact Hft.
    split_positions; subst; congruence. }
  split; [split|].
  - intros i j Hij Hij2. exact (Hh' i j (j + 1) eq_refl Hij Hij2).
  - intros i j Hij Hij2. exact (Hv' i (i + 1) j eq_refl Hij Hij2).
  - intros i j [Hi Hjc]. rewrite !updatepositions_type_UP by exact Hft.
    repeat split; intros E; split_positions; subst; congruence.
Qed.

(** The same for a DOWN move. *)
Lemma updatepositions_DOWN_lines_join
      (nrows ncols : Z) (m m2 : lattice) (r c : Z) :
  lines_join nrows ncols m ->
  getisflippable nrows ncols m m2 r c 0 = 1 ->
  lines_join nrows ncols (updatepositions m r c 0)
  /\ same_border nrows ncols m (updatepositions m r c 0).
Proof.
  intros Hj Hf.
  destruct (flippable_DOWN_table_types _ _ _ _ _ _ Hj Hf) as [Hx Hy].
  destruct (getisflippable_DOWN_inv _ _ _ _ _ _ Hf)
    as ([Hr Hc] & Hr' & Hc' & Hb & Hd).
  destruct (DOWN_edges _ _ _ _ Hb Hx Hy Hd)
    as ((B1 & B2) & (X1 & X2) & (Y1 & Y2) & (D1 & D2) & (N1 & N2 & N3 & N4)).
  destruct Hj as [Hh Hv].
  assert (Hh' : forall i j j2, j2 = j + 1 ->
            in_lattice nrows ncols i j -> in_lattice nrows ncols i j2 ->
            bold_right (type (updatepositions m r c 0 i j))
            = bold_left (type (updatepositions m r c 0 i j2))).
  { intros i j j2 E Hij Hij2.
    pose proof (Hh i j Hij) as H. rewrite <- E in H. specialize (H Hij2).
    rewrite !updatepositions_type_DOWN.
    split_positions; subst; congruence. }
  assert (Hv' : forall i i2 j, i2 = i + 1 ->
            in_lattice nrows ncols i j -> in_lattice nrows ncols i2 j ->
            bold_bottom (type (updatepositions m r c 0 i j))
            = bold_top (type (updatepositions m r c 0 i2 j))).
  { intros i i2 j E Hij Hij2.
    pose proof (Hv i j Hij) as H. rewrite <- E in H. specialize (H Hij2).
    rewrite !updatepositions_type_DOWN.
    split_positions; subst; congruence. }
  split; [split|].
  - intros i j Hij Hij2. exact (Hh' i j (j + 1) eq_refl Hij Hij2).
  - intros i j Hij Hij2. exact (Hv' i (i + 1) j eq_refl Hij Hij2).
  - intros i j [Hi Hjc]. rewrite !updatepositions_type_DOWN.
    repeat split; intros E; split_positions; subst; congruence.
Qed.

Lemma lines_join_ext (nrows ncols : Z) (m m' : lattice) :
  (forall i j, type (m' i j) = type (m i j)) ->
  lines_join nrows ncols m -> lines_join nrows ncols m'.
Proof.
  intros E [Hh Hv]. split; intros i j H1 H2; rewrite !E; auto.
Qed.

Lemma same_border_ext (nrows ncols : Z) (m m' m'' : lattice) :
  (forall i j, type (m'' i j) = type (m' i j)) ->
  same_border nrows ncols m m' -> same_border nrows ncols m m''.
Proof.
  intros E H i j Hij. rewrite !E. exact (H i j Hij).
Qed.

(** Both directions, for the lattice [executeflip] leaves. *)
Lemma executeflip_lines_join
      (nrows ncols : Z) (m m2 : lattice) (vol r c ftype : Z) :
  lines_join nrows ncols m ->
  getisflippable nrows ncols m m2 r c ftype = 1 ->
  lines_join nrows ncols (fst (executeflip m vol r c ftype))
  /\ same_border nrows ncols m (fst (executeflip m vol r c ftype)).
Proof.
  intros Hj Hf.
  assert (H : lines_join nrows ncols (updatepositions m r c ftype)
              /\ same_border nrows ncols m (updatepositions m r c ftype)).
  { destruct (Z.eq_dec ftype 0) as [->|Hft].
    - exact (updatepositions_DOWN_lines_join _ _ _ _ _ _ Hj Hf).
    - exact (updatepositions_UP_lines_join _ _ _ _ _ _ _ Hft Hj Hf). }
  destruct H as [H1 H2]. split.
  - apply (lines_join_ext nrows ncols (updatepositions m r c ftype));
      [intros; apply executeflip_type | exact H1].
  - apply (same_border_ext nrows ncols m (updatepositions m r c ftype));
      [intros; apply executeflip_type | exact H2].
Qed.

(** The heights and the volume counter under [executeflip], from the
    types of the two cells after the anchor. *)
Lemma executeflip_heights
      (nrows ncols : Z) (m m2 : lattice) (vol r c ftype : Z) :
  getisflippable nrows ncols m m2 r c ftype = 1 ->
  (ftype <> 0 -> in_table UP_right (type (m r (c + 1)))) ->
  (ftype = 0 -> in_table DOWN_down (type (m (r + 1) c))) ->
  heights_consistent nrows ncols m ->
  vol = sum_heights nrows ncols m ->
  heights_consistent nrows ncols (fst (executeflip m vol r c ftype))
  /\ snd (executeflip m vol r c ftype)
     = sum_heights nrows ncols (fst (executeflip m vol r c ftype)).
Proof.
  intros Hflip Hup Hdown Hcons Hvol.
  rewrite executeflip_volume.
  destruct (Z.eqb_spec ftype 0) as [->|Hft].
  - destruct (getisflippable_DOWN_inv _ _ _ _ _ _ Hflip)
      as ([Hr Hc] & Hr' & Hc' & Hb & Hd).
    destruct (anchor_update_consistent nrows ncols m
                (fst (executeflip m vol r c 0)) (r + 1) (c - 1) 1)
      as [Hcons' Hsum].
    + unfold in_lattice; lia.
    + intros i k. rewrite executeflip_type.
      apply updatepositions_indicator_DOWN; auto.
    + intros i j. rewrite executeflip_height_DOWN.
      destruct ((i =? r + 1) && (j =? c - 1)); lia.
    + exact Hcons.
    + split; [exact Hcons' | lia].
  - destruct (getisflippable_UP_inv _ _ _ _ _ _ _ Hft Hflip)
      as ([Hr Hc] & Hr' & Hc' & Hb & Hd).
    destruct (anchor_update_consistent nrows ncols m
                (fst (executeflip m vol r c ftype)) r c (-1))
      as [Hcons' Hsum].
    + unfold in_lattice; lia.
    + intros i k. rewrite executeflip_type.
      apply updatepositions_indicator_UP; auto.
    + intros i j. rewrite executeflip_height_UP by exact Hft.
      destruct ((i =? r) && (j =? c)); lia.
    + exact Hcons.
    + split; [exact Hcons' | lia].
Qed.

Lemma lattice_joined_invariant :
  lattice_invariant 3 3 lattice_joined volume_joined.
Proof.
  split; [|split; [|exact (initialise_consistent 3 3 data_joined)]].
  - intros i j Hij. apply in_lattice_3x3 in Hij. simpl in Hij.
    repeat (destruct Hij as [Hij|Hij];
            [inversion Hij; subst; vm_compute; split; discriminate|]).
    contradiction.
  - split; intros i j Hij Hij2;
      apply in_lattice_3x3 in Hij; simpl in Hij;
      repeat (destruct Hij as [Hij|Hij];
              [inversion Hij; subst;
               first [ vm_compute; reflexivity
                     | exfalso; unfold in_lattice in Hij2; lia ]|]);
      contradiction.
Qed.

(** Where the lines of the lattice join, the four cells of every move at a
    flippable cell have pre-types of the relabelling table: the test on the
    base and the diagonal cell settles the other two. *)
Theorem joined_flippable_cells_in_table
        (nrows ncols : Z) (m m2 : lattice) (r c : Z) :
  lines_join nrows ncols m ->
  (getisflippable nrows ncols m m2 r c HIGH = 1 ->
   in_table UP_base (type (m r c))
   /\ in_table UP_upper_right (type (m (r - 1) (c + 1)))
   /\ in_table UP_right (type (m r (c + 1)))
   /\ in_table UP_up (type (m (r - 1) c)))
  /\ (getisflippable nrows ncols m m2 r c LOW = 1 ->
      in_table DOWN_base (type (m r c))
      /\ in_table DOWN_lower_left (type (m (r + 1) (c - 1)))
      /\ in_table DOWN_left (type (m r (c - 1)))
      /\ in_table DOWN_down (type (m (r + 1) c))).
Proof.
  intros Hj. split; intros Hf.
  - assert (H1 : HIGH <> 0) by (unfold HIGH; lia).
    destruct (flippable_UP_table_types _ _ _ _ _ _ _ H1 Hj Hf) as [Hx Hy].
    destruct (getisflippable_UP_inv _ _ _ _ _ _ _ H1 Hf)
      as (_ & _ & _ & Hb & Hd).
    unfold in_table in *. simpl in *. intuition.
  - destruct (flippable_DOWN_table_types _ _ _ _ _ _ Hj Hf) as [Hx Hy].
    destruct (getisflippable_DOWN_inv _ _ _ _ _ _ Hf)
      as (_ & _ & _ & Hb & Hd).
    unfold in_table in *. simpl in *. intuition.
Qed.

Lemma joined_flippable_cells_in_table_witness :
  in_table UP_base (type (lattice_joined 1 1))
  /\ in_table UP_upper_right (type (lattice_joined 0 2))
  /\ in_table UP_right (type (lattice_joined 1 2))
  /\ in_table UP_up (type (lattice_joined 0 1)).
Proof.
  apply (proj1 (joined_flippable_cells_in_table
                  3 3 lattice_joined lattice_joined 1 1
                  (proj1 (proj2 lattice_joined_invariant)))).
  vm_compute. reflexivity.
Defined.

(** A flip at a flippable cell of a lattice whose lines join leaves a
    lattice whose lines join, and every half-line that reaches the border
    of the lattice is as before: the bold lines are moved, never cut, and
    their ends on the border stay where they are. *)
Theorem executeflip_keeps_lines_joined
        (nrows ncols : Z) (m m2 : lattice) (vol r c ftype : Z) :
  lines_join nrows ncols m ->
  getisflippable nrows ncols m m2 r c ftype = 1 ->
  lines_join nrows ncols (fst (executeflip m vol r c ftype))
  /\ same_border nrows ncols m (fst (executeflip m vol r c ftype)).
Proof. apply executeflip_lines_join. Qed.

Lemma executeflip_keeps_lines_joined_witness :
  lines_join 3 3 (fst (executeflip lattice_joined volume_joined 1 1 LOW))
  /\ same_border 3 3 lattice_joined
                 (fst (executeflip lattice_joined volume_joined 1 1 LOW)).
Proof.
  apply (executeflip_keeps_lines_joined 3 3 lattice_joined lattice_joined).
  - exact (proj1 (proj2 lattice_joined_invariant)).
  - vm_compute. reflexivity.
Defined.

(** ** A move and the move back *)

(** The rows of the table for DOWN undo the rows for UP, cell by cell of
    the block, and the other way round. *)
Lemma table_DOWN_after_UP (tb tx ty td : Z) :
  tb = 0 \/ tb = 5 -> in_table UP_right tx -> in_table UP_up ty ->
  td = 1 \/ td = 5 ->
  apply_table DOWN_lower_left (apply_table UP_base tb) = tb
  /\ apply_table DOWN_down (apply_table UP_right tx) = tx
  /\ apply_table DOWN_left (apply_table UP_up ty) = ty
  /\ apply_table DOWN_base (apply_table UP_upper_right td) = td
  /\ (apply_table UP_upper_right td = 0 \/ apply_table UP_upper_right td = 4)
  /\ (apply_table UP_base tb = 1 \/ apply_table UP_base tb = 4).
Proof.
  unfold in_table. simpl.
  intros [-> | ->] [<- | [<- | []]] [<- | [<- | []]] [-> | ->];
    simpl; intuition.
Qed.

Lemma table_UP_after_DOWN (tb tx ty td : Z) :
  tb = 0 \/ tb = 4 -> in_table DOWN_left tx -> in_table DOWN_down ty ->
  td = 1 \/ td = 4 ->
  apply_table UP_upper_right (apply_table DOWN_base tb) = tb
  /\ apply_table UP_up (apply_table DOWN_left tx) = tx
  /\ apply_table UP_right (apply_table DOWN_down ty) = ty
  /\ apply_table UP_base (apply_table DOWN_lower_left td) = td
  /\ (apply_table DOWN_lower_left td = 0 \/ apply_table DOWN_lower_left td = 5)
  /\ (apply_table DOWN_base tb = 1 \/ apply_table DOWN_base tb = 5).
Proof.
  unfold in_table. simpl.
  intros [-> | ->] [<- | [<- | []]] [<- | [<- | []]] [-> | ->];
    simpl; intuition.
Qed.

Ltac at_block i j r1 r2 c1 c2 :=
  destruct (Z.eq_dec i r1) as [?E|?N]; [subst i|];
  [|destruct (Z.eq_dec i r2) as [?E|?N]; [subst i|]];
  (destruct (Z.eq_dec j c1) as [?E|?N]; [subst j|];
   [|destruct (Z.eq_dec j c2) as [?E|?N]; [subst j|]]).

(** After an UP flip the DOWN flip at the upper-right cell is possible
    and restores the lattice, heights and volume included. *)
Lemma executeflip_UP_then_DOWN
      (nrows ncols : Z) (m m2 : lattice) (vol r c : Z) :
  getisflippable nrows ncols m m2 r c HIGH = 1 ->
  in_table UP_right (type (m r (c + 1))) ->
  in_table UP_up (type (m (r - 1) c)) ->
  let ev := executeflip m vol r c HIGH in
  let back := executeflip (fst ev) (snd ev) (r - 1) (c + 1) LOW in
  getisflippable nrows ncols (fst ev) m2 (r - 1) (c + 1) LOW = 1
  /\ (forall i j, fst back i j = m i j)
  /\ snd back = vol.
Proof.
  intros Hf Hx Hy ev back.
  assert (H1 : HIGH <> 0) by (unfold HIGH; lia).
  destruct (getisflippable_UP_inv _ _ _ _ _ _ _ H1 Hf)
    as ([Hr Hc] & Hr' & Hc' & Hb & Hd).
  destruct (table_DOWN_after_UP _ _ _ _ Hb Hx Hy Hd)
    as (Ib & Ix & Iy & Id & Pd & Pb).
  assert (Tev : forall i j,
             type (fst ev i j) = type (updatepositions m r c HIGH i j))
    by (intros; apply executeflip_type).
  split; [|split].
  - apply getisflippable_LOW_iff.
    unfold in_lattice, spec_flippable_DOWN.
    replace (r - 1 + 1) with r by lia. replace (c + 1 - 1) with c by lia.
    rewrite !Tev.
    destruct (updatepositions_cells_UP m r c HIGH H1) as (U1 & U2 & _).
    rewrite U1, U2. repeat split; try lia; tauto.
  - intros i j. apply mstruct_eq.
    + unfold back, LOW. rewrite executeflip_type, updatepositions_type_DOWN.
      rewrite !Tev, !updatepositions_type_UP by exact H1.
      at_block i j r (r - 1) c (c + 1); split_positions; congruence.
    + unfold back, LOW. rewrite executeflip_height_DOWN.
      unfold ev. rewrite executeflip_height_UP by exact H1.
      split_positions; lia.
  - unfold back, ev. rewrite !executeflip_volume. unfold HIGH, LOW. simpl. lia.
Qed.

(** After a DOWN flip the UP flip at the lower-left cell is possible and
    restores the lattice, heights and volume included. *)
Lemma executeflip_DOWN_then_UP
      (nrows ncols : Z) (m m2 : lattice) (vol r c : Z) :
  getisflippable nrows ncols m m2 r c LOW = 1 ->
  in_table DOWN_left (type (m r (c - 1))) ->
  in_table DOWN_down (type (m (r + 1) c)) ->
  let ev := executeflip m vol r c LOW in
  let back := executeflip (fst ev) (snd ev) (r + 1) (c - 1) HIGH in
  getisflippable nrows ncols (fst ev) m2 (r + 1) (c - 1) HIGH = 1
  /\ (forall i j, fst back i j = m i j)
  /\ snd back = vol.
Proof.
  intros Hf Hx Hy ev back.
  assert (H1 : HIGH <> 0) by (unfold HIGH; lia).
  destruct (getisflippable_DOWN_inv _ _ _ _ _ _ Hf)
    as ([Hr Hc] & Hr' & Hc' & Hb & Hd).
  destruct (table_UP_after_DOWN _ _ _ _ Hb Hx Hy Hd)
    as (Ib & Ix & Iy & Id & Pd & Pb).
  assert (Tev : forall i j,
             type (fst ev i j) = type (updatepositions m r c 0 i j))
    by (intros; apply executeflip_type).
  split; [|split].
  - apply getisflippable_HIGH_iff.
    unfold in_lattice, spec_flippable_UP.
    replace (r + 1 - 1) with r by lia. replace (c - 1 + 1) with c by lia.
    rewrite !Tev.
    destruct (updatepositions_cells_DOWN m r c) as (U1 & U2 & _).
    rewrite U1, U2. repeat split; try lia; tauto.
  - intros i j. apply mstruct_eq.
    + unfold back. rewrite executeflip_type.
      rewrite updatepositions_type_UP by exact H1.
      rewrite !Tev, !updatepositions_type_DOWN.
      at_block i j r (r + 1) c (c - 1); split_positions; congruence.
    + unfold back. rewrite executeflip_height_UP by exact H1.
      unfold ev, LOW. rewrite executeflip_height_DOWN.
      split_positions; lia.
  - unfold back, ev. rewrite !executeflip_volume. unfold HIGH, LOW. simpl. lia.
Qed.

(** Every flip on a lattice whose lines join can be taken back by the
    opposite flip at the diagonal cell: that flip is possible, and it
    restores every cell, type and height, and the volume. *)
Theorem flip_back_restores
        (nrows ncols : Z) (m m2 : lattice) (vol r c : Z) :
  lines_join nrows ncols m ->
  (getisflippable nrows ncols m m2 r c HIGH = 1 ->
   let ev := executeflip m vol r c HIGH in
   let back := executeflip (fst ev) (snd ev) (r - 1) (c + 1) LOW in
   getisflippable nrows ncols (fst ev) m2 (r - 1) (c + 1) LOW = 1
   /\ (forall i j, fst back i j = m i j)
   /\ snd back = vol)
  /\ (getisflippable nrows ncols m m2 r c LOW = 1 ->
      let ev := executeflip m vol r c LOW in
      let back := executeflip (fst ev) (snd ev) (r + 1) (c - 1) HIGH in
      getisflippable nrows ncols (fst ev) m2 (r + 1) (c - 1) HIGH = 1
      /\ (forall i j, fst back i j = m i j)
      /\ snd back = vol).
Proof.
  intros Hj. split; intros Hf.
  - assert (H1 : HIGH <> 0) by (unfold HIGH; lia).
    destruct (flippable_UP_table_types _ _ _ _ _ _ _ H1 Hj Hf) as [Hx Hy].
    now apply executeflip_UP_then_DOWN.
  - destruct (flippable_DOWN_table_types _ _ _ _ _ _ Hj Hf) as [Hx Hy].
    now apply executeflip_DOWN_then_UP.
Qed.

Lemma flip_back_restores_witness :
  let ev := executeflip lattice_joined volume_joined 1 1 HIGH in
  let back := executeflip (fst ev) (snd ev) 0 2 LOW in
  getisflippable 3 3 (fst ev) lattice_joined 0 2 LOW = 1
  /\ (forall i j, fst back i j = lattice_joined i j)
  /\ snd back = volume_joined.
Proof.
  apply (proj1 (flip_back_restores 3 3 lattice_joined lattice_joined
                  volume_joined 1 1
                  (proj1 (proj2 lattice_joined_invariant)))).
  vm_compute. reflexivity.
Defined.

(** Local detailed balance in exact arithmetic: on a lattice whose lines
    join, the weight of the four cells of a move times the ratio
    [getweightratio] returns for it equals the weight of the four cells
    after the move times the ratio of the move back.  With both ratios used
    as acceptance probabilities, the chain is reversible with respect to
    the product of the weights. *)
Theorem local_detailed_balance
        (wts : Z -> Q) (rho : Q)
        (nrows ncols : Z) (m m2 : lattice) (vol r c : Z) :
  lines_join nrows ncols m ->
  (getisflippable nrows ncols m m2 r c HIGH = 1 ->
   let m' := fst (executeflip m vol r c HIGH) in
   (block_weight wts m r c * getweightratio wts rho m r c HIGH ==
    block_weight wts m' r c * getweightratio wts rho m' (r - 1) (c + 1) LOW)%Q)
  /\ (getisflippable nrows ncols m m2 r c LOW = 1 ->
      let m' := fst (executeflip m vol r c LOW) in
      (block_weight wts m (r + 1) (c - 1) * getweightratio wts rho m r c LOW ==
       block_weight wts m' (r + 1) (c - 1)
       * getweightratio wts rho m' (r + 1) (c - 1) HIGH)%Q).
Proof.
  intros Hj. split; intros Hf m'.
  - assert (H1 : HIGH <> 0) by (unfold HIGH; lia).
    destruct (flippable_UP_table_types _ _ _ _ _ _ _ H1 Hj Hf) as [Hx Hy].
    destruct (getisflippable_UP_inv _ _ _ _ _ _ _ H1 Hf)
      as (_ & _ & _ & Hb & Hd).
    destruct (table_DOWN_after_UP _ _ _ _ Hb Hx Hy Hd)
      as (Ib & Ix & Iy & Id & _).
    rewrite getweightratio_UP_table, getweightratio_DOWN_table.
    unfold block_weight.
    replace (r - 1 + 1) with r by lia. replace (c + 1 - 1) with c by lia.
    unfold m'. rewrite !executeflip_type.
    destruct (updatepositions_cells_UP m r c HIGH H1) as (U1 & U2 & U3 & U4).
    rewrite U1, U2, U3, U4, Ib, Ix, Iy, Id.
    unfold w4. cbn [dmul ddiv Double_Q]. unfold Qdiv. ring.
  - destruct (flippable_DOWN_table_types _ _ _ _ _ _ Hj Hf) as [Hx Hy].
    destruct (getisflippable_DOWN_inv _ _ _ _ _ _ Hf)
      as (_ & _ & _ & Hb & Hd).
    destruct (table_UP_after_DOWN _ _ _ _ Hb Hx Hy Hd)
      as (Ib & Ix & Iy & Id & _).
    rewrite getweightratio_UP_table, getweightratio_DOWN_table.
    unfold block_weight.
    replace (r + 1 - 1) with r by lia. replace (c - 1 + 1) with c by lia.
    unfold m', LOW. rewrite !executeflip_type.
    destruct (updatepositions_cells_DOWN m r c) as (U1 & U2 & U3 & U4).
    rewrite U1, U2, U3, U4, Ib, Ix, Iy, Id.
    unfold w4. cbn [dmul ddiv Double_Q]. unfold Qdiv. ring.
Qed.

Lemma local_detailed_balance_witness :
  let m' := fst (executeflip lattice_joined volume_joined 1 1 HIGH) in
  (block_weight wts_skew lattice_joined 1 1
   * getweightratio wts_skew 512 lattice_joined 1 1 HIGH ==
   block_weight wts_skew m' 1 1 * getweightratio wts_skew 512 m' 0 2 LOW)%Q.
Proof.
  apply (proj1 (local_detailed_balance wts_skew 512 3 3
                  lattice_joined lattice_joined volume_joined 1 1
                  (proj1 (proj2 lattice_joined_invariant)))).
  vm_compute. reflexivity.
Defined.

(** ** The main loop *)

(** With [STICKY] off, [getisflippable2] is [getisflippable] on the second
    matrix. *)
Lemma getisflippable2_second (nrows ncols : Z) (m m2 : lattice) (r c ftype : Z) :
  getisflippable2 nrows ncols m m2 r c ftype
  = getisflippable nrows ncols m2 m r c ftype.
Proof. reflexivity. Qed.

(** The three ways out of the pass over the first matrix. *)
Lemma handle_matrix1_cases
      (F : Type) (D : Double F) (nrows ncols : Z) (wts : Z -> F) (rho : F)
      (st : state) (r c : Z) (random : F) :
  let st' := handle_matrix1 nrows ncols wts rho st r c random in
  st' = st
  \/ st' = flip_failed st
  \/ exists ftype,
      getisflippable nrows ncols (matrix st) (matrix2 st) r c ftype = 1
      /\ st' = flip_done st r c ftype.
Proof.
  intros st'. subst st'. unfold handle_matrix1. cbv zeta.
  set (h := getisflippable nrows ncols (matrix st) (matrix2 st) r c HIGH).
  set (l := getisflippable nrows ncols (matrix st) (matrix2 st) r c LOW).
  destruct (Z.eqb_spec h 1), (Z.eqb_spec l 0),
           (Z.eqb_spec h 0), (Z.eqb_spec l 1); cbn [andb]; try lia;
    repeat match goal with
           | |- context [if dge ?a ?b then _ else _] => destruct (dge a b)
           end;
    first [ now left
          | now (right; left)
          | right; right; exists HIGH; split; [assumption | reflexivity]
          | right; right; exists LOW; split; [assumption | reflexivity] ].
Qed.

(** The three ways out of the pass over the second matrix. *)
Lemma handle_matrix2_cases
      (F : Type) (D : Double F) (nrows ncols : Z) (wts : Z -> F) (rho : F)
      (g : mainloop) (r c : Z) (random : F) :
  let g' := handle_matrix2 nrows ncols wts rho g r c random in
  g' = g
  \/ g' = flip_failed2 g
  \/ exists ftype,
      getisflippable nrows ncols (matrix2 (globals g)) (matrix (globals g))
                     r c ftype = 1
      /\ g' = flip_done2 g r c ftype.
Proof.
  intros g'. subst g'. unfold handle_matrix2. cbv zeta.
  rewrite !getisflippable2_second.
  set (h := getisflippable nrows ncols (matrix2 (globals g))
                           (matrix (globals g)) r c HIGH).
  set (l := getisflippable nrows ncols (matrix2 (globals g))
                           (matrix (globals g)) r c LOW).
  destruct (Z.eqb_spec h 1), (Z.eqb_spec l 0),
           (Z.eqb_spec h 0), (Z.eqb_spec l 1); cbn [andb]; try lia;
    repeat match goal with
           | |- context [if dge ?a ?b then _ else _] => destruct (dge a b)
           end;
    first [ now left
          | now (right; left)
          | right; right; exists HIGH; split; [assumption | reflexivity]
          | right; right; exists LOW; split; [assumption | reflexivity] ].
Qed.

(** A flip at a flippable cell keeps the invariant of a lattice and its
    counter, and the half-lines on the border. *)
Lemma executeflip_invariant
      (nrows ncols : Z) (m m2 : lattice) (vol r c ftype : Z) :
  lattice_invariant nrows ncols m vol ->
  getisflippable nrows ncols m m2 r c ftype = 1 ->
  lattice_invariant nrows ncols (fst (executeflip m vol r c ftype))
                    (snd (executeflip m vol r c ftype))
  /\ same_border nrows ncols m (fst (executeflip m vol r c ftype)).
Proof.
  intros (Hv & Hj & Hc & Hs) Hf.
  destruct (executeflip_lines_join nrows ncols m m2 vol r c ftype Hj Hf)
    as [Hj' Hb'].
  destruct (executeflip_heights nrows ncols m m2 vol r c ftype Hf) as [Hc' Hs'];
    try assumption.
  - intros Hft.
    exact (proj1 (flippable_UP_table_types _ _ _ _ _ _ _ Hft Hj Hf)).
  - intros ->.
    exact (proj2 (flippable_DOWN_table_types _ _ _ _ _ _ Hj Hf)).
  - split; [|exact Hb'].
    split; [|split; [exact Hj'|split; [exact Hc'|exact Hs']]].
    intros i j Hij. rewrite executeflip_type.
    exact (updatepositions_valid nrows ncols m r c ftype Hv i j Hij).
Qed.

Lemma same_border_refl (nrows ncols : Z) (m : lattice) :
  same_border nrows ncols m m.
Proof. intros i j _. repeat split. Qed.

Lemma same_border_trans (nrows ncols : Z) (m1 m2 m3 : lattice) :
  same_border nrows ncols m1 m2 -> same_border nrows ncols m2 m3 ->
  same_border nrows ncols m1 m3.
Proof.
  intros H12 H23 i j Hij.
  destruct (H12 i j Hij) as (A1 & A2 & A3 & A4).
  destruct (H23 i j Hij) as (B1 & B2 & B3 & B4).
  repeat split; intros E;
    [ rewrite (B1 E); exact (A1 E) | rewrite (B2 E); exact (A2 E)
    | rewrite (B3 E); exact (A3 E) | rewrite (B4 E); exact (A4 E) ].
Qed.

(** One pass of the main loop keeps the invariant and the borders of both
    matrices. *)
Lemma loop_pass_invariant
      (F : Type) (D : Double F) (nrows ncols : Z) (wts : Z -> F) (rho : F)
      (g : mainloop) (d : draws) :
  mainloop_invariant nrows ncols g ->
  let g' := loop_pass nrows ncols wts rho g d in
  mainloop_invariant nrows ncols g'
  /\ same_border nrows ncols (matrix (globals g)) (matrix (globals g'))
  /\ same_border nrows ncols (matrix2 (globals g)) (matrix2 (globals g')).
Proof.
  intros [I1 I2] g'. subst g'. unfold loop_pass.
  set (st := handle_matrix1 nrows ncols wts rho (globals g)
                            (flipchoicerow d) (flipchoicecol d) (random1 d)).
  assert (S1 : lattice_invariant nrows ncols (matrix st) (matrixvol st)
               /\ same_border nrows ncols (matrix (globals g)) (matrix st)
               /\ matrix2 st = matrix2 (globals g)).
  { destruct (handle_matrix1_cases F D nrows ncols wts rho (globals g)
                (flipchoicerow d) (flipchoicecol d) (random1 d))
      as [E | [E | (ft & Hf & E)]]; fold st in E; rewrite E.
    - split; [exact I1|split; [apply same_border_refl|reflexivity]].
    - split; [exact I1|split; [apply same_border_refl|reflexivity]].
    - unfold flip_done. cbn [matrix matrix2 matrixvol].
      destruct (executeflip_invariant _ _ _ _ _ _ _ _ I1 Hf) as [A B].
      split; [exact A|split; [exact B|reflexivity]]. }
  destruct S1 as (J1 & B1 & E2).
  set (g1 := Mainloop st (matrixvol2 g)).
  assert (I2' : lattice_invariant nrows ncols (matrix2 (globals g1))
                                  (matrixvol2 g1))
    by (unfold g1; cbn [globals matrixvol2]; rewrite E2; exact I2).
  destruct (handle_matrix2_cases F D nrows ncols wts rho g1
              (flipchoicerow d) (flipchoicecol d) (random2 d))
    as [E | [E | (ft & Hf & E)]]; rewrite E.
  - unfold mainloop_invariant, g1. cbn [globals matrixvol2].
    rewrite E2.
    split; [split; [exact J1|exact I2]|split; [exact B1|apply same_border_refl]].
  - unfold mainloop_invariant, flip_failed2, flip_failed, g1.
    cbn [globals matrixvol2 matrix matrix2 matrixvol].
    rewrite E2.
    split; [split; [exact J1|exact I2]|split; [exact B1|apply same_border_refl]].
  - destruct (executeflip_invariant _ _ _ _ _ _ _ _ I2' Hf) as [A B].
    unfold mainloop_invariant, flip_done2, executeflip2.
    cbn [globals matrixvol2 matrix matrix2 matrixvol].
    unfold g1 in A, B. cbn [globals matrixvol2] in A, B.
    unfold g1. cbn [globals matrixvol2].
    rewrite E2 in A, B |- *.
    split; [split; [exact J1|exact A]|split; [exact B1|exact B]].
Qed.

Lemma run_invariant
      (F : Type) (D : Double F) (nrows ncols : Z) (wts : Z -> F) (rho : F)
      (ds : list draws) (g : mainloop) :
  mainloop_invariant nrows ncols g ->
  let g' := run nrows ncols wts rho ds g in
  mainloop_invariant nrows ncols g'
  /\ same_border nrows ncols (matrix (globals g)) (matrix (globals g'))
  /\ same_border nrows ncols (matrix2 (globals g)) (matrix2 (globals g')).
Proof.
  revert g. induction ds as [|d ds IH]; intros g I; cbv zeta.
  - split; [exact I|split; apply same_border_refl].
  - destruct (loop_pass_invariant F D nrows ncols wts rho g d I)
      as (I' & B1 & B2).
    destruct (IH _ I') as (I'' & C1 & C2).
    unfold run in *. cbn [fold_left].
    split; [exact I''|split].
    + exact (same_border_trans _ _ _ _ _ B1 C1).
    + exact (same_border_trans _ _ _ _ _ B2 C2).
Qed.

(** What one pass does to the counters: at most one step of each matrix,
    each step counted once as completed or failed, and the volume of a
    matrix moved by one exactly when its flip is completed. *)
Lemma loop_pass_counters
      (F : Type) (D : Double F) (nrows ncols : Z) (wts : Z -> F) (rho : F)
      (g : mainloop) (d : draws) :
  let g' := loop_pass nrows ncols wts rho g d in
  let dc := flipcompleted (globals g') - flipcompleted (globals g) in
  let df := flipfailed (globals g') - flipfailed (globals g) in
  0 <= dc /\ 0 <= df /\ dc + df <= 2
  /\ Z.abs (matrixvol (globals g') - matrixvol (globals g))
     + Z.abs (matrixvol2 g' - matrixvol2 g) = dc.
Proof.
  cbv zeta. unfold loop_pass.
  set (st := handle_matrix1 nrows ncols wts rho (globals g)
                            (flipchoicerow d) (flipchoicecol d) (random1 d)).
  set (g1 := Mainloop st (matrixvol2 g)).
  destruct (handle_matrix2_cases F D nrows ncols wts rho g1
              (flipchoicerow d) (flipchoicecol d) (random2 d))
    as [E | [E | (ft2 & _ & E)]]; rewrite E; clear E;
    destruct (handle_matrix1_cases F D nrows ncols wts rho (globals g)
                (flipchoicerow d) (flipchoicecol d) (random1 d))
      as [E | [E | (ft1 & _ & E)]]; fold st in E;
    unfold g1, flip_done2, flip_failed2, executeflip2;
    cbn [globals matrixvol2]; rewrite E; clear E;
    unfold flip_done, flip_failed;
    cbn [flipcompleted flipfailed matrixvol matrix matrix2];
    rewrite ?executeflip_volume;
    repeat match goal with
           | |- context [?a =? 0] => destruct (a =? 0)
           end; lia.
Qed.

(** Both matrices keep their invariant over any number of passes of the
    main loop, whatever the cells and the random numbers drawn: types in
    {0..5}, lines that join, heights that are the running counts of the
    rows, volume counters that are the sums of the heights; and the
    half-lines on the border of each lattice stay as they were at the
    start. *)
Theorem run_keeps_invariant
        (F : Type) (D : Double F) (nrows ncols : Z) (wts : Z -> F) (rho : F)
        (ds : list draws) (g : mainloop) :
  mainloop_invariant nrows ncols g ->
  let g' := run nrows ncols wts rho ds g in
  mainloop_invariant nrows ncols g'
  /\ same_border nrows ncols (matrix (globals g)) (matrix (globals g'))
  /\ same_border nrows ncols (matrix2 (globals g)) (matrix2 (globals g')).
Proof. apply run_invariant. Qed.

Lemma run_keeps_invariant_witness :
  let g' := run 3 3 wts_skew 512%Q
                [Draws 1 1 0%Q 1%Q; Draws 0 2 (1 # 2)%Q 0%Q; Draws 2 0 0%Q 0%Q]
                mainloop_joined in
  mainloop_invariant 3 3 g'
  /\ same_border 3 3 lattice_joined (matrix (globals g'))
  /\ same_border 3 3 lattice_joined (matrix2 (globals g')).
Proof.
  apply (run_keeps_invariant Q Double_Q 3 3 wts_skew 512%Q
           [Draws 1 1 0%Q 1%Q; Draws 0 2 (1 # 2)%Q 0%Q; Draws 2 0 0%Q 0%Q]
           mainloop_joined).
  split; exact lattice_joined_invariant.
Defined.

(** Over any number of passes of the main loop neither counter of flips
    goes down, every pass adds at most two to their sum (one step for each
    matrix), and the two volumes move by one per completed flip: the
    distances of the volumes from their start are together at most the
    number of completed flips. *)
Theorem run_counters
        (F : Type) (D : Double F) (nrows ncols : Z) (wts : Z -> F) (rho : F)
        (ds : list draws) (g : mainloop) :
  let g' := run nrows ncols wts rho ds g in
  let dc := flipcompleted (globals g') - flipcompleted (globals g) in
  let df := flipfailed (globals g') - flipfailed (globals g) in
  0 <= dc /\ 0 <= df /\ dc + df <= 2 * Z.of_nat (List.length ds)
  /\ Z.abs (matrixvol (globals g') - matrixvol (globals g))
     + Z.abs (matrixvol2 g' - matrixvol2 g) <= dc.
Proof.
  revert g. induction ds as [|d ds IH]; intros g; cbv zeta.
  - unfold run. cbn [fold_left List.length]. lia.
  - pose proof (loop_pass_counters F D nrows ncols wts rho g d) as P.
    pose proof (IH (loop_pass nrows ncols wts rho g d)) as Q.
    cbv zeta in P, Q. unfold run in *. cbn [fold_left].
    change (List.length (d :: ds)) with (S (List.length ds)).
    rewrite Nat2Z.inj_succ. lia.
Qed.

(** ** The snapshot and the parser *)

Lemma print_text_digit_valid (t : Z) :
  valid_type t ->
  exists b, print_text_digit t = [b] /\ Z.of_N (Byte.to_N b) = t + char_0.
Proof.
  unfold valid_type. intros Ht.
  assert (C : t = 0 \/ t = 1 \/ t = 2 \/ t = 3 \/ t = 4 \/ t = 5) by lia.
  destruct C as [-> | [-> | [-> | [-> | [-> | ->]]]]];
    eexists; split; reflexivity.
Qed.

Lemma print_text_digit_length (t : Z) :
  (List.length (print_text_digit t) <= 1)%nat.
Proof.
  destruct t as [|p|p]; simpl; try lia.
  destruct p as [[[p|p|]|[p|p|]|]|[[p|p|]|[p|p|]|]|]; simpl; lia.
Qed.

Lemma fgetc_nth_app_l (l l' : list byte) (k : nat) :
  (k < List.length l)%nat -> fgetc_nth (l ++ l') k = fgetc_nth l k.
Proof.
  intros Hk. unfold fgetc_nth. rewrite map_app.
  apply app_nth1. now rewrite length_map.
Qed.

Lemma fgetc_nth_app_r (l : list byte) (b : byte) :
  fgetc_nth (l ++ [b]) (List.length l) = Z.of_N (Byte.to_N b).
Proof.
  unfold fgetc_nth. rewrite map_app.
  rewrite app_nth2 by (rewrite length_map; lia).
  rewrite length_map, Nat.sub_diag. reflexivity.
Qed.

(** One row of the snapshot of a lattice with valid types: [ncols] bytes
    after those already written, the digit of cell [(i, j)] at place [j]. *)
Lemma print_text_row_spec (ncols : Z) (m : lattice) (i : Z) (out : list byte) :
  (forall j, 0 <= j < ncols -> valid_type (type (m i j))) ->
  let out' := print_text_row ncols m i out in
  List.length out' = (List.length out + Z.to_nat ncols)%nat
  /\ (forall k, (k < List.length out)%nat -> fgetc_nth out' k = fgetc_nth out k)
  /\ (forall j, 0 <= j < ncols ->
         fgetc_nth out' (List.length out + Z.to_nat j) = type (m i j) + char_0).
Proof.
  intros Hv. cbv zeta. unfold print_text_row.
  pose (P := fun (n : nat) (o : list byte) =>
    List.length o = (List.length out + n)%nat
    /\ (forall k, (k < List.length out)%nat -> fgetc_nth o k = fgetc_nth out k)
    /\ (forall j, 0 <= j < Z.of_nat n ->
           fgetc_nth o (List.length out + Z.to_nat j) = type (m i j) + char_0)).
  assert (HP : P (Z.to_nat ncols)
                 (for_loop (Z.to_nat ncols) 0
                    (fun j o => o ++ print_text_digit (type (m i j))) out)).
  { apply for_loop_invariant.
    - unfold P. split; [lia|]. split; [reflexivity|]. intros j Hj. lia.
    - intros k o Hk (L & A & B).
      destruct (print_text_digit_valid (type (m i (Z.of_nat k))))
        as (b & Eb & Vb); [apply Hv; lia|].
      rewrite Eb. unfold P. split; [|split].
      + rewrite length_app, L. simpl. lia.
      + intros q Hq. rewrite fgetc_nth_app_l by lia. apply A, Hq.
      + intros j Hj.
        destruct (Z.eq_dec j (Z.of_nat k)) as [->|Hne].
        * rewrite Nat2Z.id, <- L, fgetc_nth_app_r. exact Vb.
        * rewrite fgetc_nth_app_l by lia. apply B. lia. }
  destruct HP as (L & A & B). split; [exact L|]. split; [exact A|].
  intros j Hj. apply B. lia.
Qed.

(** The whole snapshot of a lattice with valid types: [nrows * ncols]
    bytes, the digit of cell [(i, j)] at place [i * ncols + j]. *)
Lemma print_text_bytes_spec (nrows ncols : Z) (m : lattice) :
  types_valid nrows ncols m ->
  let out := print_text_bytes nrows ncols m in
  List.length out = (Z.to_nat nrows * Z.to_nat ncols)%nat
  /\ (forall i j, in_lattice nrows ncols i j ->
         fgetc_nth out (Z.to_nat (i * ncols + j)) = type (m i j) + char_0).
Proof.
  intros Hv. cbv zeta. unfold print_text_bytes.
  pose (P := fun (n : nat) (o : list byte) =>
    List.length o = (n * Z.to_nat ncols)%nat
    /\ (forall i j, 0 <= i < Z.of_nat n -> 0 <= j < ncols ->
           fgetc_nth o (Z.to_nat (i * ncols + j)) = type (m i j) + char_0)).
  assert (HP : P (Z.to_nat nrows)
                 (for_loop (Z.to_nat nrows) 0 (print_text_row ncols m) [])).
  { apply for_loop_invariant.
    - unfold P. split; [reflexivity|]. intros i j Hi. lia.
    - intros k o Hk (L & B).
      destruct (print_text_row_spec ncols m (Z.of_nat k) o) as (L' & A' & B').
      { intros j Hj. apply Hv. unfold in_lattice. lia. }
      unfold P. split; [rewrite L', L; simpl; lia|].
      intros i j Hi Hj.
      destruct (Z.eq_dec i (Z.of_nat k)) as [->|Hne].
      + replace (Z.to_nat (Z.of_nat k * ncols + j))
          with (List.length o + Z.to_nat j)%nat by (rewrite L; nia).
        apply B', Hj.
      + rewrite A'; [apply B; lia|]. rewrite L. nia. }
  destruct HP as (L & B). split; [exact L|].
  intros i j [Hi Hj]. apply B; lia.
Qed.

(** The parser reads back what the snapshot wrote.  For a lattice with
    types in {0..5}, [print_text] writes one digit per cell and nothing
    else, [nrows * ncols] bytes in all, and [parse] on these bytes puts the
    type of every cell of the lattice back in its place: a snapshot is a
    valid input file for the same lattice size. *)
Theorem parse_reads_back_print_text
        (nrows ncols : Z) (m m0 : lattice) (tprint : Z) :
  types_valid nrows ncols m ->
  let file := snd (fst (print_text nrows ncols m tprint)) in
  List.length file = (Z.to_nat nrows * Z.to_nat ncols)%nat
  /\ (forall i j, in_lattice nrows ncols i j ->
         type (parse nrows ncols m0 file i j) = type (m i j))
  /\ (forall i j, height (parse nrows ncols m0 file i j) = height (m0 i j)).
Proof.
  intros Hv. cbv zeta. unfold print_text. cbn [fst snd].
  destruct (print_text_bytes_spec nrows ncols m Hv) as [L B].
  split; [exact L|]. split.
  - intros i j Hij. rewrite (proj1 (parse_spec nrows ncols m0 _)).
    destruct Hij as [Hi Hj].
    destruct (Z.leb_spec 0 i); [|lia].
    destruct (Z.ltb_spec i nrows); [|lia].
    destruct (Z.leb_spec 0 j); [|lia].
    destruct (Z.ltb_spec j ncols); [|lia].
    cbn [andb]. rewrite B by (unfold in_lattice; lia). lia.
  - apply (proj2 (parse_spec nrows ncols m0 _)).
Qed.

Lemma parse_reads_back_print_text_witness :
  let file := snd (fst (print_text 3 3 lattice_joined 0)) in
  List.length file = 9%nat
  /\ (forall i j, in_lattice 3 3 i j ->
         type (parse 3 3 zero_lattice file i j) = type (lattice_joined i j))
  /\ (forall i j, height (parse 3 3 zero_lattice file i j) = 0).
Proof.
  apply (parse_reads_back_print_text 3 3 lattice_joined zero_lattice 0).
  exact (proj1 lattice_joined_invariant).
Defined.

Lemma print_text_digit_invalid (t : Z) :
  ~ valid_type t -> print_text_digit t = [].
Proof.
  unfold valid_type. intros Ht.
  destruct t as [|p|p]; [exfalso; apply Ht; lia| |reflexivity].
  destruct p as [[[p|p|]|[p|p|]|]|[[p|p|]|[p|p|]|]|];
    try reflexivity; exfalso; apply Ht; lia.
Qed.

Lemma print_text_row_length (ncols : Z) (m : lattice) (i : Z) (out : list byte) :
  let out' := print_text_row ncols m i out in
  (List.length out' <= List.length out + Z.to_nat ncols)%nat
  /\ (forall j, 0 <= j < ncols -> ~ valid_type (type (m i j)) ->
         (List.length out' < List.length out + Z.to_nat ncols)%nat).
Proof.
  cbv zeta. unfold print_text_row.
  pose (P := fun (n : nat) (o : list byte) =>
    (List.length o <= List.length out + n)%nat
    /\ (forall j, 0 <= j < Z.of_nat n -> ~ valid_type (type (m i j)) ->
           (List.length o < List.length out + n)%nat)).
  assert (HP : P (Z.to_nat ncols)
                 (for_loop (Z.to_nat ncols) 0
                    (fun j o => o ++ print_text_digit (type (m i j))) out)).
  { apply for_loop_invariant.
    - unfold P. split; [lia|]. intros j Hj. lia.
    - intros k o _ [A B]. unfold P. rewrite length_app.
      pose proof (print_text_digit_length (type (m i (Z.of_nat k)))) as D.
      split; [lia|]. intros j Hj Hbad.
      destruct (Z.eq_dec j (Z.of_nat k)) as [->|Hne].
      + rewrite (print_text_digit_invalid _ Hbad). simpl. lia.
      + assert (List.length o < List.length out + k)%nat
          by (apply (B j); [lia|exact Hbad]).
        lia. }
  destruct HP as [A B]. split; [exact A|].
  intros j Hj. apply B. lia.
Qed.

(** The snapshot leaves out every cell whose type is outside {0..5}: it
    writes no byte for it, so the file of a lattice with such a cell is
    shorter than [nrows * ncols] and the cells after it are read back out
    of place.  [parse] stores such types (any byte that is no digit 0..5,
    or the end of the file), so not every lattice the program can hold is
    written back in full. *)
Theorem print_text_skips_invalid_cells
        (nrows ncols : Z) (m : lattice) (tprint i j : Z) :
  in_lattice nrows ncols i j ->
  ~ valid_type (type (m i j)) ->
  (List.length (snd (fst (print_text nrows ncols m tprint)))
   < Z.to_nat nrows * Z.to_nat ncols)%nat.
Proof.
  intros Hij Hbad. unfold print_text. cbn [fst snd]. unfold print_text_bytes.
  pose (P := fun (n : nat) (o : list byte) =>
    (List.length o <= n * Z.to_nat ncols)%nat
    /\ (forall i' j', 0 <= i' < Z.of_nat n -> 0 <= j' < ncols ->
           ~ valid_type (type (m i' j')) ->
           (List.length o < n * Z.to_nat ncols)%nat)).
  assert (HP : P (Z.to_nat nrows)
                 (for_loop (Z.to_nat nrows) 0 (print_text_row ncols m) [])).
  { apply for_loop_invariant.
    - unfold P. split; [simpl; lia|]. intros i' j' Hi'. lia.
    - intros k o _ [A B].
      destruct (print_text_row_length ncols m (Z.of_nat k) o) as [A' B'].
      unfold P. split; [simpl; lia|].
      intros i' j' Hi' Hj' Hbad'.
      destruct (Z.eq_dec i' (Z.of_nat k)) as [->|Hne].
      + specialize (B' j' Hj' Hbad'). simpl. lia.
      + assert (List.length o < k * Z.to_nat ncols)%nat
          by (apply (B i' j'); [lia|exact Hj'|exact Hbad']).
        simpl. lia. }
  destruct HP as [_ B]. destruct Hij as [Hi Hj].
  apply (B i j); [lia|exact Hj|exact Hbad].
Qed.

Lemma print_text_skips_invalid_cells_witness :
  (List.length (snd (fst (print_text 1 2 (parse 1 2 zero_lattice data_9) 0)))
   < 2)%nat.
Proof.
  apply (print_text_skips_invalid_cells
           1 2 (parse 1 2 zero_lattice data_9) 0 0 0).
  - unfold in_lattice. lia.
  - vm_compute. intros [_ H]. apply H. reflexivity.
Defined.

(** The two files of one snapshot: [print_text] numbers its file with
    [tprint] and then moves [tprint] on, [print_text2] numbers its file with
    the [tprint] it finds.  So the file of the second matrix carries the
    number after that of the first, cyclically in 0..20, and the two
    matrices of one moment never have the same number. *)
Theorem print_text_pair_numbers
        (nrows ncols : Z) (m m2 : lattice) (tprint : Z) :
  0 <= tprint <= 20 ->
  let r := print_text_pair nrows ncols m m2 tprint in
  fst (fst (fst r)) = tprint
  /\ fst (snd (fst r)) = (tprint + 1) mod 21
  /\ snd r = (tprint + 1) mod 21
  /\ fst (fst (fst r)) <> fst (snd (fst r))
  /\ snd (fst (fst r)) = print_text_bytes nrows ncols m
  /\ snd (snd (fst r)) = print_text_bytes nrows ncols m2.
Proof.
  intros Ht. cbv zeta. unfold print_text_pair, print_text, print_text2.
  cbn [fst snd].
  assert (E : (if tprint + 1 >? 20 then 0 else tprint + 1)
              = (tprint + 1) mod 21).
  { rewrite Z.gtb_ltb. destruct (Z.ltb_spec 20 (tprint + 1)).
    - replace tprint with 20 by lia. reflexivity.
    - rewrite Z.mod_small; lia. }
  rewrite E. repeat split.
  destruct (Z.eq_dec tprint 20) as [->|Hne]; [discriminate|].
  rewrite Z.mod_small; lia.
Qed.

Lemma print_text_pair_numbers_witness :
  let r := print_text_pair 3 3 lattice_joined lattice_joined 20 in
  fst (fst (fst r)) = 20
  /\ fst (snd (fst r)) = 0
  /\ snd r = 0
  /\ fst (fst (fst r)) <> fst (snd (fst r))
  /\ snd (fst (fst r)) = print_text_bytes 3 3 lattice_joined
  /\ snd (snd (fst r)) = print_text_bytes 3 3 lattice_joined.
Proof.
  apply (print_text_pair_numbers 3 3 lattice_joined lattice_joined 20). lia.
Defined.

(** ** The choice of the cell *)

Lemma getflippableposition_div (RAND_MAX n rand : Z) :
  0 <= RAND_MAX -> 0 <= rand -> 0 <= n ->
  getflippableposition RAND_MAX n rand = (n * rand) / (RAND_MAX + 1).
Proof.
  intros HR Hr Hn. unfold getflippableposition, Qtruncate.
  unfold Qdiv, Qinv, Qmult, Qplus, inject_Z. cbn [Qnum Qden].
  replace (RAND_MAX * 1 + 1 * 1) with (RAND_MAX + 1) by lia.
  destruct (RAND_MAX + 1) as [|p|p] eqn:E; try lia.
  cbn [Qnum Qden].
  rewrite Z.quot_div_nonneg by nia.
  rewrite !Z.mul_1_r. reflexivity.
Qed.

(** The cell drawn is a cell of the lattice: for every value [rand()] can
    return, [getflippablepositionrow] leaves a row in [0 .. nrows-1] and
    [getflippablepositioncol] a column in [0 .. ncols-1], the comment of
    the source; the value is [n * rand / (RAND_MAX + 1)] rounded down.
    And while the lattice has no more rows (columns) than [rand()] has
    values, every one of them is drawn for some value of [rand()]. *)
Theorem getflippableposition_in_range (RAND_MAX n rand : Z) :
  0 <= RAND_MAX -> 0 <= rand <= RAND_MAX -> 0 < n ->
  0 <= getflippableposition RAND_MAX n rand < n
  /\ getflippableposition RAND_MAX n rand = (n * rand) / (RAND_MAX + 1)
  /\ (n <= RAND_MAX + 1 ->
      forall k, 0 <= k < n ->
        exists rand', 0 <= rand' <= RAND_MAX
                      /\ getflippableposition RAND_MAX n rand' = k).
Proof.
  intros HR Hr Hn.
  rewrite getflippableposition_div by lia.
  split; [|split; [reflexivity|]].
  - split.
    + apply Z.div_pos; nia.
    + apply Z.div_lt_upper_bound; nia.
  - intros Hle k Hk.
    exists ((k * (RAND_MAX + 1) + n - 1) / n).
    assert (L : n * ((k * (RAND_MAX + 1) + n - 1) / n)
                <= k * (RAND_MAX + 1) + n - 1)
      by (apply Z.mul_div_le; lia).
    assert (U : k * (RAND_MAX + 1) + n - 1
                < n * ((k * (RAND_MAX + 1) + n - 1) / n) + n).
    { pose proof (Z.mod_pos_bound (k * (RAND_MAX + 1) + n - 1) n Hn).
      pose proof (Z.div_mod (k * (RAND_MAX + 1) + n - 1) n). lia. }
    assert (P0 : 0 <= (k * (RAND_MAX + 1) + n - 1) / n)
      by (apply Z.div_pos; nia).
    assert (P1 : (k * (RAND_MAX + 1) + n - 1) / n <= RAND_MAX).
    { apply Z.lt_succ_r. apply Z.div_lt_upper_bound; [lia|]. nia. }
    split; [lia|].
    rewrite getflippableposition_div by lia.
    symmetry. apply Z.div_unique with
      (r := n * ((k * (RAND_MAX + 1) + n - 1) / n) - k * (RAND_MAX + 1)).
    + left. nia.
    + lia.
Qed.

Lemma getflippableposition_in_range_witness :
  0 <= getflippableposition 2147483647 3 2147483647 < 3
  /\ getflippableposition 2147483647 3 2147483647
     = (3 * 2147483647) / (2147483647 + 1)
  /\ (3 <= 2147483647 + 1 ->
      forall k, 0 <= k < 3 ->
        exists rand', 0 <= rand' <= 2147483647
                      /\ getflippableposition 2147483647 3 rand' = k).
Proof.
  apply (getflippableposition_in_range 2147483647 3 2147483647); lia.
Defined.

(** ** The file names *)

Lemma nltrim_app_newline (s : string) :
  nltrim (s ++ newline) = s.
Proof.
  induction s as [|c s IH].
  - reflexivity.
  - change ((String c s ++ newline)%string) with (String c (s ++ newline)%string).
    destruct s as [|c' s'].
    + reflexivity.
    + change ((String c' s' ++ newline)%string)
        with (String c' (s' ++ newline)%string) in *.
      cbn [nltrim]. cbn [nltrim] in IH.
      f_equal. exact IH.
Qed.

Lemma nltrim_app_other (s : string) (c : Ascii.ascii) :
  c <> newline_char ->
  nltrim (s ++ String c EmptyString) = (s ++ String c EmptyString)%string.
Proof.
  intros Hc. induction s as [|a s IH].
  - simpl. destruct (Ascii.eqb_spec c newline_char); [contradiction|reflexivity].
  - change ((String a s ++ String c EmptyString)%string)
      with (String a (s ++ String c EmptyString)%string).
    destruct s as [|a' s'].
    + simpl. destruct (Ascii.eqb_spec c newline_char);
        [contradiction|reflexivity].
    + change ((String a' s' ++ String c EmptyString)%string)
        with (String a' (s' ++ String c EmptyString)%string) in *.
      cbn [nltrim]. cbn [nltrim] in IH. f_equal. exact IH.
Qed.

(** [nltrim] takes one newline off the end of a string and nothing else:
    a line as [fgets] returns it gives the name typed, a second newline
    before the last stays, and a string that does not end in a newline --
    the empty one included -- is left as it is. *)
Theorem nltrim_one_trailing_newline (s : string) :
  nltrim (s ++ newline) = s
  /\ nltrim ((s ++ newline) ++ newline) = (s ++ newline)%string
  /\ (forall c, c <> newline_char ->
        nltrim (s ++ String c EmptyString) = (s ++ String c EmptyString)%string)
  /\ nltrim EmptyString = EmptyString.
Proof.
  split; [apply nltrim_app_newline|].
  split; [apply nltrim_app_newline|].
  split; [intros c; apply nltrim_app_other | reflexivity].
Qed.

(** ** From the input files to the volume files *)

(** [setheights] on a lattice with valid types and joined lines sets up
    the invariant. *)
Lemma setheights_invariant (nrows ncols : Z) (m : lattice) :
  types_valid nrows ncols m ->
  lines_join nrows ncols m ->
  lattice_invariant nrows ncols (fst (setheights nrows ncols m))
                    (snd (setheights nrows ncols m)).
Proof.
  intros Hv Hj.
  pose proof (proj1 (setheights_spec nrows ncols m)) as Ht.
  split; [|split; [|split]].
  - intros i j Hij. rewrite Ht. apply Hv, Hij.
  - apply (lines_join_ext nrows ncols m); [|exact Hj].
    intros i j. apply Ht.
  - apply setheights_consistent.
  - symmetry. apply setheights_sum_heights.
Qed.

(** On a lattice that satisfies the invariant, [print_volume] recounts the
    volume counter. *)
Lemma print_volume_counter (nrows ncols : Z) (m : lattice) (vol : Z) :
  lattice_invariant nrows ncols m vol ->
  print_volume nrows ncols m = vol.
Proof.
  intros (_ & _ & Hc & ->).
  rewrite print_volume_spec. unfold sum_heights.
  apply zsum_ext. intros i Hi. apply zsum_ext. intros j Hj.
  symmetry. apply Hc. unfold in_lattice. lia.
Qed.

(** From the input files to the volume files.  When the two files hold
    lattices with types in {0..5} whose lines join, then after the
    initialisation of [main] and any number of passes of its loop both
    matrices satisfy the invariant, and the numbers [print_volume] and
    [print_volume2] recount from the types are the counters [matrixvol] and
    [matrixvol2], which [executeflip] and [executeflip2] moved by one at
    each flip. *)
Theorem main_volume_counters_exact
        (F : Type) (D : Double F) (nrows ncols : Z) (wts : Z -> F) (rho : F)
        (data data2 : list byte) (ds : list draws) :
  types_valid nrows ncols (parse nrows ncols zero_lattice data) ->
  lines_join nrows ncols (parse nrows ncols zero_lattice data) ->
  types_valid nrows ncols (parse2 nrows ncols zero_lattice data2) ->
  lines_join nrows ncols (parse2 nrows ncols zero_lattice data2) ->
  let g := run nrows ncols wts rho ds (main_initialise nrows ncols data data2) in
  mainloop_invariant nrows ncols g
  /\ print_volume nrows ncols (matrix (globals g)) = matrixvol (globals g)
  /\ print_volume2 nrows ncols (matrix2 (globals g)) = matrixvol2 g.
Proof.
  intros Hv Hj Hv2 Hj2 g.
  assert (I0 : mainloop_invariant nrows ncols
                 (main_initialise nrows ncols data data2)).
  { unfold main_initialise, mainloop_invariant, setheights2.
    cbn [globals matrix matrix2 matrixvol matrixvol2].
    split; apply setheights_invariant; assumption. }
  destruct (run_invariant F D nrows ncols wts rho ds _ I0) as [[I1 I2] _].
  fold g in I1, I2.
  split; [split; assumption|].
  split; [exact (print_volume_counter _ _ _ _ I1)|].
  exact (print_volume_counter _ _ _ _ I2).
Qed.

Lemma main_volume_counters_exact_witness :
  let g := run 3 3 wts_skew 512%Q
               [Draws 1 1 0%Q 1%Q; Draws 0 2 (1 # 2)%Q 0%Q]
               (main_initialise 3 3 data_joined data_joined) in
  mainloop_invariant 3 3 g
  /\ print_volume 3 3 (matrix (globals g)) = matrixvol (globals g)
  /\ print_volume2 3 3 (matrix2 (globals g)) = matrixvol2 g.
Proof.
  assert (V : types_valid 3 3 (parse 3 3 zero_lattice data_joined)).
  { intros i j Hij. apply in_lattice_3x3 in Hij. simpl in Hij.
    repeat (destruct Hij as [Hij|Hij];
            [inversion Hij; subst; vm_compute; split; discriminate|]).
    contradiction. }
  assert (J : lines_join 3 3 (parse 3 3 zero_lattice data_joined)).
  { split; intros i j Hij Hij2;
      apply in_lattice_3x3 in Hij; simpl in Hij;
      repeat (destruct Hij as [Hij|Hij];
              [inversion Hij; subst;
               first [ vm_compute; reflexivity
                     | exfalso; unfold in_lattice in Hij2; lia ]|]);
      contradiction. }
  exact (main_volume_counters_exact Q Double_Q 3 3 wts_skew 512%Q
           data_joined data_joined
           [Draws 1 1 0%Q 1%Q; Draws 0 2 (1 # 2)%Q 0%Q] V J V J).
Defined.

(** ** The page of the PDF preview *)

Lemma strokes_of_app (g : gstate) (a b : list pdf_op) :
  strokes_of g (a ++ b) = strokes_of g a ++ strokes_of (gstate_after g a) b.
Proof.
  revert g. induction a as [|op a IH]; intros g; [reflexivity|].
  cbn [app strokes_of]. cbv zeta. rewrite IH, app_assoc. reflexivity.
Qed.

Lemma draw_vertex_strokes (g : gstate) (w : Q) (t : Z) (x y : Q) :
  valid_type t ->
  strokes_of g (draw_vertex w t x y) = vertex_lines w t x y.
Proof.
  unfold valid_type. intros Ht.
  assert (t = 0 \/ t = 1 \/ t = 2 \/ t = 3 \/ t = 4 \/ t = 5)
    as [->|[->|[->|[->|[->| ->]]]]] by lia; reflexivity.
Qed.

Lemma half_line_ends (b : bool) (p q : Q * Q) :
  s_from (half_line b p q) = p /\ s_to (half_line b p q) = q.
Proof. destruct b; split; reflexivity. Qed.

Lemma half_line_kind (b b' : bool) (p q p' q' : Q * Q) :
  b = b' ->
  s_width (half_line b p q) = s_width (half_line b' p' q')
  /\ s_color (half_line b p q) = s_color (half_line b' p' q').
Proof. intros ->. destruct b'; split; reflexivity. Qed.

(** One row of the page. *)
Lemma print_pdf_row_spec
      (g : gstate) (ncols : Z) (m : lattice) (i : Z) (s : pdfvars) :
  (forall j, 0 <= j < ncols -> valid_type (type (m i j))) ->
  let s' := print_pdf_row ncols m i s in
  pdf_x s' = (18 / 72)%Q
  /\ pdf_y s' = (pdf_y s - vertex_size)%Q
  /\ strokes_of g (pdf_calls s')
     = strokes_of g (pdf_calls s)
       ++ flat_map (fun j =>
            vertex_lines vertex_size (type (m i (Z.of_nat j)))
                         (moved_right j (pdf_x s) vertex_size) (pdf_y s))
            (seq 0 (Z.to_nat ncols)).
Proof.
  intros Hv. cbv zeta. unfold print_pdf_row. cbv zeta. cbn [pdf_x pdf_y pdf_calls].
  pose (P := fun (n : nat) (t : pdfvars) =>
    pdf_x t = moved_right n (pdf_x s) vertex_size
    /\ pdf_y t = pdf_y s
    /\ strokes_of g (pdf_calls t)
       = strokes_of g (pdf_calls s)
         ++ flat_map (fun j =>
              vertex_lines vertex_size (type (m i (Z.of_nat j)))
                           (moved_right j (pdf_x s) vertex_size) (pdf_y s))
              (seq 0 n)).
  assert (HP : P (Z.to_nat ncols)
                 (for_loop (Z.to_nat ncols) 0 (print_pdf_cell m i) s)).
  { apply for_loop_invariant.
    - unfold P. cbn [moved_right seq flat_map]. rewrite app_nil_r. auto.
    - intros k t Hk (X & Y & C). unfold P, print_pdf_cell.
      cbn [pdf_x pdf_y pdf_calls]. split; [|split].
      + rewrite X. reflexivity.
      + exact Y.
      + rewrite strokes_of_app, C, draw_vertex_strokes by (apply Hv; lia).
        rewrite seq_S, flat_map_app. cbn [flat_map Nat.add].
        rewrite app_nil_r, X, Y, <- app_assoc. reflexivity. }
  destruct HP as (X & Y & C). rewrite Y. auto.
Qed.

(** The whole page. *)
Lemma print_pdf_spec (g : gstate) (nrows ncols : Z) (m : lattice) :
  types_valid nrows ncols m ->
  strokes_of g (print_pdf nrows ncols m) = lattice_lines nrows ncols m.
Proof.
  intros Hv. unfold print_pdf, lattice_lines.
  pose (y0 := (inject_Z (nrows * 6 + 18) / 72)%Q).
  pose (P := fun (n : nat) (t : pdfvars) =>
    pdf_x t = (18 / 72)%Q
    /\ pdf_y t = moved_down n y0 vertex_size
    /\ strokes_of g (pdf_calls t)
       = flat_map (fun i =>
           flat_map (fun j =>
             vertex_lines vertex_size (type (m (Z.of_nat i) (Z.of_nat j)))
                          (corner_x (Z.of_nat j)) (corner_y nrows (Z.of_nat i)))
             (seq 0 (Z.to_nat ncols)))
           (seq 0 n)).
  assert (HP : P (Z.to_nat nrows)
                 (for_loop (Z.to_nat nrows) 0 (print_pdf_row ncols m)
                    (Pdfvars (18 / 72)%Q y0 [Setlinewidth 1.5%Q]))).
  { apply for_loop_invariant.
    - unfold P. cbn [pdf_x pdf_y pdf_calls moved_down seq flat_map]. auto.
    - intros k t Hk (X & Y & C).
      destruct (print_pdf_row_spec g ncols m (Z.of_nat k) t) as (X' & Y' & C').
      { intros j Hj. apply Hv. unfold in_lattice. lia. }
      unfold P. split; [exact X'|]. split.
      + rewrite Y', Y. reflexivity.
      + rewrite C', C, seq_S, flat_map_app. cbn [flat_map Nat.add].
        rewrite app_nil_r. f_equal.
        apply flat_map_ext. intros j.
        unfold corner_x, corner_y. rewrite !Nat2Z.id, X, Y. reflexivity. }
  exact (proj2 (proj2 HP)).
Qed.

Lemma moved_right_closed (n : nat) (x w : Q) :
  (moved_right n x w == x + inject_Z (Z.of_nat n) * w)%Q.
Proof.
  induction n as [|n IH].
  - simpl. ring.
  - cbn [moved_right]. rewrite IH, Nat2Z.inj_succ.
    unfold Z.succ. rewrite inject_Z_plus. ring.
Qed.

Lemma moved_down_closed (n : nat) (y w : Q) :
  (moved_down n y w == y - inject_Z (Z.of_nat n) * w)%Q.
Proof.
  induction n as [|n IH].
  - simpl. ring.
  - cbn [moved_down]. rewrite IH, Nat2Z.inj_succ.
    unfold Z.succ. rewrite inject_Z_plus. ring.
Qed.

(** The page [print_pdf] draws, for a lattice with types in {0..5} whose
    lines join.  The lines on the page are the four half-lines of every
    cell, row by row; the upper-left corner of cell [(i, j)] is at
    [(18 + 6 j, 18 + 6 (nrows - i))] points, so the lattice fills the page
    of [36 + 6 ncols] by [36 + 6 nrows] points up to a border of 18; and
    where two cells touch, the half-line of one ends at the point where
    that of the other starts, with the same width and colour: the bold
    lines of the picture run on from cell to cell. *)
Theorem print_pdf_page (g : gstate) (nrows ncols : Z) (m : lattice) :
  types_valid nrows ncols m ->
  lines_join nrows ncols m ->
  let none := half_line false (0, 0)%Q (0, 0)%Q in
  let cell i j :=
    vertex_lines vertex_size (type (m i j)) (corner_x j) (corner_y nrows i) in
  strokes_of g (print_pdf nrows ncols m) = lattice_lines nrows ncols m
  /\ (forall i j,
         in_lattice nrows ncols i j -> in_lattice nrows ncols i (j + 1) ->
         let right := nth 3 (cell i j) none in
         let left := nth 2 (cell i (j + 1)) none in
         s_to right = s_from left
         /\ s_width right = s_width left /\ s_color right = s_color left)
  /\ (forall i j,
         in_lattice nrows ncols i j -> in_lattice nrows ncols (i + 1) j ->
         let bottom := nth 1 (cell i j) none in
         let top := nth 0 (cell (i + 1) j) none in
         s_to bottom = s_from top
         /\ s_width bottom = s_width top /\ s_color bottom = s_color top)
  /\ (forall i j, 0 <= i -> 0 <= j ->
         (corner_x j == inject_Z (18 + 6 * j) / 72)%Q
         /\ (corner_y nrows i == inject_Z (18 + 6 * (nrows - i)) / 72)%Q).
Proof.
  intros Hv [Hh Hw]. cbv zeta.
  split; [exact (print_pdf_spec g nrows ncols m Hv)|].
  split; [|split].
  - intros i j Hij Hij'. unfold vertex_lines. cbn [nth].
    rewrite (proj2 (half_line_ends _ _ _)), (proj1 (half_line_ends _ _ _)).
    split; [|apply half_line_kind, Hh; assumption].
    unfold corner_x.
    replace (Z.to_nat (j + 1)) with (S (Z.to_nat j))
      by (unfold in_lattice in Hij; lia).
    reflexivity.
  - intros i j Hij Hij'. unfold vertex_lines. cbn [nth].
    rewrite (proj2 (half_line_ends _ _ _)), (proj1 (half_line_ends _ _ _)).
    split; [|apply half_line_kind, Hw; assumption].
    unfold corner_y.
    replace (Z.to_nat (i + 1)) with (S (Z.to_nat i))
      by (unfold in_lattice in Hij; lia).
    reflexivity.
  - intros i j Hi Hj. unfold corner_x, corner_y. split.
    + rewrite moved_right_closed, Z2Nat.id by lia.
      unfold vertex_size. rewrite inject_Z_plus, inject_Z_mult.
      change (inject_Z 18) with 18%Q. change (inject_Z 6) with 6%Q. field.
    + rewrite moved_down_closed, Z2Nat.id by lia.
      unfold vertex_size, Z.sub.
      repeat (rewrite ?inject_Z_plus, ?inject_Z_mult, ?inject_Z_opp).
      change (inject_Z 18) with 18%Q. change (inject_Z 6) with 6%Q. field.
Qed.

Lemma print_pdf_page_witness :
  strokes_of (Gstate 1 (0, 0, 0)%Q None []) (print_pdf 3 3 lattice_joined)
  = lattice_lines 3 3 lattice_joined.
Proof.
  apply (print_pdf_page (Gstate 1 (0, 0, 0)%Q None []) 3 3 lattice_joined).
  - exact (proj1 lattice_joined_invariant).
  - exact (proj1 (proj2 lattice_joined_invariant)).
Defined.

(** ** The total weight *)

Lemma print_totalweight_row_spec
      (ncols : Z) (m : lattice) (i : Z) (s : counters) :
  let s' := print_totalweight_row ncols m i s in
  let n := Z.to_nat ncols in
  numa1 s' = numa1 s + zsum n (is_type m 0 i)
  /\ numa2 s' = numa2 s + zsum n (is_type m 1 i)
  /\ numb1 s' = numb1 s + zsum n (is_type m 2 i)
  /\ numb2 s' = numb2 s + zsum n (is_type m 3 i)
  /\ numc1 s' = numc1 s + zsum n (is_type m 4 i)
  /\ numc2 s' = numc2 s + zsum n (is_type m 5 i).
Proof.
  cbv zeta. unfold print_totalweight_row.
  apply (for_loop_invariant
           (fun (n : nat) (t : counters) =>
              numa1 t = numa1 s + zsum n (is_type m 0 i)
              /\ numa2 t = numa2 s + zsum n (is_type m 1 i)
              /\ numb1 t = numb1 s + zsum n (is_type m 2 i)
              /\ numb2 t = numb2 s + zsum n (is_type m 3 i)
              /\ numc1 t = numc1 s + zsum n (is_type m 4 i)
              /\ numc2 t = numc2 s + zsum n (is_type m 5 i))).
  - simpl. lia.
  - intros k t _ (A1 & A2 & B1 & B2 & C1 & C2).
    cbn [zsum]. unfold is_type at 2 4 6 8 10 12. unfold print_totalweight_cell.
    destruct (type (m i (Z.of_nat k)))
      as [|[[[p|p|]|[p|p|]|]|[[p|p|]|[p|p|]|]|]|p];
      cbn [numa1 numa2 numb1 numb2 numc1 numc2 Z.eqb Pos.eqb]; lia.
Qed.

Lemma print_totalweight_spec (nrows ncols : Z) (m : lattice) :
  let c := print_totalweight nrows ncols m in
  numa1 c = count_type nrows ncols m 0
  /\ numa2 c = count_type nrows ncols m 1
  /\ numb1 c = count_type nrows ncols m 2
  /\ numb2 c = count_type nrows ncols m 3
  /\ numc1 c = count_type nrows ncols m 4
  /\ numc2 c = count_type nrows ncols m 5.
Proof.
  cbv zeta. unfold print_totalweight, count_type.
  apply (for_loop_invariant
           (fun (n : nat) (t : counters) =>
              numa1 t = zsum n (fun i => zsum (Z.to_nat ncols) (is_type m 0 i))
              /\ numa2 t = zsum n (fun i => zsum (Z.to_nat ncols) (is_type m 1 i))
              /\ numb1 t = zsum n (fun i => zsum (Z.to_nat ncols) (is_type m 2 i))
              /\ numb2 t = zsum n (fun i => zsum (Z.to_nat ncols) (is_type m 3 i))
              /\ numc1 t = zsum n (fun i => zsum (Z.to_nat ncols) (is_type m 4 i))
              /\ numc2 t = zsum n (fun i => zsum (Z.to_nat ncols) (is_type m 5 i)))).
  - simpl. lia.
  - intros k t _ (A1 & A2 & B1 & B2 & C1 & C2).
    destruct (print_totalweight_row_spec ncols m (Z.of_nat k) t)
      as (A1' & A2' & B1' & B2' & C1' & C2').
    cbn [zsum]. lia.
Qed.

Lemma is_type_cases (m : lattice) (i j : Z) :
  let s := is_type m 0 i j + is_type m 1 i j + is_type m 2 i j
           + is_type m 3 i j + is_type m 4 i j + is_type m 5 i j in
  0 <= s <= 1
  /\ (valid_type (type (m i j)) -> s = 1)
  /\ is_type m 0 i j + is_type m 2 i j + is_type m 5 i j
     = indicator (type (m i j)).
Proof.
  cbv zeta. unfold is_type, indicator, carries_height, valid_type.
  destruct (Z.eqb_spec (type (m i j)) 0), (Z.eqb_spec (type (m i j)) 1),
    (Z.eqb_spec (type (m i j)) 2), (Z.eqb_spec (type (m i j)) 3),
    (Z.eqb_spec (type (m i j)) 4), (Z.eqb_spec (type (m i j)) 5);
    cbn [orb]; lia.
Qed.

Lemma zsum_ones (n : nat) : zsum n (fun _ => 1) = Z.of_nat n.
Proof. induction n as [|n IH]; cbn [zsum]; lia. Qed.

(** What [print_totalweight] counts.  Its six exponents are the numbers of
    cells of the six types; they add up to at most the number of cells, and
    to exactly that number when every type is in {0..5}; and the cells the
    heights count -- the types 0, 2 and 5 -- are [numa1 + numb1 + numc2] in
    number. *)
Theorem print_totalweight_counts (nrows ncols : Z) (m : lattice) :
  let c := print_totalweight nrows ncols m in
  let all := numa1 c + numa2 c + numb1 c + numb2 c + numc1 c + numc2 c in
  (numa1 c = count_type nrows ncols m 0
   /\ numa2 c = count_type nrows ncols m 1
   /\ numb1 c = count_type nrows ncols m 2
   /\ numb2 c = count_type nrows ncols m 3
   /\ numc1 c = count_type nrows ncols m 4
   /\ numc2 c = count_type nrows ncols m 5)
  /\ numa1 c + numb1 c + numc2 c = indicator_sum nrows ncols m
  /\ 0 <= all <= Z.of_nat (Z.to_nat nrows) * Z.of_nat (Z.to_nat ncols)
  /\ (types_valid nrows ncols m ->
      all = Z.of_nat (Z.to_nat nrows) * Z.of_nat (Z.to_nat ncols)).
Proof.
  cbv zeta.
  destruct (print_totalweight_spec nrows ncols m)
    as (A1 & A2 & B1 & B2 & C1 & C2).
  split; [tauto|].
  rewrite A1, A2, B1, B2, C1, C2. unfold count_type, indicator_sum.
  rewrite <- !zsum_plus.
  split; [|split].
  - apply zsum_ext. intros i Hi. cbv beta. rewrite <- !zsum_plus.
    apply zsum_ext. intros j Hj. cbv beta.
    apply (proj2 (proj2 (is_type_cases m i j))).
  - rewrite (zsum_ext _ _ (fun i => zsum (Z.to_nat ncols) (fun j =>
               is_type m 0 i j + is_type m 1 i j + is_type m 2 i j
               + is_type m 3 i j + is_type m 4 i j + is_type m 5 i j)))
      by (intros; cbv beta; rewrite <- !zsum_plus; reflexivity).
    pose proof (zsum_bounds (Z.to_nat nrows)
                  (fun i => zsum (Z.to_nat ncols) (fun j =>
                     is_type m 0 i j + is_type m 1 i j + is_type m 2 i j
                     + is_type m 3 i j + is_type m 4 i j + is_type m 5 i j))
                  0 (Z.of_nat (Z.to_nat ncols))) as B.
    cbv beta in B.
    assert (forall i, 0 <= zsum (Z.to_nat ncols) (fun j =>
                     is_type m 0 i j + is_type m 1 i j + is_type m 2 i j
                     + is_type m 3 i j + is_type m 4 i j + is_type m 5 i j)
                      <= Z.of_nat (Z.to_nat ncols)) as R.
    { intros i.
      pose proof (zsum_bounds (Z.to_nat ncols) (fun j =>
                     is_type m 0 i j + is_type m 1 i j + is_type m 2 i j
                     + is_type m 3 i j + is_type m 4 i j + is_type m 5 i j)
                    0 1) as B'.
      cbv beta in B'.
      assert (forall k : Z, 0 <= k < Z.of_nat (Z.to_nat ncols) ->
                 0 <= is_type m 0 i k + is_type m 1 i k + is_type m 2 i k
                      + is_type m 3 i k + is_type m 4 i k + is_type m 5 i k
                 <= 1)
        by (intros; apply (proj1 (is_type_cases m i k))).
      specialize (B' H). lia. }
    specialize (B (fun i _ => R i)). lia.
  - intros Hv.
    rewrite (zsum_ext _ _ (fun _ => Z.of_nat (Z.to_nat ncols))).
    + pose proof (zsum_bounds (Z.to_nat nrows)
                    (fun _ => Z.of_nat (Z.to_nat ncols))
                    (Z.of_nat (Z.to_nat ncols)) (Z.of_nat (Z.to_nat ncols))).
      cbv beta in H. specialize (H (fun _ _ => conj (Z.le_refl _) (Z.le_refl _))).
      lia.
    + intros i Hi. cbv beta. rewrite <- !zsum_plus.
      rewrite (zsum_ext _ _ (fun _ => 1)); [apply zsum_ones|].
      intros j Hj. cbv beta.
      apply (proj1 (proj2 (is_type_cases m i j))).
      apply Hv. unfold in_lattice. lia.
Qed.

(** ** The density of c-vertices *)

(** Loops whose bodies agree on the indices they run over agree. *)
Lemma for_loop_ext {S : Type} (n : nat) (i0 : Z) (body body' : Z -> S -> S)
      (s : S) :
  (forall k t, i0 <= k < i0 + Z.of_nat n -> body k t = body' k t) ->
  for_loop n i0 body s = for_loop n i0 body' s.
Proof.
  revert i0 s. induction n as [|n IH]; intros i0 s E; [reflexivity|].
  cbn [for_loop]. rewrite E by lia. apply IH. intros k t Hk. apply E. lia.
Qed.

(** A property every pass keeps holds after the loop. *)
Lemma for_loop_keeps {S : Type} (P : S -> Prop) (n : nat) (i0 : Z)
      (body : Z -> S -> S) (s : S) :
  (forall k t, i0 <= k < i0 + Z.of_nat n -> P t -> P (body k t)) ->
  P s -> P (for_loop n i0 body s).
Proof.
  revert i0 s. induction n as [|n IH]; intros i0 s Hb Hs; [exact Hs|].
  cbn [for_loop]. apply IH.
  - intros k t Hk. apply Hb. lia.
  - apply Hb; [lia|exact Hs].
Qed.

(** A measure that every pass moves by between [lo] and [hi] is moved by
    between [n * lo] and [n * hi] by [n] passes. *)
Lemma for_loop_measure {S : Type} (mu : S -> Z) (lo hi : Z) (n : nat) (i0 : Z)
      (body : Z -> S -> S) (s : S) :
  (forall k t, mu t + lo <= mu (body k t) <= mu t + hi) ->
  mu s + Z.of_nat n * lo <= mu (for_loop n i0 body s)
  <= mu s + Z.of_nat n * hi.
Proof.
  intros Hb. revert i0 s. induction n as [|n IH]; intros i0 s.
  - cbn [for_loop]. lia.
  - cbn [for_loop]. specialize (IH (i0 + 1) (body i0 s)).
    specialize (Hb i0 s). lia.
Qed.

Lemma print_cdensity_cell_step (m : lattice) (i j k l cd : Z) :
  cd + 0 <= print_cdensity_cell m i j k l cd <= cd + 1.
Proof.
  unfold print_cdensity_cell.
  destruct ((type (m (i + k) (j + l)) =? 4) || (type (m (i + k) (j + l)) =? 5));
    lia.
Qed.

(** The count of a window is between 0 and the number of its cells. *)
Lemma print_cdensity_window_bounds (step : Z) (m : lattice) (i j : Z) :
  0 <= step ->
  0 <= print_cdensity_window step m i j
  <= (2 * half_step step + 1) * (2 * half_step step + 1).
Proof.
  intros Hs. unfold print_cdensity_window.
  assert (Hh : 0 <= half_step step)
    by (unfold half_step; apply Z.quot_pos; lia).
  set (w := Z.to_nat (half_step step + 1 - (0 - half_step step))).
  assert (Hw : Z.of_nat w = 2 * half_step step + 1) by (unfold w; lia).
  pose proof (for_loop_measure (fun cd : Z => cd) 0 (Z.of_nat w) w
                (0 - half_step step)
                (fun k cd =>
                   for_loop w (0 - half_step step)
                     (fun l cd => print_cdensity_cell m i j k l cd) cd) 0) as B.
  cbv beta in B. rewrite <- Hw.
  assert (forall k t : Z,
             t + 0 <= for_loop w (0 - half_step step)
                        (fun l cd => print_cdensity_cell m i j k l cd) t
             <= t + Z.of_nat w) as R.
  { intros k t.
    pose proof (for_loop_measure (fun cd : Z => cd) 0 1 w
                  (0 - half_step step)
                  (fun l cd => print_cdensity_cell m i j k l cd) t) as B'.
    cbv beta in B'.
    specialize (B' (fun l cd => print_cdensity_cell_step m i j k l cd)). lia. }
  specialize (B R). lia.
Qed.

(** The count of a window reads the cells of the window only. *)
Lemma print_cdensity_window_ext (step : Z) (m m' : lattice) (i j : Z) :
  (forall k l, - half_step step <= k <= half_step step ->
               - half_step step <= l <= half_step step ->
               type (m' (i + k) (j + l)) = type (m (i + k) (j + l))) ->
  print_cdensity_window step m' i j = print_cdensity_window step m i j.
Proof.
  intros E. unfold print_cdensity_window.
  apply for_loop_ext. intros k t Hk.
  apply for_loop_ext. intros l t' Hl.
  unfold print_cdensity_cell. rewrite E by lia. reflexivity.
Qed.

(** What [print_cdensity] writes, for a step that is not negative.  There
    is one quotient for every cell at least [cdensitystep/2] away from each
    side of the lattice; its count is between 0 and the number of cells of
    its window, which is [cdensitystep + 1] squared for an even step and
    [cdensitystep] squared for an odd one, while the divisor is
    [cdensitystep + 1] squared in both cases: for an odd step no quotient
    reaches 1.  And only cells of the lattice are read: two lattices with
    the same types inside the lattice give the same file. *)
Theorem print_cdensity_windows
        (nrows ncols cdensitystep : Z) (m : lattice) :
  0 <= cdensitystep ->
  let h := half_step cdensitystep in
  let out := print_cdensity nrows ncols cdensitystep m in
  Z.of_nat (List.length out)
  = Z.max 0 (nrows - 2 * h) * Z.max 0 (ncols - 2 * h)
  /\ Forall (fun e =>
               0 <= fst e <= (2 * h + 1) * (2 * h + 1)
               /\ (2 * h + 1) * (2 * h + 1) <= snd e
               /\ snd e = (cdensitystep + 1) * (cdensitystep + 1)
               /\ (Z.odd cdensitystep = true -> fst e < snd e)) out
  /\ (forall m',
         (forall i j, in_lattice nrows ncols i j ->
                      type (m' i j) = type (m i j)) ->
         print_cdensity nrows ncols cdensitystep m' = out).
Proof.
  intros Hs. cbv zeta.
  assert (Hh : 0 <= half_step cdensitystep)
    by (unfold half_step; apply Z.quot_pos; lia).
  assert (H2 : 2 * half_step cdensitystep <= cdensitystep).
  { unfold half_step.
    pose proof (Z.quot_rem cdensitystep 2 ltac:(lia)).
    pose proof (Z.rem_nonneg cdensitystep 2 ltac:(lia) Hs). lia. }
  assert (Hodd : Z.odd cdensitystep = true ->
                 2 * half_step cdensitystep + 1 <= cdensitystep).
  { intros Ho. unfold half_step.
    destruct (proj1 (Z.odd_spec _) Ho) as [q Hq].
    pose proof (Z.quot_rem cdensitystep 2 ltac:(lia)) as Q.
    pose proof (Z.rem_bound_pos cdensitystep 2 Hs ltac:(lia)). lia. }
  split; [|split].
  - unfold print_cdensity.
    set (r := Z.to_nat (nrows - half_step cdensitystep - half_step cdensitystep)).
    set (c := Z.to_nat (ncols - half_step cdensitystep - half_step cdensitystep)).
    pose proof (for_loop_measure
                  (fun o : list (Z * Z) => Z.of_nat (List.length o))
                  (Z.of_nat c) (Z.of_nat c) r (half_step cdensitystep)
                  (fun i out =>
                     for_loop c (half_step cdensitystep)
                       (fun j out =>
                          out ++ [(print_cdensity_window cdensitystep m i j,
                                   (cdensitystep + 1) * (cdensitystep + 1))])
                       out) []) as B.
    cbv beta in B.
    assert (forall (k : Z) (t : list (Z * Z)),
               Z.of_nat (List.length t) + Z.of_nat c
               <= Z.of_nat (List.length
                    (for_loop c (half_step cdensitystep)
                       (fun j out =>
                          out ++ [(print_cdensity_window cdensitystep m k j,
                                   (cdensitystep + 1) * (cdensitystep + 1))])
                       t))
               <= Z.of_nat (List.length t) + Z.of_nat c) as R.
    { intros k t.
      pose proof (for_loop_measure
                    (fun o : list (Z * Z) => Z.of_nat (List.length o))
                    1 1 c (half_step cdensitystep)
                    (fun j out =>
                       out ++ [(print_cdensity_window cdensitystep m k j,
                                (cdensitystep + 1) * (cdensitystep + 1))])
                    t) as B'.
      cbv beta in B'.
      assert (forall (j : Z) (o : list (Z * Z)),
                 Z.of_nat (List.length o) + 1
                 <= Z.of_nat (List.length
                      (o ++ [(print_cdensity_window cdensitystep m k j,
                              (cdensitystep + 1) * (cdensitystep + 1))]))
                 <= Z.of_nat (List.length o) + 1) as R'
        by (intros; rewrite length_app; simpl; lia).
      specialize (B' R'). lia. }
    specialize (B R). cbn [List.length] in B.
    assert (Z.of_nat r = Z.max 0 (nrows - 2 * half_step cdensitystep))
      by (unfold r; lia).
    assert (Z.of_nat c = Z.max 0 (ncols - 2 * half_step cdensitystep))
      by (unfold c; lia).
    nia.
  - unfold print_cdensity.
    apply for_loop_keeps; [|constructor].
    intros i o _ Ho. apply for_loop_keeps; [|exact Ho].
    intros j o' _ Ho'. apply Forall_app. split; [exact Ho'|].
    constructor; [|constructor]. cbn [fst snd].
    pose proof (print_cdensity_window_bounds cdensitystep m i j Hs) as B.
    split; [exact B|]. split; [nia|]. split; [reflexivity|].
    intros Ho2. specialize (Hodd Ho2). nia.
  - intros m' E. unfold print_cdensity.
    apply for_loop_ext. intros i o Hi.
    apply for_loop_ext. intros j o' Hj.
    rewrite (print_cdensity_window_ext cdensitystep m m' i j); [reflexivity|].
    intros k l Hk Hl. apply E. unfold in_lattice. lia.
Qed.

Lemma print_cdensity_windows_witness :
  Z.of_nat (List.length (print_cdensity 3 3 2 lattice_joined))
  = Z.max 0 (3 - 2 * half_step 2) * Z.max 0 (3 - 2 * half_step 2).
Proof.
  apply (print_cdensity_windows 3 3 2 lattice_joined). lia.
Defined.

(** ** The two passes over the matrices, given their values *)

(** With [STICKY] off the tests read one matrix only. *)
Lemma getisflippable_other (nrows ncols : Z) (m m2 m2' : lattice) (r c ftype : Z) :
  getisflippable nrows ncols m m2 r c ftype
  = getisflippable nrows ncols m m2' r c ftype.
Proof. reflexivity. Qed.

Lemma handle_matrix1_first
      (F : Type) (D : Double F) (nrows ncols : Z) (wts : Z -> F) (rho : F)
      (st st' : state) (r c : Z) (random : F) :
  matrix st = matrix st' -> matrixvol st = matrixvol st' ->
  matrix (handle_matrix1 nrows ncols wts rho st r c random)
  = matrix (handle_matrix1 nrows ncols wts rho st' r c random)
  /\ matrixvol (handle_matrix1 nrows ncols wts rho st r c random)
     = matrixvol (handle_matrix1 nrows ncols wts rho st' r c random).
Proof.
  destruct st as [m m2 v fc ff], st' as [m' m2' v' fc' ff'].
  cbn [matrix matrixvol]. intros <- <-.
  unfold handle_matrix1. cbn [matrix matrix2].
  rewrite !(getisflippable_other nrows ncols m m2' m2).
  repeat match goal with
         | |- context [if ?b then _ else _] => destruct b
         end; split; reflexivity.
Qed.

Lemma handle_matrix1_second
      (F : Type) (D : Double F) (nrows ncols : Z) (wts : Z -> F) (rho : F)
      (st : state) (r c : Z) (random : F) :
  matrix2 (handle_matrix1 nrows ncols wts rho st r c random) = matrix2 st.
Proof.
  unfold handle_matrix1.
  repeat match goal with
         | |- context [if ?b then _ else _] => destruct b
         end; reflexivity.
Qed.

Lemma handle_matrix2_first
      (F : Type) (D : Double F) (nrows ncols : Z) (wts : Z -> F) (rho : F)
      (g : mainloop) (r c : Z) (random : F) :
  matrix (globals (handle_matrix2 nrows ncols wts rho g r c random))
  = matrix (globals g)
  /\ matrixvol (globals (handle_matrix2 nrows ncols wts rho g r c random))
     = matrixvol (globals g).
Proof.
  unfold handle_matrix2. cbv zeta.
  repeat match goal with
         | |- context [if ?b then _ else _] => destruct b
         end; split; reflexivity.
Qed.

Lemma handle_matrix2_second
      (F : Type) (D : Double F) (nrows ncols : Z) (wts : Z -> F) (rho : F)
      (g g' : mainloop) (r c : Z) (random : F) :
  matrix2 (globals g) = matrix2 (globals g') -> matrixvol2 g = matrixvol2 g' ->
  matrix2 (globals (handle_matrix2 nrows ncols wts rho g r c random))
  = matrix2 (globals (handle_matrix2 nrows ncols wts rho g' r c random))
  /\ matrixvol2 (handle_matrix2 nrows ncols wts rho g r c random)
     = matrixvol2 (handle_matrix2 nrows ncols wts rho g' r c random).
Proof.
  destruct g as [[m m2 v fc ff] v2], g' as [[m' m2' v' fc' ff'] v2'].
  cbn [globals matrix2 matrixvol2]. intros <- <-.
  unfold handle_matrix2. cbv zeta. cbn [globals matrix matrix2].
  rewrite !getisflippable2_second.
  rewrite !(getisflippable_other nrows ncols m2 m' m).
  unfold getweightratio2.
  repeat match goal with
         | |- context [if ?b then _ else _] => destruct b
         end; split; reflexivity.
Qed.

(** The passes over the two matrices, given the values they work with.
    In this build ([STICKY] is 0), take two runs of the main loop whose
    passes get the same values: the same cell, the same [random] in the
    pass over the first matrix and the same [random] in the pass over the
    second.  If the first matrix and its volume are the same at the start
    of both, they are the same after any number of passes, whatever the
    second matrix holds in either run; and the other way round.  So no
    pass reads the other matrix: the tests that are to keep the matrices
    from passing each other are compiled out.  This is a statement about
    the passes for given values; where the values come from -- one stream
    of [rand()], from which a branch draws only when it is taken -- is no
    part of it. *)
Theorem run_matrices_independent
        (F : Type) (D : Double F) (nrows ncols : Z) (wts : Z -> F) (rho : F)
        (ds : list draws) (g g' : mainloop) :
  (matrix (globals g) = matrix (globals g') ->
   matrixvol (globals g) = matrixvol (globals g') ->
   matrix (globals (run nrows ncols wts rho ds g))
   = matrix (globals (run nrows ncols wts rho ds g'))
   /\ matrixvol (globals (run nrows ncols wts rho ds g))
      = matrixvol (globals (run nrows ncols wts rho ds g')))
  /\ (matrix2 (globals g) = matrix2 (globals g') ->
      matrixvol2 g = matrixvol2 g' ->
      matrix2 (globals (run nrows ncols wts rho ds g))
      = matrix2 (globals (run nrows ncols wts rho ds g'))
      /\ matrixvol2 (run nrows ncols wts rho ds g)
         = matrixvol2 (run nrows ncols wts rho ds g')).
Proof.
  split.
  - revert g g'. induction ds as [|d ds IH]; intros g g' Em Ev.
    + split; assumption.
    + unfold run. cbn [fold_left]. apply IH; unfold loop_pass.
      * rewrite !(proj1 (handle_matrix2_first _ _ _ _ _ _ _ _ _ _)).
        cbn [globals].
        apply (handle_matrix1_first F D nrows ncols wts rho); assumption.
      * rewrite !(proj2 (handle_matrix2_first _ _ _ _ _ _ _ _ _ _)).
        cbn [globals].
        apply (handle_matrix1_first F D nrows ncols wts rho); assumption.
  - revert g g'. induction ds as [|d ds IH]; intros g g' Em Ev.
    + split; assumption.
    + unfold run. cbn [fold_left].
      assert (H : forall a b : mainloop,
                 matrix2 (globals a) = matrix2 (globals b) ->
                 matrixvol2 a = matrixvol2 b ->
                 matrix2 (globals (loop_pass nrows ncols wts rho a d))
                 = matrix2 (globals (loop_pass nrows ncols wts rho b d))
                 /\ matrixvol2 (loop_pass nrows ncols wts rho a d)
                    = matrixvol2 (loop_pass nrows ncols wts rho b d)).
      { intros a b E1 E2. unfold loop_pass.
        apply handle_matrix2_second; cbn [globals matrixvol2].
        - rewrite !handle_matrix1_second. exact E1.
        - exact E2. }
      destruct (H g g' Em Ev) as [H1 H2].
      apply IH; assumption.
Qed.

Lemma run_matrices_independent_witness :
  matrix (globals (run 3 3 wts_skew 512%Q
                       [Draws 1 1 0%Q 1%Q; Draws 0 2 (1 # 2)%Q 0%Q]
                       mainloop_joined))
  = matrix (globals (run 3 3 wts_skew 512%Q
                         [Draws 1 1 0%Q 1%Q; Draws 0 2 (1 # 2)%Q 0%Q]
                         (Mainloop (State lattice_joined lattice_3x3
                                          volume_joined 5 7) 0))).
Proof.
  apply (proj1 (run_matrices_independent Q Double_Q 3 3 wts_skew 512%Q
                  [Draws 1 1 0%Q 1%Q; Draws 0 2 (1 # 2)%Q 0%Q]
                  mainloop_joined
                  (Mainloop (State lattice_joined lattice_3x3
                                   volume_joined 5 7) 0)));
    reflexivity.
Defined.
